(** * Download/tab correlation engine of the background service worker (v2.6.0)

    A shallow embedding of the background script: the filename/title
    similarity scorer ([calculateMatchScore] and its helpers), the matcher
    ([matchDownloadToTab]), the registry update ([updateTabState]), the
    progress poller ([pollTabProgress]) and the [chrome.downloads] and
    [chrome.runtime] listeners, followed by the properties established
    about them.  Two further parts of the file are embedded as well: the
    script the poller runs in the page ([getProgressFromPage], module
    [PageScript]) and the earlier worker of version 2.1.0, which binds
    downloads by the order of the clicks (module [V210]).

    Conventions of the embedding.
    - A JavaScript string is the list of its UTF-16 code units.
    - A JavaScript [Map] that is iterated is an association list kept in
      insertion order ([downloadState]); a [Map] that is only read, written
      and deleted by key is a [gmap] ([unmatchedDownloads]); the [Set]
      [monitoredTabs] is a [gset].
    - [null] and [undefined] are both [None]; truthiness tests are written
      out ([truthyStr], [truthyId]).
    - Every listener body is one atomic step on the [World]; the worker is
      followed from its start with empty maps (nothing restored from
      storage), and writes to storage and message sends do not fail.
    - The scorer is parametric in [String.prototype.toLowerCase]
      ([Platform]); on ASCII strings it is [asciiLower]. *)

From stdpp Require Import base gmap.
From Stdlib Require Import ZArith NArith List Bool Lia String Ascii.
From Stdlib Require Import DecimalString.
From Stdlib Require DecimalPos DecimalN DecimalZ.
From Stdlib Require Import Floats.
Import ListNotations.

Local Open Scope Z_scope.

(* ===================================================================== *)
(** ** JavaScript strings                                                 *)
(* ===================================================================== *)

Module JS.

(** A string is its sequence of UTF-16 code units. *)
Definition jsstring := list N.

(** ASCII literal. *)
Definition lit (s : string) : jsstring :=
  List.map N_of_ascii (list_ascii_of_string s).

Definition eqs (a b : jsstring) : bool := bool_decide (a = b).

(** Truthiness of a possibly absent string: [null], [undefined] and the
    empty string are falsy. *)
Definition truthyStr (o : option jsstring) : bool :=
  match o with
  | Some (_ :: _) => true
  | _ => false
  end.

(** Regular expression class [\s], which is also the set removed by
    [String.prototype.trim]. *)
Definition isSpace (c : N) : bool :=
  ((9 <=? c) && (c <=? 13) || (c =? 32) || (c =? 160) || (c =? 5760)
   || ((8192 <=? c) && (c <=? 8202)) || (c =? 8232) || (c =? 8233)
   || (c =? 8239) || (c =? 8287) || (c =? 12288) || (c =? 65279))%N.

(** Line terminators: the characters [.] does not match. *)
Definition isLineTerminator (c : N) : bool :=
  ((c =? 10) || (c =? 13) || (c =? 8232) || (c =? 8233))%N.

(** Regular expression classes [\d] and [[0-9]]. *)
Definition isDigit (c : N) : bool := ((48 <=? c) && (c <=? 57))%N.

(** Canonicalisation used by the [i] flag (without the [u] flag): a code
    unit outside ASCII never canonicalises to an ASCII one, so for the
    ASCII letters of the patterns only the two ASCII cases match. *)
Definition asciiUpper (c : N) : N :=
  (if (97 <=? c) && (c <=? 122) then c - 32 else c)%N.

Definition ciEq (p c : N) : bool := (asciiUpper p =? asciiUpper c)%N.

Fixpoint dropWhile (p : N -> bool) (s : jsstring) : jsstring :=
  match s with
  | [] => []
  | c :: r => if p c then dropWhile p r else s
  end.

Fixpoint takeWhile (p : N -> bool) (s : jsstring) : jsstring :=
  match s with
  | [] => []
  | c :: r => if p c then c :: takeWhile p r else []
  end.

(** [stripPrefixBy eqc p s]: if [s] starts with [p] (characters compared
    with [eqc]), what follows it. *)
Fixpoint stripPrefixBy (eqc : N -> N -> bool) (p s : jsstring)
  : option jsstring :=
  match p, s with
  | [], _ => Some s
  | _ :: _, [] => None
  | a :: p', c :: s' => if eqc a c then stripPrefixBy eqc p' s' else None
  end.

Definition stripPrefix := stripPrefixBy N.eqb.
Definition stripPrefixCI := stripPrefixBy ciEq.

Definition startsWith (p s : jsstring) : bool :=
  match stripPrefix p s with Some _ => true | None => false end.

(** [String.prototype.includes]. *)
Fixpoint includes (s sub : jsstring) : bool :=
  startsWith sub s ||
  match s with
  | [] => false
  | _ :: r => includes r sub
  end.

(** [String.prototype.trim]. *)
Definition trimStart (s : jsstring) : jsstring := dropWhile isSpace s.
Definition trimEnd (s : jsstring) : jsstring :=
  rev (dropWhile isSpace (rev s)).
Definition trim (s : jsstring) : jsstring := trimEnd (trimStart s).

(** [s.substring(0, n)]. *)
Definition substring0 (n : nat) (s : jsstring) : jsstring := firstn n s.

(** The JavaScript numbers the script computes with: integers, the two
    infinities and NaN.  (Every number it produces is integral or NaN.) *)
Inductive jsnum : Type :=
| Num (z : Z)
| PosInf
| NegInf
| NaN.

#[global] Instance jsnum_eq_dec : EqDecision jsnum.
Proof. solve_decision. Defined.

(** [a > b] and [a >= b] on numbers; every comparison with NaN is false. *)
Definition num_gtb (a b : jsnum) : bool :=
  match a, b with
  | NaN, _ | _, NaN => false
  | Num x, Num y => y <? x
  | PosInf, PosInf => false
  | PosInf, _ => true
  | _, NegInf => match a with NegInf => false | _ => true end
  | _, _ => false
  end.

Definition num_geb (a b : jsnum) : bool :=
  match a, b with
  | NaN, _ | _, NaN => false
  | Num x, Num y => y <=? x
  | PosInf, _ => true
  | _, NegInf => true
  | _, _ => false
  end.

(** [parseInt] on a string that does not start with white space, a sign or
    [0x] (the script only parses runs of digits, possibly followed by a
    kanji): the value of the leading run of decimal digits, NaN when there
    is none.  The value is the exact integer; a JavaScript number agrees
    with it below 2^53. *)
Definition digitsValue (ds : jsstring) : Z :=
  fold_left (fun acc c => 10 * acc + (Z.of_N c - 48)) ds 0.

Definition parseInt (s : jsstring) : jsnum :=
  match takeWhile isDigit s with
  | [] => NaN
  | ds => Num (digitsValue ds)
  end.

(** [Math.round] on a double: the nearest integer, ties towards
    [+Infinity]; computed exactly from the binary expansion [m * 2^e]. *)
Definition mathRound (x : float) : jsnum :=
  match Prim2SF x with
  | S754_zero _ => Num 0
  | S754_infinity false => PosInf
  | S754_infinity true => NegInf
  | S754_nan => NaN
  | S754_finite sg m e =>
      let v := if sg then Z.neg m else Z.pos m in
      if 0 <=? e then Num (v * 2 ^ e)
      else Num ((2 * v + 2 ^ (- e)) / 2 ^ (- e + 1))
  end.

(** A length or count as a double (exact below 2^53). *)
Definition floatOfNat (n : nat) : float :=
  PrimFloat.of_uint63 (Uint63.of_Z (Z.of_nat n)).

(** Abrupt completion with a [TypeError] (a property read on [null] or
    [undefined]) or normal completion with a value. *)
Inductive completion (A : Type) : Type :=
| Normal (a : A)
| TypeError.
Arguments Normal {A} a.
Arguments TypeError {A}.

(** The locale tables behind [String.prototype.toLowerCase] are the
    platform's; the development is parametric in them. *)
Class Platform := { toLowerCase : jsstring -> jsstring }.

(** On ASCII-only strings [toLowerCase] is this map. *)
Definition asciiLower (s : jsstring) : jsstring :=
  List.map (fun c => if (65 <=? c) && (c <=? 90) then c + 32 else c)%N s.

Definition AsciiPlatform : Platform := {| toLowerCase := asciiLower |}.

End JS.
Export JS.

(* ===================================================================== *)
(** ** String matching functions                                          *)
(* ===================================================================== *)

Module Scorer.

Local Open Scope N_scope.

(** The pattern [/\s*\|\s*Hitomi\.la.*$/i] anchored at the head of [s]. *)
Definition hitomiSuffixAt (s : jsstring) : bool :=
  match dropWhile isSpace s with
  | c :: r =>
      (c =? 124) &&
      match stripPrefixCI (lit "Hitomi.la") (dropWhile isSpace r) with
      | Some rest => forallb (fun x => negb (isLineTerminator x)) rest
      | None => false
      end
  | [] => false
  end.

(** [title.replace(/\s*\|\s*Hitomi\.la.*$/i, '')]: the leftmost match runs
    to the end of the string and is removed. *)
Fixpoint removeHitomiSuffix (s : jsstring) : jsstring :=
  match s with
  | [] => []
  | c :: r => if hitomiSuffixAt s then [] else c :: removeHitomiSuffix r
  end.

Definition cleanTitle (title : option jsstring) : jsstring :=
  if truthyStr title then
    match title with
    | Some t => trim (removeHitomiSuffix t)
    | None => []
    end
  else [].

Definition isSlash (c : N) : bool := (c =? 92) || (c =? 47).

(** [filepath.split(/[\\\/]/).pop()]: what follows the last separator. *)
Definition lastSegment (s : jsstring) : jsstring :=
  rev (takeWhile (fun c => negb (isSlash c)) (rev s)).

(** [filename.replace(/\.zip$/i, '')]. *)
Definition removeZipSuffix (s : jsstring) : jsstring :=
  match rev s with
  | p :: i :: z :: d :: r =>
      if (d =? 46) && ciEq 122 z && ciEq 105 i && ciEq 112 p
      then rev r else s
  | _ => s
  end.

Definition cleanFilename (filepath : option jsstring) : jsstring :=
  if truthyStr filepath then
    match filepath with
    | Some fp =>
        let seg := lastSegment fp in
        let filename := if truthyStr (Some seg) then seg else fp in
        trim (removeZipSuffix filename)
    | None => []
    end
  else [].

(** The pattern [/-(\d+)\.html/] anchored at the head of [s]. *)
Definition galleryIdAt (s : jsstring) : option jsstring :=
  match s with
  | c :: r =>
      if c =? 45 then
        match takeWhile isDigit r with
        | [] => None
        | ds => if startsWith (lit ".html") (dropWhile isDigit r)
                then Some ds else None
        end
      else None
  | [] => None
  end.

Fixpoint firstGalleryId (s : jsstring) : option jsstring :=
  match s with
  | [] => None
  | _ :: r =>
      match galleryIdAt s with
      | Some ds => Some ds
      | None => firstGalleryId r
      end
  end.

Definition extractGalleryId (url : option jsstring) : option jsstring :=
  if truthyStr url then
    match url with
    | Some u => firstGalleryId u
    | None => None
    end
  else None.

(** *** Episode numbers *)

(** An anchored pattern gives its capture and what follows the match;
    [scanAll] is the iteration of [matchAll] with the [g] flag: after a
    match the search resumes where the match ended ([skip] counts the code
    units of the current match still to pass), after a failure one code unit
    further.  Every pattern used matches at least one code unit. *)
Definition anchored := jsstring -> option (jsstring * jsstring).

Fixpoint scanAll (m : anchored) (skip : nat) (s : jsstring) : list jsstring :=
  match s with
  | [] => []
  | _ :: r =>
      match skip with
      | S k => scanAll m k r
      | O =>
          match m s with
          | Some (cap, rest) =>
              cap :: scanAll m (List.length s - List.length rest - 1)%nat r
          | None => scanAll m O r
          end
      end
  end.

Definition matchAll (m : anchored) (s : jsstring) : list jsstring :=
  scanAll m O s.

Definition isZenkakuDigit (c : N) : bool := (65296 <=? c) && (c <=? 65305).

(** The kanji of [kanjiToNum], in the order one to ten. *)
Definition kanjiDigits : list N :=
  [19968; 20108; 19977; 22235; 20116; 20845; 19971; 20843; 20061; 21313].

Definition kanjiHundred : N := 30334.

(** The class [[0-9０-９一二三四五六七八九十百]]. *)
Definition isJapaneseNumeral (c : N) : bool :=
  isDigit c || isZenkakuDigit c || existsb (N.eqb c) kanjiDigits
  || (c =? kanjiHundred).

(** The class [[話巻章部編]]. *)
Definition isCounter (c : N) : bool :=
  existsb (N.eqb c) [35441; 24059; 31456; 37096; 32232].

(** [/第([0-9０-９一二三四五六七八九十百]+)[話巻章部編]/] at the head of [s]. *)
Definition japaneseAt : anchored := fun s =>
  match s with
  | c :: r =>
      if c =? 31532 then
        match takeWhile isJapaneseNumeral r, dropWhile isJapaneseNumeral r with
        | (_ :: _) as cap, t :: rest =>
            if isCounter t then Some (cap, rest) else None
        | _, _ => None
        end
      else None
  | [] => None
  end.

(** [\s*([0-9]+)], the tail of the English pattern. *)
Definition numberTail : anchored := fun s =>
  let s' := dropWhile isSpace s in
  match takeWhile isDigit s' with
  | [] => None
  | ds => Some (ds, dropWhile isDigit s')
  end.

(** One alternative of [(?:Vol\.?|Part|Episode|Ep\.?|Ch\.?|Chapter)]
    followed by the tail; [dot] says whether the keyword ends in [\.?]. *)
Definition keywordAt (kw : string) (dot : bool) : anchored := fun s =>
  match stripPrefixCI (lit kw) s with
  | Some r =>
      match r with
      | 46 :: r' => if dot then numberTail r' else numberTail r
      | _ => numberTail r
      end
  | None => None
  end.

Fixpoint firstOf (ms : list anchored) : anchored := fun s =>
  match ms with
  | [] => None
  | m :: ms' =>
      match m s with
      | Some x => Some x
      | None => firstOf ms' s
      end
  end.

(** [/(?:Vol\.?|Part|Episode|Ep\.?|Ch\.?|Chapter)\s*([0-9]+)/i] at the head
    of [s]; the alternatives are tried in the order written. *)
Definition englishAt : anchored :=
  firstOf [ keywordAt "Vol" true; keywordAt "Part" false;
            keywordAt "Episode" false; keywordAt "Ep" true;
            keywordAt "Ch" true; keywordAt "Chapter" false ].

(** [str.match(/\s*(\d+)\s*$/)]: the capture is the run of digits that
    ends the string once trailing white space is passed. *)
Definition trailingNumber (s : jsstring) : option jsstring :=
  match takeWhile isDigit (dropWhile isSpace (rev s)) with
  | [] => None
  | ds => Some (rev ds)
  end.

Definition isOpenBracket (c : N) : bool :=
  existsb (N.eqb c) [40; 91; 65288; 12304].
Definition isCloseBracket (c : N) : bool :=
  existsb (N.eqb c) [41; 93; 65289; 12305].

(** [/[(\[（【](\d+)[)\]）】]/] at the head of [s]. *)
Definition bracketAt : anchored := fun s =>
  match s with
  | c :: r =>
      if isOpenBracket c then
        match takeWhile isDigit r, dropWhile isDigit r with
        | (_ :: _) as cap, t :: rest =>
            if isCloseBracket t then Some (cap, rest) else None
        | _, _ => None
        end
      else None
  | [] => None
  end.

(** Position of [c] in [l]. *)
Fixpoint indexOf (c : N) (l : list N) : option nat :=
  match l with
  | [] => None
  | x :: r => if c =? x then Some O
              else match indexOf c r with
                   | Some i => Some (S i)
                   | None => None
                   end
  end.

(** Decimal digits of a natural number ([result += n]). *)
Definition digitChar (n : nat) : N := 48 + N.of_nat n.

(** One step of the loop of [normalizeNumber]: what [char] appends. *)
Definition convertNumeral (c : N) : jsstring :=
  if isZenkakuDigit c then [c - 65296 + 48]
  else match indexOf c kanjiDigits with
       | Some 9%nat => [49; 48]
       | Some i => [digitChar (S i)]
       | None => [c]
       end.

Definition normalizeNumber (str : jsstring) : jsnum :=
  if forallb isDigit str && negb (eqs str []) then parseInt str
  else
    match parseInt (flat_map convertNumeral str) with
    | NaN | Num 0%Z => Num 0
    | n => n
    end.

(** [[...new Set(numbers)]]: first occurrences, in order. *)
Fixpoint dedupNums (seen : list jsnum) (l : list jsnum) : list jsnum :=
  match l with
  | [] => []
  | n :: r =>
      if bool_decide (n ∈ seen) then dedupNums seen r
      else n :: dedupNums (n :: seen) r
  end.

Definition extractEpisodeNumbers (str : jsstring) : list jsnum :=
  match str with
  | [] => []
  | _ =>
      let japanese := List.map normalizeNumber (matchAll japaneseAt str) in
      let english := List.map parseInt (matchAll englishAt str) in
      let trailing :=
        match trailingNumber str with
        | Some ds => [parseInt ds]
        | None => []
        end in
      let brackets := List.map parseInt (matchAll bracketAt str) in
      dedupNums [] (japanese ++ english ++ trailing ++ brackets)
  end.

(** *** Normalisation *)

(** The class [[「」『』【】\[\]()（）\{\}<>《》♡♥★☆]]. *)
Definition isDecoration (c : N) : bool :=
  existsb (N.eqb c)
    [12300; 12301; 12302; 12303; 12304; 12305; 91; 93; 40; 41; 65288; 65289;
     123; 125; 60; 62; 12298; 12299; 9825; 9829; 9733; 9734].

(** The class [[.\-_～~→]]. *)
Definition isSeparator (c : N) : bool :=
  existsb (N.eqb c) [46; 45; 95; 65374; 126; 8594].

(** [.replace(/\s+/g, ' ')]; [inRun] says that the previous code unit was
    white space. *)
Fixpoint collapseSpaces (inRun : bool) (s : jsstring) : jsstring :=
  match s with
  | [] => []
  | c :: r =>
      if isSpace c then
        if inRun then collapseSpaces true r else 32 :: collapseSpaces true r
      else c :: collapseSpaces false r
  end.

Definition normalizeForComparison `{Platform} (str : jsstring) : jsstring :=
  match str with
  | [] => []
  | _ =>
      trim
        (collapseSpaces false
           (List.map (fun c => if isSeparator c then 32 else c)
              (List.filter (fun c => negb (isDecoration c))
                 (toLowerCase str))))
  end.

(** *** Score *)

Fixpoint getBigrams (str : jsstring) : list jsstring :=
  match str with
  | a :: ((b :: _) as r) => [a; b] :: getBigrams r
  | _ => []
  end.

(** [Math.round(similarity * 70)] with
    [similarity = (2 * intersection) / (bigrams1.length + bigrams2.length)],
    in double precision. *)
Definition similarityScore (intersection total : nat) : jsnum :=
  mathRound
    (PrimFloat.mul
       (PrimFloat.div (floatOfNat (2 * intersection)) (floatOfNat total))
       (floatOfNat 70)).

Definition calculateMatchScore `{Platform}
    (filename tabTitle galleryId : option jsstring) : completion jsnum :=
  let cleanedFilename := cleanFilename filename in
  let cleanedTitle := cleanTitle tabTitle in
  (* 1. gallery id *)
  let idMatch : completion bool :=
    match galleryId with
    | Some ((_ :: _) as g) =>
        match filename with
        | Some f => Normal (includes f g || includes cleanedFilename g)
        | None => TypeError
        end
    | _ => Normal false
    end in
  match idMatch with
  | TypeError => TypeError
  | Normal true => Normal (Num 100)
  | Normal false =>
  (* 2. exact match *)
  if eqs cleanedFilename cleanedTitle then Normal (Num 100) else
  (* 3. normalised match *)
  let normFilename := normalizeForComparison cleanedFilename in
  let normTitle := normalizeForComparison cleanedTitle in
  if eqs normFilename normTitle then Normal (Num 98) else
  (* 4. episode numbers *)
  let filenameNums := extractEpisodeNumbers cleanedFilename in
  let titleNums := extractEpisodeNumbers cleanedTitle in
  if (0 <? List.length filenameNums)%nat && (0 <? List.length titleNums)%nat
     && negb (existsb (fun n => bool_decide (n ∈ titleNums)) filenameNums)
  then Normal (Num 10) else
  (* 5. containment *)
  if includes normFilename normTitle || includes normTitle normFilename
  then Normal (Num 85) else
  (* 6. common prefix *)
  let minLen := Nat.min (List.length normFilename) (List.length normTitle) in
  let compareLen := Nat.min minLen 25 in
  if (5 <? compareLen)%nat
     && eqs (substring0 compareLen normFilename)
            (substring0 compareLen normTitle)
  then Normal (Num 80) else
  (* 7. bigram similarity *)
  let bigrams1 := getBigrams normFilename in
  let bigrams2 := getBigrams normTitle in
  let intersection :=
    List.length
      (List.filter (fun b => bool_decide (b ∈ bigrams2)) bigrams1) in
  Normal
    (similarityScore intersection
       (List.length bigrams1 + List.length bigrams2))
  end.

End Scorer.
Export Scorer.

(* ===================================================================== *)
(** ** State management                                                   *)
(* ===================================================================== *)

(** A JavaScript [Map] with integer keys, in insertion order: [set] on a
    present key keeps the position of its entry, on an absent key appends
    one. *)
Module JSMap.
Section JSMap.
Context {V : Type}.

Fixpoint get (k : Z) (m : list (Z * V)) : option V :=
  match m with
  | [] => None
  | (k', v) :: r => if k =? k' then Some v else get k r
  end.

Fixpoint set (k : Z) (v : V) (m : list (Z * V)) : list (Z * V) :=
  match m with
  | [] => [(k, v)]
  | (k', v') :: r => if k =? k' then (k, v) :: r else (k', v') :: set k v r
  end.

Definition delete (k : Z) (m : list (Z * V)) : list (Z * V) :=
  List.filter (fun e => negb (k =? fst e)) m.

Definition keys (m : list (Z * V)) : list Z := List.map fst m.
End JSMap.
End JSMap.

Module Background.

(** The values of [state.status]: ['in-progress'], ['complete'], ['error']. *)
Inductive Status : Type := InProgress | Complete | Error.

#[global] Instance Status_eq_dec : EqDecision Status.
Proof. solve_decision. Defined.

(** An entry of [downloadState]; a property that was never assigned is
    [None]. *)
Record TabState : Type := mkTabState {
  status : option Status;
  downloadId : option Z;
  details : option jsstring;
  progress : option jsnum;
  url : option jsstring;
  title : option jsstring;
  galleryId : option jsstring;
  hadProgressBar : option bool;
  startTime : option Z
}.

Definition withStatus (v : Status) (s : TabState) : TabState :=
  mkTabState (Some v) (downloadId s) (details s) (progress s) (url s)
    (title s) (galleryId s) (hadProgressBar s) (startTime s).
Definition withDownloadId (v : Z) (s : TabState) : TabState :=
  mkTabState (status s) (Some v) (details s) (progress s) (url s)
    (title s) (galleryId s) (hadProgressBar s) (startTime s).
Definition withDetails (v : jsstring) (s : TabState) : TabState :=
  mkTabState (status s) (downloadId s) (Some v) (progress s) (url s)
    (title s) (galleryId s) (hadProgressBar s) (startTime s).
Definition withProgress (v : jsnum) (s : TabState) : TabState :=
  mkTabState (status s) (downloadId s) (details s) (Some v) (url s)
    (title s) (galleryId s) (hadProgressBar s) (startTime s).
Definition withHadProgressBar (v : bool) (s : TabState) : TabState :=
  mkTabState (status s) (downloadId s) (details s) (progress s) (url s)
    (title s) (galleryId s) (Some v) (startTime s).

(** The object literal [{}]. *)
Definition emptyState : TabState :=
  mkTabState None None None None None None None None None.

(** The object literal [{ downloadId: null, progress: 0 }]. *)
Definition defaultState : TabState :=
  mkTabState None None None (Some (Num 0)) None None None None None.

(** Truthiness of [state.downloadId]: [null], [undefined] and [0] are
    falsy. *)
Definition truthyId (o : option Z) : bool :=
  match o with
  | Some d => negb (d =? 0)
  | None => false
  end.

(** An entry of [unmatchedDownloads]. *)
Record Unmatched : Type := mkUnmatched {
  ufilename : option jsstring;
  uurl : option jsstring
}.

(** What the script sends out: a [STATUS_UPDATE] message and a write of
    the whole registry to [chrome.storage.local]. *)
Inductive Output : Type :=
| StatusUpdate (tabId : Z) (st : Status) (det : jsstring)
| StorageSet (snapshot : list (Z * TabState)).

Record World : Type := mkWorld {
  downloadState : list (Z * TabState);
  monitoredTabs : gset Z;
  progressPolling : bool;
  unmatchedDownloads : gmap Z Unmatched;
  sent : list Output
}.

Definition initialWorld : World := mkWorld [] ∅ false ∅ [].

Definition setDownloadState (m : list (Z * TabState)) (w : World) : World :=
  mkWorld m (monitoredTabs w) (progressPolling w) (unmatchedDownloads w)
    (sent w).
Definition setMonitoredTabs (t : gset Z) (w : World) : World :=
  mkWorld (downloadState w) t (progressPolling w) (unmatchedDownloads w)
    (sent w).
Definition setProgressPolling (b : bool) (w : World) : World :=
  mkWorld (downloadState w) (monitoredTabs w) b (unmatchedDownloads w)
    (sent w).
Definition setUnmatched (u : gmap Z Unmatched) (w : World) : World :=
  mkWorld (downloadState w) (monitoredTabs w) (progressPolling w) u (sent w).
Definition emit (o : Output) (w : World) : World :=
  mkWorld (downloadState w) (monitoredTabs w) (progressPolling w)
    (unmatchedDownloads w) (sent w ++ [o]).

Definition saveStateToStorage (w : World) : World :=
  emit (StorageSet (downloadState w)) w.

Definition broadcastStatusUpdate (tabId : Z) (st : Status) (det : jsstring)
    (w : World) : World :=
  emit (StatusUpdate tabId st det) w.

Definition updateTabState (tabId : Z) (st : Status) (det : jsstring)
    (w : World) : World :=
  let state :=
    match JSMap.get tabId (downloadState w) with
    | Some s => s
    | None => defaultState
    end in
  let state := withDetails det (withStatus st state) in
  let w := setDownloadState (JSMap.set tabId state (downloadState w)) w in
  let w := broadcastStatusUpdate tabId st det w in
  match st with
  | Complete | Error => saveStateToStorage w
  | InProgress => w
  end.

(* ===================================================================== *)
(** ** Matching                                                           *)
(* ===================================================================== *)

(** The loop of [matchDownloadToTab] over the entries of [downloadState],
    with the running [bestMatch] and [bestScore].  (The [candidates] array
    is only logged.) *)
Fixpoint bestCandidate `{Platform} (filename : jsstring)
    (entries : list (Z * TabState)) (bestMatch : option Z)
    (bestScore : jsnum) : completion (option Z * jsnum) :=
  match entries with
  | [] => Normal (bestMatch, bestScore)
  | (tabId, state) :: rest =>
      if negb (bool_decide (status state = Some InProgress))
      then bestCandidate filename rest bestMatch bestScore
      else if truthyId (downloadId state)
      then bestCandidate filename rest bestMatch bestScore
      else
        match calculateMatchScore (Some filename) (title state)
                (galleryId state) with
        | TypeError => TypeError
        | Normal score =>
            if num_gtb score bestScore
            then bestCandidate filename rest (Some tabId) score
            else bestCandidate filename rest bestMatch bestScore
        end
  end.

Definition matchDownloadToTab `{Platform} (dlId : Z) (filename : jsstring)
    (dlUrl : option jsstring) (w : World) : completion (bool * World) :=
  match bestCandidate filename (downloadState w) None (Num 0) with
  | TypeError => TypeError
  | Normal (bestMatch, bestScore) =>
      match bestMatch with
      | Some tab =>
          if num_geb bestScore (Num 30) then
            match JSMap.get tab (downloadState w) with
            | Some state =>
                let w :=
                  setDownloadState
                    (JSMap.set tab (withDownloadId dlId state)
                       (downloadState w)) w in
                Normal (true, saveStateToStorage w)
            | None => TypeError
            end
          else Normal (false, w)
      | None => Normal (false, w)
      end
  end.

(* ===================================================================== *)
(** ** Progress polling                                                   *)
(* ===================================================================== *)

(** The [status] of the object [getProgressFromPage] returns. *)
Inductive PageStatus : Type :=
| Downloading | PreparingZip | Ready | UnknownStatus.

(** How [chrome.scripting.executeScript] settles in [pollTabProgress]:
    rejected (and then whether [chrome.tabs.get] still finds the tab), or
    fulfilled with [results[0].result], when there is one. *)
Inductive ScriptOutcome : Type :=
| Rejected (tabExists : bool)
| Fulfilled (result : option (PageStatus * jsnum)).

Definition numberToString (n : jsnum) : jsstring :=
  match n with
  | Num z => lit (DecimalString.NilZero.string_of_int (Z.to_int z))
  | PosInf => lit "Infinity"
  | NegInf => lit "-Infinity"
  | NaN => lit "NaN"
  end.

(** The template [`${progress}%`]. *)
Definition percent (n : jsnum) : jsstring := numberToString n ++ lit "%".

(** ['ZIP準備中...'] *)
Definition textPreparing : jsstring :=
  [90; 73; 80; 28310; 20633; 20013; 46; 46; 46]%N.
(** ['処理中...'] *)
Definition textProcessing : jsstring := [20966; 29702; 20013; 46; 46; 46]%N.
(** ['ダウンロード開始...'] *)
Definition textStarting : jsstring :=
  [12480; 12454; 12531; 12525; 12540; 12489; 38283; 22987; 46; 46; 46]%N.
(** ['ボタンクリック完了'] *)
Definition textClicked : jsstring :=
  [12508; 12479; 12531; 12463; 12522; 12483; 12463; 23436; 20102]%N.
(** ['中断'] *)
Definition textInterrupted : jsstring := [20013; 26029]%N.

(** Assignment to a property of the object stored under [tabId]. *)
Definition modifyState (tabId : Z) (f : TabState -> TabState) (w : World)
  : World :=
  match JSMap.get tabId (downloadState w) with
  | Some s => setDownloadState (JSMap.set tabId (f s) (downloadState w)) w
  | None => w
  end.

Definition pollTabProgress (tabId : Z) (o : ScriptOutcome) (w : World)
  : World :=
  match o with
  | Rejected tabExists =>
      if tabExists then w
      else setMonitoredTabs (monitoredTabs w ∖ {[tabId]}) w
  | Fulfilled None => w
  | Fulfilled (Some (pstatus, pprogress)) =>
      match JSMap.get tabId (downloadState w) with
      | None => w
      | Some currentState =>
          let w := modifyState tabId (withProgress pprogress) w in
          match pstatus with
          | Downloading =>
              let w := updateTabState tabId InProgress (percent pprogress) w in
              modifyState tabId (withHadProgressBar true) w
          | PreparingZip =>
              if bool_decide (hadProgressBar currentState = Some true)
                 && negb (truthyId (downloadId currentState))
              then updateTabState tabId InProgress textPreparing w
              else w
          | Ready | UnknownStatus => w
          end
      end
  end.

(** [progressPolling] says that [progressPollingInterval] is set. *)
Definition startProgressPolling (w : World) : World :=
  if progressPolling w then w else setProgressPolling true w.

Definition addToMonitoring (tabId : Z) (w : World) : World :=
  startProgressPolling (setMonitoredTabs (monitoredTabs w ∪ {[tabId]}) w).

(** The first statement of the interval callback of
    [startProgressPolling]; the polls it then starts are separate steps. *)
Definition pollingTick (w : World) : World :=
  if progressPolling w && bool_decide (monitoredTabs w = ∅)
  then setProgressPolling false w
  else w.

(* ===================================================================== *)
(** ** Chrome downloads API                                               *)
(* ===================================================================== *)

(** The properties of a [DownloadItem] the script reads. *)
Record DownloadItem : Type := mkDownloadItem {
  itemId : Z;
  itemFilename : option jsstring;
  itemUrl : option jsstring
}.

(** [delta.state.current]. *)
Inductive DownloadPhase : Type :=
| PhaseInProgress | PhaseInterrupted | PhaseComplete | PhaseOther.

(** The properties of a [DownloadDelta] the script reads:
    [delta.filename.current], [delta.state.current] and
    [delta.error.current], each [None] when the delta lacks it. *)
Record DownloadDelta : Type := mkDownloadDelta {
  deltaId : Z;
  deltaFilename : option jsstring;
  deltaState : option DownloadPhase;
  deltaError : option jsstring
}.

(** The listener of [chrome.downloads.onCreated]. *)
Definition onCreated `{Platform} (item : DownloadItem) (w : World) : World :=
  match itemFilename item with
  | Some ((_ :: _) as filename) =>
      match matchDownloadToTab (itemId item) filename (itemUrl item) w with
      | TypeError => w
      | Normal (matched, w) =>
          if matched then w
          else setUnmatched
                 (<[itemId item := mkUnmatched (Some filename) (itemUrl item)]>
                    (unmatchedDownloads w)) w
      end
  | _ =>
      setUnmatched
        (<[itemId item := mkUnmatched None (itemUrl item)]>
           (unmatchedDownloads w)) w
  end.

(** The tab of the first entry whose [downloadId] is [dlId]. *)
Definition findBound (dlId : Z) (m : list (Z * TabState)) : option Z :=
  match List.find (fun e => bool_decide (downloadId (snd e) = Some dlId)) m with
  | Some e => Some (fst e)
  | None => None
  end.

(** First [if] of the listener of [chrome.downloads.onChanged]; the
    boolean is [false] when the listener was abandoned by an exception. *)
Definition onChangedFilename `{Platform} (delta : DownloadDelta) (w : World)
  : World * bool :=
  match deltaFilename delta with
  | Some ((_ :: _) as current) =>
      match unmatchedDownloads w !! deltaId delta with
      | Some info =>
          if negb (truthyStr (ufilename info)) then
            let w :=
              setUnmatched
                (<[deltaId delta := mkUnmatched (Some current) (uurl info)]>
                   (unmatchedDownloads w)) w in
            match matchDownloadToTab (deltaId delta) current (uurl info) w with
            | TypeError => (w, false)
            | Normal (matched, w) =>
                if matched
                then (setUnmatched
                        (base.delete (deltaId delta) (unmatchedDownloads w)) w,
                      true)
                else (w, true)
            end
          else (w, true)
      | None => (w, true)
      end
  | _ => (w, true)
  end.

(** Second [if] of the listener, [if (delta.state)]. *)
Definition onChangedState `{Platform} (delta : DownloadDelta) (w : World)
  : World :=
  match deltaState delta with
  | None => w
  | Some current =>
      match findBound (deltaId delta) (downloadState w) with
      | Some tabId =>
          match current with
          | PhaseComplete =>
              let w := updateTabState tabId Complete [] w in
              let w := setMonitoredTabs (monitoredTabs w ∖ {[tabId]}) w in
              let w :=
                setUnmatched
                  (base.delete (deltaId delta) (unmatchedDownloads w)) w in
              saveStateToStorage w
          | PhaseInterrupted =>
              let message :=
                if truthyStr (deltaError delta)
                then match deltaError delta with
                     | Some m => m
                     | None => textInterrupted
                     end
                else textInterrupted in
              let w := updateTabState tabId Error message w in
              let w := setMonitoredTabs (monitoredTabs w ∖ {[tabId]}) w in
              let w :=
                setUnmatched
                  (base.delete (deltaId delta) (unmatchedDownloads w)) w in
              saveStateToStorage w
          | _ => w
          end
      | None =>
          match current with
          | PhaseComplete =>
              match unmatchedDownloads w !! deltaId delta with
              | Some (mkUnmatched (Some ((_ :: _) as filename)) infoUrl) =>
                  match matchDownloadToTab (deltaId delta) filename infoUrl w
                  with
                  | TypeError => w
                  | Normal (matched, w) =>
                      let w :=
                        if matched then
                          match findBound (deltaId delta) (downloadState w)
                          with
                          | Some tabId =>
                              let w := updateTabState tabId Complete [] w in
                              setMonitoredTabs (monitoredTabs w ∖ {[tabId]}) w
                          | None => w
                          end
                        else w in
                      setUnmatched
                        (base.delete (deltaId delta) (unmatchedDownloads w)) w
                  end
              | _ => w
              end
          | _ => w
          end
      end
  end.

Definition onChanged `{Platform} (delta : DownloadDelta) (w : World) : World :=
  match onChangedFilename delta w with
  | (w, true) => onChangedState delta w
  | (w, false) => w
  end.

(* ===================================================================== *)
(** ** Message handler and download handlers                              *)
(* ===================================================================== *)

(** What [chrome.tabs.get] gives for a tab. *)
Record TabInfo : Type := mkTabInfo {
  tabUrl : option jsstring;
  tabTitle : option jsstring
}.

(** How one iteration of the loop of [handleStartDownloads] (or of
    [handleRetryDownloads]) goes: an exception before the entry is written
    (the tab is gone), an exception after it (the script could not be
    injected), or none.  The exception carries [error.message]. *)
Inductive StartOutcome : Type :=
| TabLookupFailed (message : jsstring)
| InjectionFailed (tab : TabInfo) (message : jsstring)
| Injected (tab : TabInfo).

(** One iteration for [tabId] at time [now] ([Date.now()]); [det] is the
    text of [details], which is all that differs between the two loops. *)
Definition startOne (det : jsstring) (tabId now : Z) (o : StartOutcome)
    (w : World) : World :=
  let begin (tab : TabInfo) : World :=
    let entry :=
      mkTabState (Some InProgress) None (Some det) (Some (Num 0))
        (tabUrl tab) (tabTitle tab) (extractGalleryId (tabUrl tab))
        (Some false) (Some now) in
    let w := setDownloadState (JSMap.set tabId entry (downloadState w)) w in
    saveStateToStorage (broadcastStatusUpdate tabId InProgress det w) in
  match o with
  | TabLookupFailed message => updateTabState tabId Error message w
  | InjectionFailed tab message =>
      updateTabState tabId Error message (begin tab)
  | Injected tab => addToMonitoring tabId (begin tab)
  end.

Definition handleStartDownloads := startOne textProcessing.
Definition handleRetryDownloads := startOne textStarting.

(** The messages of [chrome.runtime.onMessage], with [sender.tab.id] when
    the sender is a tab. *)
Inductive Message : Type :=
| GET_STATUS
| DOWNLOAD_CLICKED (senderTab : option Z)
| DOWNLOAD_PROGRESS (senderTab : option Z) (messageProgress : jsnum)
| DOWNLOAD_ERROR (senderTab : option Z) (messageError : jsstring)
| CLEAR_COMPLETED.

Definition onMessage (m : Message) (w : World) : World :=
  match m with
  | GET_STATUS => w
  | DOWNLOAD_CLICKED (Some tab) =>
      let state :=
        match JSMap.get tab (downloadState w) with
        | Some s => s
        | None => emptyState
        end in
      let state := withHadProgressBar false state in
      let w := setDownloadState (JSMap.set tab state (downloadState w)) w in
      let w := updateTabState tab InProgress textClicked w in
      addToMonitoring tab w
  | DOWNLOAD_PROGRESS (Some tab) p =>
      let w :=
        modifyState tab (fun s => withHadProgressBar true (withProgress p s)) w
      in
      updateTabState tab InProgress (percent p) w
  | DOWNLOAD_ERROR (Some tab) e =>
      let w := updateTabState tab Error e w in
      setMonitoredTabs (monitoredTabs w ∖ {[tab]}) w
  | CLEAR_COMPLETED =>
      let m :=
        List.filter
          (fun e => negb (bool_decide (status (snd e) = Some Complete)))
          (downloadState w) in
      saveStateToStorage (setDownloadState m w)
  | DOWNLOAD_CLICKED None | DOWNLOAD_PROGRESS None _ | DOWNLOAD_ERROR None _ =>
      w
  end.

(* ===================================================================== *)
(** ** The service worker as a transition system                          *)
(* ===================================================================== *)

(** Everything the worker reacts to.  Each reaction is one step. *)
Inductive Event : Type :=
| DownloadCreated (item : DownloadItem)
| DownloadChanged (delta : DownloadDelta)
| Polled (tabId : Z) (o : ScriptOutcome)
| PollingTick
| StartDownload (tabId now : Z) (o : StartOutcome)
| RetryDownload (tabId now : Z) (o : StartOutcome)
| Received (m : Message).

Definition handle `{Platform} (e : Event) (w : World) : World :=
  match e with
  | DownloadCreated item => onCreated item w
  | DownloadChanged delta => onChanged delta w
  | Polled tabId o => pollTabProgress tabId o w
  | PollingTick => pollingTick w
  | StartDownload tabId now o => handleStartDownloads tabId now o w
  | RetryDownload tabId now o => handleRetryDownloads tabId now o w
  | Received m => onMessage m w
  end.

(** The ids of the downloads whose creation was reported so far. *)
Definition createdIds (history : list Event) : list Z :=
  flat_map (fun e => match e with
                     | DownloadCreated item => [itemId item]
                     | _ => []
                     end) history.

(** What the download subsystem guarantees: the id of a new download is
    not [0] and was not given to an earlier download. *)
Definition admissible (history : list Event) (e : Event) : Prop :=
  match e with
  | DownloadCreated item =>
      itemId item <> 0 /\ ~ In (itemId item) (createdIds history)
  | _ => True
  end.

(** [reachable history w]: the worker, started with empty maps, is in
    state [w] after the events of [history]. *)
Inductive reachable `{Platform} : list Event -> World -> Prop :=
| reachable_init : reachable [] initialWorld
| reachable_step history w e :
    reachable history w ->
    admissible history e ->
    reachable (history ++ [e]) (handle e w).

End Background.
Export Background.

(* ===================================================================== *)
(** * Vocabulary of the properties                                        *)
(* ===================================================================== *)

(** A task the matcher may bind: in progress and not bound. *)
Definition candidate (st : TabState) : Prop :=
  status st = Some InProgress /\ downloadId st = None.

(** [scores filename st s]: the scorer gives [s] for the file name against
    the title and gallery id of the task. *)
Definition scores `{Platform} (filename : jsstring) (st : TabState)
    (s : jsnum) : Prop :=
  calculateMatchScore (Some filename) (title st) (galleryId st) = Normal s.

(** The keys of a [Map] are distinct, and no task is bound to the download
    id [0] (which the subsystem does not use). *)
Definition wfRegistry (m : list (Z * TabState)) : Prop :=
  NoDup (JSMap.keys m)
  /\ forall tab st, In (tab, st) m -> downloadId st <> Some 0.

(** The world once [dlId] is bound to the entry [st] of [tab]. *)
Definition bindTo (dlId tab : Z) (st : TabState) (w : World) : World :=
  saveStateToStorage
    (setDownloadState
       (JSMap.set tab (withDownloadId dlId st) (downloadState w)) w).

(** What the loop leaves in [bestMatch] and [bestScore]: either nothing
    beat the score it started from, or the first entry, in the order of
    the map, among the candidates with the greatest score. *)
Definition bestSpec `{Platform} (filename : jsstring)
    (entries : list (Z * TabState)) (bestMatch : option Z)
    (bestScore : jsnum) (bm : option Z) (bs : jsnum) : Prop :=
  (bm = bestMatch /\ bs = bestScore
   /\ forall tab st s, In (tab, st) entries -> candidate st ->
        scores filename st s -> num_gtb s bestScore = false)
  \/ exists l1 tab st l2,
       entries = l1 ++ (tab, st) :: l2
       /\ bm = Some tab /\ candidate st /\ scores filename st bs
       /\ num_gtb bs bestScore = true
       /\ (forall t2 st2 s, In (t2, st2) l1 -> candidate st2 ->
             scores filename st2 s -> num_geb s bs = false)
       /\ (forall t2 st2 s, In (t2, st2) l2 -> candidate st2 ->
             scores filename st2 s -> num_gtb s bs = false).

(** The state of task [tab], when the registry has it. *)
Definition task (w : World) (tab : Z) : option TabState :=
  JSMap.get tab (downloadState w).

(** The world after a sequence of events. *)
Definition run `{Platform} (events : list Event) (w : World) : World :=
  fold_left (fun w e => handle e w) events w.

(** Each event is admissible after the ones before it. *)
Fixpoint admissibleAll (history events : list Event) : Prop :=
  match events with
  | [] => True
  | e :: rest => admissible history e /\ admissibleAll (history ++ [e]) rest
  end.

(** A registry with one task in progress, not bound, with the given
    title. *)
Definition oneTask (tabTitle : string) : World :=
  mkWorld
    [(1, mkTabState (Some InProgress) None None (Some (Num 0)) None
           (Some (lit tabTitle)) None (Some false) (Some 100))]
    ∅ false ∅ [].

(** Two tabs are started, the first at time 100 and the second at time
    200, with the same title; then the first is retried at time 300. *)
Definition sameTitle : TabInfo :=
  mkTabInfo (Some (lit "https://hitomi.la/reader/1.html"))
    (Some (lit "Same title")).





(** The download id task [t] is bound to. *)
Definition bound (w : World) (t : Z) : option Z :=
  match task w t with
  | Some st => downloadId st
  | None => None
  end.

(** [noNewComplete w w']: every task complete in [w'] was complete in
    [w]. *)
Definition noNewComplete (w w' : World) : Prop :=
  forall t st', task w' t = Some st' -> status st' = Some Complete ->
    exists st, task w t = Some st /\ status st = Some Complete.

(** A task in progress at 95%, bound to download 5, whose page showed a
    progress bar. *)
Definition nearlyDone : World :=
  mkWorld
    [(1, mkTabState (Some InProgress) (Some 5) (Some (lit "95%"))
           (Some (Num 95)) None (Some (lit "Some title")) None (Some true)
           (Some 100))]
    {[1]} true ∅ [].

(** The events of the download subsystem, the only ones that reach the
    matcher. *)
Definition isDownloadEvent (e : Event) : Prop :=
  match e with
  | DownloadCreated _ | DownloadChanged _ => True
  | _ => False
  end.

(** What holds of the bindings in every reachable world: the keys of the
    registry are distinct; a download id a task is bound to is not [0],
    was created, and is not in the unmatched queue; an id in the queue is
    not [0] and was created; and no two tasks are bound to one id. *)
Definition bindingInvariant (history : list Event) (w : World) : Prop :=
  NoDup (JSMap.keys (downloadState w))
  /\ (forall t d, bound w t = Some d ->
        d <> 0 /\ In d (createdIds history)
        /\ unmatchedDownloads w !! d = None)
  /\ (forall d, unmatchedDownloads w !! d <> None ->
        d <> 0 /\ In d (createdIds history))
  /\ (forall t1 t2 d, bound w t1 = Some d -> bound w t2 = Some d -> t1 = t2).

(** [bindsOne d w w']: from [w] to [w'] the download [d] is bound to one
    candidate, and nothing else changes in the bindings. *)
Definition bindsOne (d : Z) (w w' : World) : Prop :=
  exists tab st,
    task w tab = Some st /\ candidate st
    /\ forall t, bound w' t = if bool_decide (t = tab) then Some d
                              else bound w t.

(** [frames w w']: from [w] to [w'] the keys of the registry stay
    distinct, no task gets a download id it did not have, and the
    unmatched queue is the same. *)
Definition frames (w w' : World) : Prop :=
  NoDup (JSMap.keys (downloadState w)) ->
  NoDup (JSMap.keys (downloadState w'))
  /\ (forall t d, bound w' t = Some d -> bound w t = Some d)
  /\ unmatchedDownloads w' = unmatchedDownloads w.

(** A tab is started and the download 5, created with the name of its
    gallery, is bound to it. *)
Definition galleryTab : TabInfo :=
  mkTabInfo (Some (lit "https://hitomi.la/doujinshi/my-gallery-424242.html"))
    (Some (lit "My Gallery | Hitomi.la")).

Definition boundOnce : list Event :=
  [ StartDownload 1 100 (Injected galleryTab);
    DownloadCreated
      (mkDownloadItem 5 (Some (lit "C:\Downloads\My Gallery.zip")) None) ].

(** A tab is started and the download 5 is created without a name. *)
Definition parkedNameless : list Event :=
  [ StartDownload 1 100 (Injected galleryTab);
    DownloadCreated (mkDownloadItem 5 None None) ].

(** The name of download 5 is determined. *)
Definition nameDetermined : DownloadDelta :=
  mkDownloadDelta 5 (Some (lit "C:\Downloads\My Gallery.zip")) None None.

(** A string without numerals. *)
Definition numeralFree (s : jsstring) : Prop :=
  forall c, In c s -> isJapaneseNumeral c = false.

(** Lower-casing keeps the numerals (they have no case). *)
Definition keepsNumerals `{Platform} : Prop :=
  forall x a, isJapaneseNumeral a = true -> In a x -> In a (toLowerCase x).

(** A label is empty for the scorer when it is absent or empty, or when
    its normal form is empty. *)
Definition emptyLabel `{Platform} (tabTitle : option jsstring) : Prop :=
  truthyStr tabTitle = false
  \/ (keepsNumerals /\ normalizeForComparison (cleanTitle tabTitle) = []).

(** A task in progress, not bound, with the given title. *)
Definition unboundTask (tabTitle : option jsstring) : TabState :=
  mkTabState (Some InProgress) None None (Some (Num 0)) None tabTitle None
    (Some false) (Some 100).

(** The title made of the two brackets [【】]. *)
Definition bracketsOnly : jsstring := [12304; 12305]%N.

(** Two tabs with the same title are started; a download is created with
    the name of the gallery. *)
Definition twoTabs : list Event :=
  [ StartDownload 1 100 (Injected sameTitle);
    StartDownload 2 200 (Injected sameTitle) ].

Definition sameTitleDownload (dlId : Z) : Event :=
  DownloadCreated (mkDownloadItem dlId (Some (lit "Same title.zip")) None).

(** A string made of white space only. *)
Definition allSpace (s : jsstring) : Prop :=
  forall c, In c s -> isSpace c = true.

(** A string without [/] and [\]. *)
Definition noSeparator (s : jsstring) : Prop :=
  forall c, In c s -> isSlash c = false.

(** No two neighbours in [s] are both white space. *)
Fixpoint singleSpaced (s : jsstring) : bool :=
  match s with
  | a :: ((b :: _) as r) => negb (isSpace a && isSpace b) && singleSpaced r
  | _ => true
  end.


(** A non-empty run of decimal digits. *)
Definition digitRun (ds : jsstring) : Prop :=
  ds <> [] /\ forallb isDigit ds = true.

(** [u] has the reference [-<ds>.html] of a gallery right after [pre]. *)
Definition galleryRef (u pre ds : jsstring) : Prop :=
  digitRun ds /\ exists post, u = pre ++ 45%N :: ds ++ lit ".html" ++ post.


(** The status is final: [complete] or [error]. *)
Definition terminal (st : TabState) : Prop :=
  status st = Some Complete \/ status st = Some Error.

(** Every task with a final status in [w'] had that status in [w]. *)
Definition keepsTerminal (w w' : World) : Prop :=
  forall t st', task w' t = Some st' -> terminal st' ->
    exists st, task w t = Some st /\ status st = status st'.

(** The last thing sent is the write of the current registry to storage. *)
Definition savedLast (w : World) : Prop :=
  exists pre, sent w = pre ++ [StorageSet (downloadState w)].

(** While a tab is monitored the polling timer is set. *)
Definition polled (w : World) : Prop :=
  monitoredTabs w <> ∅ -> progressPolling w = true.


(** [sameJob st st']: the two states are of the same job: same download
    id, address, title, gallery id and start time. *)
Definition sameJob (st st' : TabState) : Prop :=
  downloadId st' = downloadId st /\ url st' = url st
  /\ title st' = title st /\ galleryId st' = galleryId st
  /\ startTime st' = startTime st.

(** [touchesOnly tabId w w']: from [w] to [w'] no task appears or
    disappears, every task keeps its job, every task but [tabId] keeps its
    whole state, a status changes to [in-progress] if at all, the
    unmatched queue is the same, and all that is sent is status updates
    [in-progress] for [tabId] (nothing is written to storage). *)
Definition touchesOnly (tabId : Z) (w w' : World) : Prop :=
  (forall t,
     match task w t, task w' t with
     | Some st, Some st' =>
         sameJob st st' /\ (t <> tabId -> st' = st)
         /\ (status st' = status st \/ status st' = Some InProgress)
     | None, None => True
     | _, _ => False
     end)
  /\ unmatchedDownloads w' = unmatchedDownloads w
  /\ exists out,
       sent w' = sent w ++ out
       /\ forall x, In x out -> exists det, x = StatusUpdate tabId InProgress det.

(** A tab is started; the download 5, created with the name of its
    gallery, is bound to it and completes. *)
Definition completedOnce : list Event :=
  [ StartDownload 1 100 (Injected galleryTab);
    StartDownload 2 200 (Injected sameTitle);
    DownloadCreated
      (mkDownloadItem 5 (Some (lit "C:\Downloads\My Gallery.zip")) None);
    DownloadChanged (mkDownloadDelta 5 None (Some PhaseComplete) None) ].

(** [announces w w']: what is sent from [w] to [w'] tells of every change
    of status: each task of [w'] either has the status and the details it
    had in [w], or a status update for it, with the status and the
    details it has in [w'], was sent in between. *)
Definition announces (w w' : World) : Prop :=
  exists out,
    sent w' = sent w ++ out
    /\ forall t st', task w' t = Some st' ->
         (exists st, task w t = Some st
                     /\ status st = status st' /\ details st = details st')
         \/ exists s det,
              status st' = Some s /\ details st' = Some det
              /\ In (StatusUpdate t s det) out.

(** [keepsTasks w w']: every task of [w] is still a task of [w']. *)
Definition keepsTasks (w w' : World) : Prop :=
  forall t, task w t <> None -> task w' t <> None.

(* ===================================================================== *)
(** * The script polled in the page                                       *)
(* ===================================================================== *)

Module PageScript.

(** What the injected script reads of an element:
    [window.getComputedStyle(el).display] and
    [el.getAttribute('aria-valuenow')] ([None] for [null]). *)
Record Element : Type := mkElement {
  display : jsstring;
  ariaValueNow : option jsstring
}.

(** What it reads of the document: the elements with the ids
    [progressbar] and [dl-button], when there are such. *)
Record Page : Type := mkPage {
  progressbar : option Element;
  dlButton : option Element
}.

(** [parseInt(s, 10)]: leading white space is skipped, a sign is read,
    and the value is that of the leading run of decimal digits, NaN when
    there is none.  ([-0] is not told from [0].) *)
Definition parseInt10 (s : jsstring) : jsnum :=
  let s := trimStart s in
  let '(sign, s) :=
    match s with
    | 45%N :: r => (-1, r)
    | 43%N :: r => (1, r)
    | _ => (1, s)
    end in
  match takeWhile isDigit s with
  | [] => NaN
  | ds => Num (sign * digitsValue ds)
  end.

(** [window.getComputedStyle(el).display !== 'none']. *)
Definition shown (e : Element) : bool := negb (eqs (display e) (lit "none")).

Definition getProgressFromPage (p : Page) : PageStatus * jsnum :=
  let downloading :=
    match progressbar p with
    | Some bar =>
        if shown bar then
          let value := ariaValueNow bar in
          Some (Downloading,
                parseInt10
                  (if truthyStr value
                   then match value with Some v => v | None => lit "0" end
                   else lit "0"))
        else None
    | None => None
    end in
  match downloading with
  | Some r => r
  | None =>
      match dlButton p with
      | Some button =>
          if shown button then (Ready, Num 0) else (PreparingZip, Num 100)
      | None => (PreparingZip, Num 100)
      end
  end.

(** A poll whose script ran in the page: [results[0].result] is the
    object [getProgressFromPage] returned. *)
Definition pollPage (tabId : Z) (p : Page) (w : World) : World :=
  pollTabProgress tabId (Fulfilled (Some (getProgressFromPage p))) w.

End PageScript.
Export PageScript.

(** A decimal numeral as JavaScript prints a non-negative integer: a
    non-empty run of digits that is [0] or does not start with [0]. *)
Definition canonicalNumeral (v : jsstring) : Prop :=
  digitRun v /\ (v = [48%N] \/ hd 48%N v <> 48%N).

(** The digits of a run, most significant first. *)
Fixpoint toUint (ds : jsstring) : Decimal.uint :=
  match ds with
  | [] => Decimal.Nil
  | c :: r =>
      match (c - 48)%N with
      | 0%N => Decimal.D0 (toUint r)
      | 1%N => Decimal.D1 (toUint r)
      | 2%N => Decimal.D2 (toUint r)
      | 3%N => Decimal.D3 (toUint r)
      | 4%N => Decimal.D4 (toUint r)
      | 5%N => Decimal.D5 (toUint r)
      | 6%N => Decimal.D6 (toUint r)
      | 7%N => Decimal.D7 (toUint r)
      | 8%N => Decimal.D8 (toUint r)
      | _ => Decimal.D9 (toUint r)
      end
  end.

(** The state of a task after a poll that saw a progress bar with the
    value [n], shown as [text]. *)
Definition reported (n : jsnum) (text : jsstring) (cur : TabState)
  : TabState :=
  mkTabState (Some InProgress) (downloadId cur) (Some text) (Some n)
    (url cur) (title cur) (galleryId cur) (Some true) (startTime cur).

(** A page with a visible progress bar at 42. *)
Definition pageAt42 : Page :=
  mkPage (Some (mkElement (lit "block") (Some (lit "42")))) None.


(* ===================================================================== *)
(** * The worker of version 2.1.0                                         *)
(* ===================================================================== *)

(** The file holds a second, earlier worker (v2.1.0).  It has no matcher:
    the tabs whose button was clicked wait in the list
    [pendingDownloadTabs], and a new download goes to the head of that
    list.  The entries of its registry have no [galleryId] and no
    [startTime]. *)
Module V210.

Inductive Output : Type :=
| StatusUpdate (tabId : Z) (st : Status) (det : jsstring)
| ProgressUpdate (tabId : Z) (messageProgress : jsnum)
| StorageSet (snapshot : list (Z * TabState)).

Record World : Type := mkWorld {
  downloadState : list (Z * TabState);
  monitoredTabs : gset Z;
  progressPolling : bool;
  pendingDownloadTabs : list Z;
  sent : list Output
}.

Definition initialWorld : World := mkWorld [] ∅ false [] [].

Definition setDownloadState (m : list (Z * TabState)) (w : World) : World :=
  mkWorld m (monitoredTabs w) (progressPolling w) (pendingDownloadTabs w)
    (sent w).
Definition setMonitoredTabs (t : gset Z) (w : World) : World :=
  mkWorld (downloadState w) t (progressPolling w) (pendingDownloadTabs w)
    (sent w).
Definition setProgressPolling (b : bool) (w : World) : World :=
  mkWorld (downloadState w) (monitoredTabs w) b (pendingDownloadTabs w)
    (sent w).
Definition setPending (p : list Z) (w : World) : World :=
  mkWorld (downloadState w) (monitoredTabs w) (progressPolling w) p (sent w).
Definition emit (o : Output) (w : World) : World :=
  mkWorld (downloadState w) (monitoredTabs w) (progressPolling w)
    (pendingDownloadTabs w) (sent w ++ [o]).

Definition saveStateToStorage (w : World) : World :=
  emit (StorageSet (downloadState w)) w.

Definition broadcastStatusUpdate (tabId : Z) (st : Status) (det : jsstring)
    (w : World) : World :=
  emit (StatusUpdate tabId st det) w.

Definition broadcastProgressUpdate (tabId : Z) (p : jsnum) (w : World)
  : World :=
  emit (ProgressUpdate tabId p) w.

Definition updateTabState (tabId : Z) (st : Status) (det : jsstring)
    (w : World) : World :=
  let state :=
    match JSMap.get tabId (downloadState w) with
    | Some s => s
    | None => defaultState
    end in
  let state := withDetails det (withStatus st state) in
  let w := setDownloadState (JSMap.set tabId state (downloadState w)) w in
  let w := broadcastStatusUpdate tabId st det w in
  match st with
  | Complete | Error => saveStateToStorage w
  | InProgress => w
  end.

(** Assignment to a property of the object stored under [tabId]. *)
Definition modifyState (tabId : Z) (f : TabState -> TabState) (w : World)
  : World :=
  match JSMap.get tabId (downloadState w) with
  | Some s => setDownloadState (JSMap.set tabId (f s) (downloadState w)) w
  | None => w
  end.

(** The object [getProgressFromPage] returns. *)
Record PageResult : Type := mkPageResult {
  pageStatus : PageStatus;
  pageProgress : jsnum;
  hasProgressBar : bool;
  progressBarVisible : bool
}.

Definition getProgressFromPage (p : Page) : PageResult :=
  let '(has, visible, progress) :=
    match progressbar p with
    | Some bar =>
        let value := ariaValueNow bar in
        (true, shown bar,
         parseInt10
           (if truthyStr value
            then match value with Some v => v | None => lit "0" end
            else lit "0"))
    | None => (false, false, Num 0)
    end in
  let dlButtonVisible :=
    match dlButton p with
    | Some button => shown button
    | None => false
    end in
  if visible && num_gtb progress (Num 0)
  then mkPageResult Downloading progress has visible
  else if has && negb visible && negb dlButtonVisible
  then mkPageResult PreparingZip (Num 100) has visible
  else if dlButtonVisible
  then mkPageResult Ready (Num 0) has visible
  else mkPageResult UnknownStatus progress has visible.

Inductive ScriptOutcome : Type :=
| Rejected (tabExists : bool)
| Fulfilled (result : option PageResult).

Definition pollTabProgress (tabId : Z) (o : ScriptOutcome) (w : World)
  : World :=
  match o with
  | Rejected tabExists =>
      if tabExists then w
      else setMonitoredTabs (monitoredTabs w ∖ {[tabId]}) w
  | Fulfilled None => w
  | Fulfilled (Some r) =>
      match JSMap.get tabId (downloadState w) with
      | None => w
      | Some currentState =>
          let w := modifyState tabId (withProgress (pageProgress r)) w in
          match pageStatus r with
          | Downloading =>
              if hasProgressBar r && progressBarVisible r then
                let w :=
                  updateTabState tabId InProgress (percent (pageProgress r)) w
                in
                modifyState tabId (withHadProgressBar true) w
              else w
          | PreparingZip =>
              if bool_decide (hadProgressBar currentState = Some true)
                 && negb (truthyId (downloadId currentState))
              then updateTabState tabId InProgress textPreparing w
              else w
          | Ready | UnknownStatus => w
          end
      end
  end.

Definition startProgressPolling (w : World) : World :=
  if progressPolling w then w else setProgressPolling true w.

Definition addToMonitoring (tabId : Z) (w : World) : World :=
  startProgressPolling (setMonitoredTabs (monitoredTabs w ∪ {[tabId]}) w).

Definition pollingTick (w : World) : World :=
  if progressPolling w && bool_decide (monitoredTabs w = ∅)
  then setProgressPolling false w
  else w.

(** ['ダウンロード中断'] *)
Definition textAborted : jsstring :=
  [12480; 12454; 12531; 12525; 12540; 12489; 20013; 26029]%N.
(** ['リロード中...'] *)
Definition textReloading : jsstring :=
  [12522; 12525; 12540; 12489; 20013; 46; 46; 46]%N.

(** [state.downloadId = downloadItem.id; downloadState.set(tabId, state);
    await saveStateToStorage()]. *)
Definition link (tabId dlId : Z) (state : TabState) (w : World) : World :=
  saveStateToStorage
    (setDownloadState
       (JSMap.set tabId (withDownloadId dlId state) (downloadState w)) w).

(** The listener of [chrome.downloads.onCreated]. *)
Definition onCreated (item : DownloadItem) (w : World) : World :=
  match pendingDownloadTabs w with
  | tabId :: rest =>
      let w := setPending rest w in
      match JSMap.get tabId (downloadState w) with
      | Some state =>
          if bool_decide (status state = Some InProgress)
          then link tabId (itemId item) state w
          else w
      | None => w
      end
  | [] =>
      match
        List.find
          (fun e => bool_decide (status (snd e) = Some InProgress)
                    && negb (truthyId (downloadId (snd e))))
          (downloadState w)
      with
      | Some (tabId, state) => link tabId (itemId item) state w
      | None => w
      end
  end.

(** The listener of [chrome.downloads.onChanged]. *)
Definition onChanged (delta : DownloadDelta) (w : World) : World :=
  match deltaState delta with
  | None => w
  | Some current =>
      match findBound (deltaId delta) (downloadState w) with
      | Some tabId =>
          match current with
          | PhaseComplete =>
              let w := updateTabState tabId Complete [] w in
              let w := setMonitoredTabs (monitoredTabs w ∖ {[tabId]}) w in
              saveStateToStorage w
          | PhaseInterrupted =>
              let message :=
                if truthyStr (deltaError delta)
                then match deltaError delta with
                     | Some m => m
                     | None => textAborted
                     end
                else textAborted in
              let w := updateTabState tabId Error message w in
              let w := setMonitoredTabs (monitoredTabs w ∖ {[tabId]}) w in
              saveStateToStorage w
          | _ => w
          end
      | None => w
      end
  end.

Inductive Message : Type :=
| GET_STATUS
| DOWNLOAD_CLICKED (senderTab : option Z)
| DOWNLOAD_PROGRESS (senderTab : option Z) (messageProgress : jsnum)
| DOWNLOAD_COMPLETE
| DOWNLOAD_ERROR (senderTab : option Z) (messageError : jsstring)
| CLEAR_COMPLETED.

Definition onMessage (m : Message) (w : World) : World :=
  match m with
  | GET_STATUS | DOWNLOAD_COMPLETE => w
  | DOWNLOAD_CLICKED (Some tab) =>
      let w := setPending (pendingDownloadTabs w ++ [tab]) w in
      let state :=
        match JSMap.get tab (downloadState w) with
        | Some s => s
        | None => emptyState
        end in
      let state := withHadProgressBar false state in
      let w := setDownloadState (JSMap.set tab state (downloadState w)) w in
      let w := updateTabState tab InProgress textClicked w in
      addToMonitoring tab w
  | DOWNLOAD_PROGRESS (Some tab) p =>
      let w :=
        modifyState tab (fun s => withHadProgressBar true (withProgress p s)) w
      in
      let w := updateTabState tab InProgress (percent p) w in
      broadcastProgressUpdate tab p w
  | DOWNLOAD_ERROR (Some tab) e =>
      let w := updateTabState tab Error e w in
      setMonitoredTabs (monitoredTabs w ∖ {[tab]}) w
  | CLEAR_COMPLETED =>
      let m :=
        List.filter
          (fun e => negb (bool_decide (status (snd e) = Some Complete)))
          (downloadState w) in
      saveStateToStorage (setDownloadState m w)
  | DOWNLOAD_CLICKED None | DOWNLOAD_PROGRESS None _ | DOWNLOAD_ERROR None _ =>
      w
  end.

(** The first statement of [handleStartDownloads] and of
    [handleRetryDownloads]: [pendingDownloadTabs = []]. *)
Definition clearPending (w : World) : World := setPending [] w.

(** One iteration of the loop of [handleStartDownloads]. *)
Definition startOne (tabId : Z) (o : StartOutcome) (w : World) : World :=
  let begin (tab : TabInfo) : World :=
    let entry :=
      mkTabState (Some InProgress) None (Some textProcessing) (Some (Num 0))
        (tabUrl tab) (tabTitle tab) None (Some false) None in
    let w := setDownloadState (JSMap.set tabId entry (downloadState w)) w in
    let w :=
      saveStateToStorage (broadcastStatusUpdate tabId InProgress textProcessing w)
    in
    setPending (pendingDownloadTabs w ++ [tabId]) w in
  match o with
  | TabLookupFailed message => updateTabState tabId Error message w
  | InjectionFailed tab message =>
      updateTabState tabId Error message (begin tab)
  | Injected tab => addToMonitoring tabId (begin tab)
  end.

(** How one iteration of the loop of [handleRetryDownloads] goes: the
    reload is refused, the script cannot be injected, or neither. *)
Inductive RetryOutcome : Type :=
| ReloadFailed (message : jsstring)
| ClickFailed (message : jsstring)
| Clicked.

Definition retryOne (tabId : Z) (o : RetryOutcome) (w : World) : World :=
  let entry :=
    mkTabState (Some InProgress) None (Some textReloading) (Some (Num 0))
      None None None (Some false) None in
  let w := setDownloadState (JSMap.set tabId entry (downloadState w)) w in
  let w :=
    saveStateToStorage (broadcastStatusUpdate tabId InProgress textReloading w)
  in
  match o with
  | ReloadFailed message => updateTabState tabId Error message w
  | ClickFailed message =>
      let w := setPending (pendingDownloadTabs w ++ [tabId]) w in
      let w := broadcastStatusUpdate tabId InProgress textStarting w in
      updateTabState tabId Error message w
  | Clicked =>
      let w := setPending (pendingDownloadTabs w ++ [tabId]) w in
      let w := broadcastStatusUpdate tabId InProgress textStarting w in
      addToMonitoring tabId w
  end.

Inductive Event : Type :=
| DownloadCreated (item : DownloadItem)
| DownloadChanged (delta : DownloadDelta)
| Polled (tabId : Z) (o : ScriptOutcome)
| PollingTick
| StartCalled
| StartDownload (tabId : Z) (o : StartOutcome)
| RetryCalled
| RetryDownload (tabId : Z) (o : RetryOutcome)
| Received (m : Message).

Definition handle (e : Event) (w : World) : World :=
  match e with
  | DownloadCreated item => onCreated item w
  | DownloadChanged delta => onChanged delta w
  | Polled tabId o => pollTabProgress tabId o w
  | PollingTick => pollingTick w
  | StartCalled | RetryCalled => clearPending w
  | StartDownload tabId o => startOne tabId o w
  | RetryDownload tabId o => retryOne tabId o w
  | Received m => onMessage m w
  end.

Definition run (events : list Event) (w : World) : World :=
  fold_left (fun w e => handle e w) events w.

(** The state of task [tab], and the download it is bound to. *)
Definition task (w : World) (tab : Z) : option TabState :=
  JSMap.get tab (downloadState w).

Definition bound (w : World) (t : Z) : option Z :=
  match task w t with
  | Some st => downloadId st
  | None => None
  end.

(** The tabs a sequence of events starts, and the downloads it creates,
    in order. *)
Definition started (events : list Event) : list Z :=
  flat_map (fun e => match e with
                     | StartDownload tabId (Injected _) => [tabId]
                     | _ => []
                     end) events.

Definition created (events : list Event) : list Z :=
  flat_map (fun e => match e with
                     | DownloadCreated item => [itemId item]
                     | _ => []
                     end) events.

(** [clicksThenDownloads waiting events]: the events are clicks that
    succeed and new downloads, and no download comes before its click:
    with [waiting] clicks not yet followed by a download, each new
    download finds one. *)
Fixpoint clicksThenDownloads (waiting : nat) (events : list Event) : Prop :=
  match events with
  | [] => True
  | StartDownload _ (Injected _) :: rest => clicksThenDownloads (S waiting) rest
  | DownloadCreated _ :: rest =>
      match waiting with
      | S k => clicksThenDownloads k rest
      | O => False
      end
  | _ :: _ => False
  end.

End V210.

(** Three tabs are started and three downloads created, the first
    download before the third click. *)
Definition threeClicks : list V210.Event :=
  [ V210.StartDownload 1 (Injected galleryTab);
    V210.StartDownload 2 (Injected sameTitle);
    V210.DownloadCreated (mkDownloadItem 10 None None);
    V210.StartDownload 3 (Injected sameTitle);
    V210.DownloadCreated
      (mkDownloadItem 11 (Some (lit "C:\Downloads\My Gallery.zip")) None);
    V210.DownloadCreated (mkDownloadItem 12 None None) ].


(** A poll of the worker of version 2.1.0 whose script ran in the
    page. *)
Definition pollPage210 (tabId : Z) (p : Page) (w : V210.World)
  : V210.World :=
  V210.pollTabProgress tabId
    (V210.Fulfilled (Some (V210.getProgressFromPage p))) w.

(** The tab of the gallery titled [T], the download of its archive, and
    the delta that reports the download complete. *)
Definition titledTab (u : option jsstring) (T : jsstring) : TabInfo :=
  mkTabInfo u (Some (T ++ lit " | Hitomi.la")).

Definition archiveOf (d : Z) (dir : jsstring) (sep : N) (T : jsstring)
    (dlUrl : option jsstring) : DownloadItem :=
  mkDownloadItem d (Some (dir ++ sep :: T ++ lit ".zip")) dlUrl.

Definition completionOf (d : Z) : DownloadDelta :=
  mkDownloadDelta d None (Some PhaseComplete) None.

(* ===================================================================== *)
(** * Properties of the scorer                                            *)
(* ===================================================================== *)

Section ScorerFacts.
Context `{Platform}.

Lemma includes_nil (s : jsstring) : includes s [] = true.
Proof. destruct s; reflexivity. Qed.

Lemma eqs_true (a b : jsstring) : eqs a b = true <-> a = b.
Proof. unfold eqs. apply bool_decide_eq_true. Qed.


(** With a file name that is a string the scorer never throws. *)
Lemma calculateMatchScore_total (filename : jsstring)
    (tabTitle gid : option jsstring) :
  exists score,
    calculateMatchScore (Some filename) tabTitle gid = Normal score.
Proof.
  unfold calculateMatchScore.
  destruct gid as [[|c g]|]; cbv zeta;
    repeat match goal with
           | |- context [if ?b then _ else _] => destruct b
           end; eauto.
Qed.
End ScorerFacts.

(** C4. Identifier short-circuit: when the task identifier is not empty
    and occurs in the candidate name as received, or in its cleaned form,
    the score is exactly 100, whatever the label. *)
Theorem identifier_short_circuit `{Platform} (filename : jsstring)
    (tabTitle : option jsstring) (gid : jsstring) :
  gid <> [] ->
  includes filename gid = true
  \/ includes (cleanFilename (Some filename)) gid = true ->
  calculateMatchScore (Some filename) tabTitle (Some gid) = Normal (Num 100).
Proof.
  intros Hne Hin.
  destruct gid as [|c g]; [congruence|].
  unfold calculateMatchScore. cbv beta iota zeta.
  destruct Hin as [-> | Hin]; [reflexivity|].
  rewrite Hin, orb_true_r. reflexivity.
Qed.

(** The example of the specification: identifier 123456 against
    Foo_123456.zip. *)
Lemma identifier_short_circuit_witness :
  lit "123456" <> []
  /\ (includes (lit "Foo_123456.zip") (lit "123456") = true
      \/ includes (cleanFilename (Some (lit "Foo_123456.zip"))) (lit "123456")
         = true)
  /\ @calculateMatchScore AsciiPlatform (Some (lit "Foo_123456.zip"))
       (Some (lit "An unrelated title")) (Some (lit "123456"))
     = Normal (Num 100).
Proof.
  split; [discriminate|]. split; [left; reflexivity|].
  apply (@identifier_short_circuit AsciiPlatform).
  - discriminate.
  - left. reflexivity.
Defined.

(** Whatever the label and the case mapping of the platform. *)
Example identifier_example `{Platform} (label : option jsstring) :
  calculateMatchScore (Some (lit "Foo_123456.zip")) label
    (Some (lit "123456")) = Normal (Num 100).
Proof.
  unfold calculateMatchScore. cbv beta iota zeta.
  change (includes (lit "Foo_123456.zip") (lit "123456")) with true.
  reflexivity.
Qed.



(** C8. The score is not always an integer between 0 and 100.  Two
    different one-character names have no bigrams, and the similarity is
    0/0: the score is NaN.  The count of shared bigrams counts repetitions
    on the file-name side only, and the score exceeds 100 (here 127).  With
    no file name and an identifier the scorer throws. *)
Theorem score_outside_range :
  @calculateMatchScore AsciiPlatform (Some (lit "C:\Downloads\a.zip"))
    (Some (lit "b | Hitomi.la")) (Some (lit "123456"))
    = Normal NaN
  /\ @calculateMatchScore AsciiPlatform
       (Some (lit "C:\Downloads\aaaaaaaaaaaaaaaaaaaaa.zip"))
       (Some (lit "aab | Hitomi.la")) (Some (lit "123456"))
     = Normal (Num 127)
  /\ @calculateMatchScore AsciiPlatform None (Some (lit "b")) (Some (lit "1"))
     = TypeError.
Proof. repeat split; vm_compute; reflexivity. Qed.

(* ===================================================================== *)
(** * Properties of the registry map                                      *)
(* ===================================================================== *)

Section JSMapFacts.
Context {V : Type}.
Implicit Types (m : list (Z * V)) (k : Z) (v : V).

Lemma get_set_eq m k v : JSMap.get k (JSMap.set k v m) = Some v.
Proof.
  induction m as [|[k' v'] m IH]; simpl.
  - rewrite Z.eqb_refl. reflexivity.
  - destruct (Z.eqb_spec k k') as [->|Hne]; simpl.
    + rewrite Z.eqb_refl. reflexivity.
    + destruct (Z.eqb_spec k k'); [contradiction|exact IH].
Qed.

Lemma get_set_ne m k k' v :
  k <> k' -> JSMap.get k' (JSMap.set k v m) = JSMap.get k' m.
Proof.
  intros Hne. induction m as [|[k0 v0] m IH]; simpl.
  - destruct (Z.eqb_spec k' k); [congruence|reflexivity].
  - destruct (Z.eqb_spec k k0) as [->|Hk]; simpl.
    + destruct (Z.eqb_spec k' k0); [congruence|reflexivity].
    + destruct (Z.eqb_spec k' k0); [reflexivity|exact IH].
Qed.

Lemma get_In m k v : JSMap.get k m = Some v -> In (k, v) m.
Proof.
  induction m as [|[k' v'] m IH]; simpl; [discriminate|].
  destruct (Z.eqb_spec k k') as [->|Hne].
  - intros [= ->]. left. reflexivity.
  - intros Hg. right. exact (IH Hg).
Qed.

Lemma get_None_keys m k : JSMap.get k m = None <-> ~ In k (JSMap.keys m).
Proof.
  induction m as [|[k' v'] m IH]; simpl.
  - tauto.
  - destruct (Z.eqb_spec k k') as [->|Hne].
    + split; [discriminate|]. intros Hn. exfalso. apply Hn. left. reflexivity.
    + rewrite IH. split; [intros Hn [E|Hi]; [congruence|tauto]|tauto].
Qed.

Lemma In_get m k v :
  NoDup (JSMap.keys m) -> In (k, v) m -> JSMap.get k m = Some v.
Proof.
  induction m as [|[k' v'] m IH]; simpl; [tauto|].
  intros Hnd [E|Hi].
  - inversion E; subst. rewrite Z.eqb_refl. reflexivity.
  - apply NoDup_cons_iff in Hnd. destruct Hnd as [Hk Hnd].
    destruct (Z.eqb_spec k k') as [->|Hne].
    + exfalso. apply Hk. apply (in_map fst) in Hi. exact Hi.
    + exact (IH Hnd Hi).
Qed.

Lemma keys_set_present m k v v0 :
  JSMap.get k m = Some v0 -> JSMap.keys (JSMap.set k v m) = JSMap.keys m.
Proof.
  induction m as [|[k' v'] m IH]; simpl; [discriminate|].
  destruct (Z.eqb_spec k k') as [->|Hne]; simpl; [reflexivity|].
  intros Hg. f_equal. exact (IH Hg).
Qed.

Lemma keys_set_absent m k v :
  JSMap.get k m = None -> JSMap.keys (JSMap.set k v m) = JSMap.keys m ++ [k].
Proof.
  induction m as [|[k' v'] m IH]; simpl; [reflexivity|].
  destruct (Z.eqb_spec k k') as [->|Hne]; simpl; [discriminate|].
  intros Hg. f_equal. exact (IH Hg).
Qed.

Lemma NoDup_keys_set m k v :
  NoDup (JSMap.keys m) -> NoDup (JSMap.keys (JSMap.set k v m)).
Proof.
  intros Hnd. destruct (JSMap.get k m) as [v0|] eqn:Hg.
  - rewrite (keys_set_present _ _ _ _ Hg). exact Hnd.
  - rewrite (keys_set_absent _ _ _ Hg).
    apply get_None_keys in Hg.
    apply NoDup_app.
    + exact Hnd.
    + constructor; [simpl; tauto|constructor].
    + intros x Hx [<-|[]]. contradiction.
Qed.

Lemma get_filter m k (p : Z * V -> bool) v :
  JSMap.get k (List.filter p m) = Some v -> In (k, v) m /\ p (k, v) = true.
Proof.
  intros Hg. apply get_In in Hg. apply filter_In in Hg. exact Hg.
Qed.

Lemma NoDup_keys_filter m (p : Z * V -> bool) :
  NoDup (JSMap.keys m) -> NoDup (JSMap.keys (List.filter p m)).
Proof.
  induction m as [|[k v] m IH]; simpl; [tauto|].
  intros Hnd. apply NoDup_cons_iff in Hnd. destruct Hnd as [Hk Hnd].
  destruct (p (k, v)); simpl; [|exact (IH Hnd)].
  apply NoDup_cons_iff. split; [|exact (IH Hnd)].
  intros Hi. apply Hk. unfold JSMap.keys in *.
  apply in_map_iff in Hi. destruct Hi as ([k' v'] & E & Hi).
  apply filter_In in Hi. destruct Hi as [Hi _]. simpl in E. subst k'.
  apply (in_map fst) in Hi. exact Hi.
Qed.

Lemma set_app m1 m2 k v v0 :
  ~ In k (JSMap.keys m1) ->
  JSMap.set k v (m1 ++ (k, v0) :: m2) = m1 ++ (k, v) :: m2.
Proof.
  induction m1 as [|[k' v'] m1 IH]; simpl; intros Hn.
  - rewrite Z.eqb_refl. reflexivity.
  - destruct (Z.eqb_spec k k') as [->|Hne]; [tauto|].
    f_equal. apply IH. tauto.
Qed.
End JSMapFacts.

(* ===================================================================== *)
(** * Properties of the matcher                                           *)
(* ===================================================================== *)

Section NumberOrder.
Implicit Types a b c : jsnum.

Lemma num_gtb_not_NaN a b : num_gtb a b = true -> a <> NaN /\ b <> NaN.
Proof. destruct a, b; simpl; intros; split; congruence. Qed.

Lemma num_gtb_irrefl a : num_gtb a a = false.
Proof. destruct a; simpl; try reflexivity. apply Z.ltb_irrefl. Qed.

Lemma num_gtb_trans a b c :
  num_gtb a b = true -> num_gtb b c = true -> num_gtb a c = true.
Proof.
  destruct a, b, c; simpl; try congruence.
  rewrite !Z.ltb_lt. lia.
Qed.

(** Below or equal to [b], or NaN, and [b] below [c]: not at or above [c]. *)
Lemma num_below a b c :
  num_gtb a b = false -> num_gtb c b = true -> num_geb a c = false.
Proof.
  destruct a, b, c; simpl; try congruence.
  rewrite Z.ltb_ge, Z.ltb_lt, Z.leb_gt. lia.
Qed.

Lemma num_geb_gtb a b : num_geb a b = false -> num_gtb a b = false.
Proof.
  destruct a, b; simpl; try congruence.
  rewrite Z.leb_gt, Z.ltb_ge. lia.
Qed.

Lemma num_geb_mono a b c :
  b <> NaN -> num_geb a c = true -> num_gtb a b = false -> num_geb b c = true.
Proof.
  destruct a, b, c; simpl; try congruence.
  rewrite !Z.leb_le, Z.ltb_ge. lia.
Qed.

Lemma num_geb_30_gtb_0 a :
  num_geb a (Num 30) = true -> num_gtb a (Num 0) = true.
Proof. destruct a; simpl; try congruence. rewrite Z.leb_le, Z.ltb_lt. lia. Qed.
End NumberOrder.

Section MatcherFacts.
Context `{Platform}.
Implicit Types (entries : list (Z * TabState)) (w : World).

Lemma scores_total filename st : exists s, scores filename st s.
Proof. apply calculateMatchScore_total. Qed.

Lemma scores_fun filename st s s' :
  scores filename st s -> scores filename st s' -> s = s'.
Proof. unfold scores. congruence. Qed.

(** The two guards of the loop let exactly the candidates through. *)
Lemma guards_candidate st :
  downloadId st <> Some 0 ->
  (negb (bool_decide (status st = Some InProgress)) = false
   /\ truthyId (downloadId st) = false) <-> candidate st.
Proof.
  intros Hz. unfold candidate, truthyId.
  rewrite negb_false_iff, bool_decide_eq_true.
  destruct (downloadId st) as [d|].
  - rewrite negb_false_iff, Z.eqb_eq. split.
    + intros [_ ->]. congruence.
    + intros [_ [=]].
  - tauto.
Qed.

(** An entry that cannot win, put in front. *)
Lemma bestSpec_cons filename tab st rest bestMatch bestScore bm bs :
  (forall s, candidate st -> scores filename st s ->
             num_gtb s bestScore = false) ->
  bestSpec filename rest bestMatch bestScore bm bs ->
  bestSpec filename ((tab, st) :: rest) bestMatch bestScore bm bs.
Proof.
  intros Hhead [(Ebm & Ebs & Hall)
               | (l1 & t & s0 & l2 & El & Ebm & Hc & Hs & Hgt & H1 & H2)].
  - left. split; [exact Ebm|]. split; [exact Ebs|].
    intros t' st' s' [E'|Hi] Hc' Hs'.
    + inversion E'; subst. apply Hhead; assumption.
    + eapply Hall; eauto.
  - right. exists ((tab, st) :: l1), t, s0, l2.
    split; [rewrite El; reflexivity|].
    split; [exact Ebm|]. split; [exact Hc|]. split; [exact Hs|].
    split; [exact Hgt|]. split; [|exact H2].
    intros t' st' s' [E'|Hi] Hc' Hs'.
    + inversion E'; subst. eapply num_below; [|exact Hgt].
      apply Hhead; assumption.
    + eapply H1; eauto.
Qed.

(** An entry that takes the lead, put in front. *)
Lemma bestSpec_lead filename tab st rest bestMatch bestScore bm bs score :
  candidate st -> scores filename st score ->
  num_gtb score bestScore = true ->
  bestSpec filename rest (Some tab) score bm bs ->
  bestSpec filename ((tab, st) :: rest) bestMatch bestScore bm bs.
Proof.
  intros Hcand Hscore Hlead
    [(Ebm & Ebs & Hall)
    | (l1 & t & s0 & l2 & El & Ebm & Hc & Hs & Hgt & H1 & H2)]; right.
  - exists [], tab, st, rest. subst bm bs.
    split; [reflexivity|]. split; [reflexivity|]. split; [exact Hcand|].
    split; [exact Hscore|]. split; [exact Hlead|]. split; [|exact Hall].
    intros ? ? ? [].
  - exists ((tab, st) :: l1), t, s0, l2.
    split; [rewrite El; reflexivity|].
    split; [exact Ebm|]. split; [exact Hc|]. split; [exact Hs|].
    split; [eapply num_gtb_trans; eauto|]. split; [|exact H2].
    intros t' st' s' [E'|Hi] Hc' Hs'; [|eapply H1; eauto].
    inversion E'; subst.
    rewrite (scores_fun _ _ _ _ Hs' Hscore).
    eapply num_below; [apply num_gtb_irrefl|exact Hgt].
Qed.

Lemma bestCandidate_spec filename entries :
  (forall tab st, In (tab, st) entries -> downloadId st <> Some 0) ->
  forall bestMatch bestScore, bestScore <> NaN ->
  exists bm bs,
    bestCandidate filename entries bestMatch bestScore = Normal (bm, bs)
    /\ bs <> NaN
    /\ bestSpec filename entries bestMatch bestScore bm bs.
Proof.
  induction entries as [|[tab st] rest IH]; intros Hz bestMatch bestScore Hn.
  - exists bestMatch, bestScore. simpl. split; [reflexivity|].
    split; [exact Hn|]. left. split; [reflexivity|]. split; [reflexivity|].
    intros ? ? ? [].
  - assert (Hz' : forall t s, In (t, s) rest -> downloadId s <> Some 0).
    { intros t s Hi. apply (Hz t s). right. exact Hi. }
    assert (Hst : downloadId st <> Some 0).
    { apply (Hz tab st). left. reflexivity. }
    pose proof (guards_candidate st Hst) as Hg.
    simpl.
    destruct (negb (bool_decide (status st = Some InProgress))) eqn:G1;
      [|destruct (truthyId (downloadId st)) eqn:G2].
    1,2: destruct (IH Hz' bestMatch bestScore Hn) as (bm & bs & E & Hbs & Hsp);
         exists bm, bs; (split; [exact E|]); (split; [exact Hbs|]);
         apply bestSpec_cons; [|exact Hsp];
         intros s Hc; apply Hg in Hc; destruct Hc; congruence.
    assert (Hcand : candidate st) by (apply Hg; split; reflexivity).
    destruct (scores_total filename st) as (score & Hscore).
    pose proof Hscore as Hscore'. unfold scores in Hscore'. rewrite Hscore'.
    destruct (num_gtb score bestScore) eqn:Hgt.
    + assert (Hsn : score <> NaN) by (apply (num_gtb_not_NaN _ _ Hgt)).
      destruct (IH Hz' (Some tab) score Hsn) as (bm & bs & E & Hbs & Hsp).
      exists bm, bs. split; [exact E|]. split; [exact Hbs|].
      eapply bestSpec_lead; eauto.
    + destruct (IH Hz' bestMatch bestScore Hn) as (bm & bs & E & Hbs & Hsp).
      exists bm, bs. split; [exact E|]. split; [exact Hbs|].
      apply bestSpec_cons; [|exact Hsp].
      intros s _ Hs. rewrite (scores_fun _ _ _ _ Hs Hscore). exact Hgt.
Qed.

(** The matcher either binds nothing and leaves the world as it is, every
    candidate scoring below 30 (or NaN), or binds the first of the
    candidates with the greatest score, which is at least 30. *)
Lemma matchDownloadToTab_spec dlId filename dlUrl w :
  wfRegistry (downloadState w) ->
  (matchDownloadToTab dlId filename dlUrl w = Normal (false, w)
   /\ forall tab st s, In (tab, st) (downloadState w) -> candidate st ->
        scores filename st s -> num_geb s (Num 30) = false)
  \/ exists l1 tab st l2 bs,
       downloadState w = l1 ++ (tab, st) :: l2
       /\ candidate st /\ scores filename st bs
       /\ num_geb bs (Num 30) = true
       /\ (forall t2 st2 s, In (t2, st2) l1 -> candidate st2 ->
             scores filename st2 s -> num_geb s bs = false)
       /\ (forall t2 st2 s, In (t2, st2) l2 -> candidate st2 ->
             scores filename st2 s -> num_gtb s bs = false)
       /\ matchDownloadToTab dlId filename dlUrl w
          = Normal (true, bindTo dlId tab st w).
Proof.
  intros [Hnd Hz]. unfold matchDownloadToTab.
  assert (H0 : Num 0 <> NaN) by discriminate.
  destruct (bestCandidate_spec filename (downloadState w) Hz None (Num 0) H0)
    as (bm & bs & E & Hbs & Hsp).
  rewrite E.
  destruct Hsp as [(-> & -> & Hall)
                  | (l1 & tab & st & l2 & El & -> & Hc & Hs & Hgt & H1 & H2)].
  - left. split; [reflexivity|].
    intros tab st s Hi Hc Hs.
    apply not_true_is_false. intros Hge.
    apply num_geb_30_gtb_0 in Hge.
    rewrite (Hall tab st s Hi Hc Hs) in Hge. discriminate.
  - destruct (num_geb bs (Num 30)) eqn:Hge.
    + right. exists l1, tab, st, l2, bs.
      assert (Hget : JSMap.get tab (downloadState w) = Some st).
      { apply In_get; [exact Hnd|]. rewrite El. apply in_elt. }
      rewrite Hget. repeat (split; [assumption|]). reflexivity.
    + left. split; [reflexivity|].
      intros t2 st2 s Hi Hc2 Hs2.
      apply not_true_is_false. intros Hs30.
      assert (Hle : num_gtb s bs = false).
      { rewrite El in Hi. apply in_app_or in Hi.
        destruct Hi as [Hi|[E'|Hi]].
        - apply num_geb_gtb. eapply H1; eauto.
        - inversion E'; subst.
          rewrite (scores_fun _ _ _ _ Hs2 Hs). apply num_gtb_irrefl.
        - eapply H2; eauto. }
      rewrite (num_geb_mono _ _ _ Hbs Hs30 Hle) in Hge. discriminate.
Qed.
End MatcherFacts.

(** What binding does to the registry: the task bound gets the download
    id, every other entry stays. *)
Lemma task_bindTo dlId tab st w t :
  task (bindTo dlId tab st w) t
  = if bool_decide (t = tab) then Some (withDownloadId dlId st)
    else task w t.
Proof.
  unfold task, bindTo. simpl.
  destruct (bool_decide_reflect (t = tab)) as [->|Hne].
  - apply get_set_eq.
  - apply get_set_ne. congruence.
Qed.



Lemma run_app `{Platform} (es1 es2 : list Event) (w : World) :
  run (es1 ++ es2) w = run es2 (run es1 w).
Proof. unfold run. apply fold_left_app. Qed.

Lemma reachable_run `{Platform} (events : list Event) :
  forall history w,
    reachable history w -> admissibleAll history events ->
    reachable (history ++ events) (run events w).
Proof.
  induction events as [|e rest IH]; intros history w Hr Ha.
  - rewrite app_nil_r. exact Hr.
  - destruct Ha as [Ha Hrest].
    change (e :: rest) with ([e] ++ rest). rewrite app_assoc.
    change (run ([e] ++ rest) w) with (run rest (handle e w)).
    apply IH; [|exact Hrest].
    apply reachable_step; assumption.
Qed.







(* ===================================================================== *)
(** * Properties of the registry                                          *)
(* ===================================================================== *)

Section RegistryFacts.
Implicit Types (w : World) (t k : Z).

Lemma downloadState_updateTabState k st det w :
  downloadState (updateTabState k st det w)
  = JSMap.set k
      (withDetails det
         (withStatus st
            match task w k with Some s => s | None => defaultState end))
      (downloadState w).
Proof. destruct st; reflexivity. Qed.

Lemma unmatched_updateTabState k st det w :
  unmatchedDownloads (updateTabState k st det w) = unmatchedDownloads w.
Proof. destruct st; reflexivity. Qed.

Lemma task_updateTabState k st det w t :
  task (updateTabState k st det w) t
  = if bool_decide (t = k)
    then Some (withDetails det
                 (withStatus st
                    match task w k with
                    | Some s => s
                    | None => defaultState
                    end))
    else task w t.
Proof.
  unfold task at 1. rewrite downloadState_updateTabState.
  destruct (bool_decide_reflect (t = k)) as [->|Hne].
  - apply get_set_eq.
  - apply get_set_ne. congruence.
Qed.

Lemma downloadState_modifyState k f w :
  downloadState (modifyState k f w)
  = match task w k with
    | Some s => JSMap.set k (f s) (downloadState w)
    | None => downloadState w
    end.
Proof. unfold modifyState, task. destruct (JSMap.get k _); reflexivity. Qed.

Lemma unmatched_modifyState k f w :
  unmatchedDownloads (modifyState k f w) = unmatchedDownloads w.
Proof. unfold modifyState. destruct (JSMap.get k _); reflexivity. Qed.

Lemma task_modifyState k f w t :
  task (modifyState k f w) t
  = if bool_decide (t = k) then option_map f (task w k) else task w t.
Proof.
  unfold task at 1. rewrite downloadState_modifyState.
  destruct (bool_decide_reflect (t = k)) as [->|Hne].
  - destruct (task w k) eqn:E; simpl; [apply get_set_eq|exact E].
  - destruct (task w k) eqn:E; [|reflexivity].
    apply get_set_ne. congruence.
Qed.

Lemma NoDup_updateTabState k st det w :
  NoDup (JSMap.keys (downloadState w)) ->
  NoDup (JSMap.keys (downloadState (updateTabState k st det w))).
Proof.
  rewrite downloadState_updateTabState. apply NoDup_keys_set.
Qed.

Lemma NoDup_modifyState k f w :
  NoDup (JSMap.keys (downloadState w)) ->
  NoDup (JSMap.keys (downloadState (modifyState k f w))).
Proof.
  rewrite downloadState_modifyState.
  destruct (task w k); [apply NoDup_keys_set|tauto].
Qed.

Lemma downloadState_addToMonitoring k w :
  downloadState (addToMonitoring k w) = downloadState w.
Proof.
  unfold addToMonitoring, startProgressPolling.
  destruct (progressPolling _); reflexivity.
Qed.

Lemma unmatched_addToMonitoring k w :
  unmatchedDownloads (addToMonitoring k w) = unmatchedDownloads w.
Proof.
  unfold addToMonitoring, startProgressPolling.
  destruct (progressPolling _); reflexivity.
Qed.

End RegistryFacts.




(* ===================================================================== *)
(** * Who completes a task                                                *)
(* ===================================================================== *)

Section CompletionFacts.
Context `{Platform}.
Implicit Types (w : World) (t k : Z).

(** Whatever the matcher answers, it either leaves the world or binds one
    task the registry has. *)
Lemma matchDownloadToTab_result dlId filename dlUrl w b w' :
  matchDownloadToTab dlId filename dlUrl w = Normal (b, w') ->
  (b = false /\ w' = w)
  \/ (b = true /\ exists tab st, task w tab = Some st
                                 /\ w' = bindTo dlId tab st w).
Proof.
  unfold matchDownloadToTab.
  destruct (bestCandidate filename (downloadState w) None (Num 0))
    as [[[tab|] bs]|]; try discriminate.
  - destruct (num_geb bs (Num 30)).
    + destruct (JSMap.get tab (downloadState w)) as [st|] eqn:Hg;
        [|discriminate].
      intros [= <- <-]. right. split; [reflexivity|]. exists tab, st.
      split; [exact Hg|reflexivity].
    + intros [= <- <-]. left. split; reflexivity.
  - intros [= <- <-]. left. split; reflexivity.
Qed.

Lemma NoDup_bindTo dlId tab st w :
  NoDup (JSMap.keys (downloadState w)) ->
  NoDup (JSMap.keys (downloadState (bindTo dlId tab st w))).
Proof. simpl. apply NoDup_keys_set. Qed.

Lemma findBound_Some dlId (m : list (Z * TabState)) k :
  findBound dlId m = Some k ->
  exists st, In (k, st) m /\ downloadId st = Some dlId.
Proof.
  unfold findBound.
  destruct (find _ m) as [[k' st]|] eqn:Hf; [|discriminate].
  intros [= <-]. apply find_some in Hf. destruct Hf as [Hi Hd].
  apply bool_decide_eq_true in Hd. exists st. split; assumption.
Qed.

Lemma findBound_None dlId (m : list (Z * TabState)) :
  findBound dlId m = None ->
  forall k st, In (k, st) m -> downloadId st <> Some dlId.
Proof.
  unfold findBound.
  destruct (find _ m) as [[k' st']|] eqn:Hf; [discriminate|].
  intros _ k st Hi. apply (find_none _ _ Hf) in Hi.
  apply bool_decide_eq_false in Hi. exact Hi.
Qed.

Lemma nnc_refl w : noNewComplete w w.
Proof. intros t st' Ht Hs. exists st'. split; assumption. Qed.

Lemma nnc_trans w1 w2 w3 :
  noNewComplete w1 w2 -> noNewComplete w2 w3 -> noNewComplete w1 w3.
Proof.
  intros H12 H23 t st' Ht Hs.
  destruct (H23 t st' Ht Hs) as (st2 & Ht2 & Hs2). exact (H12 t st2 Ht2 Hs2).
Qed.

Lemma nnc_same w w' :
  downloadState w' = downloadState w -> noNewComplete w w'.
Proof.
  intros E t st' Ht Hs. exists st'. unfold task in *. rewrite <- E.
  split; assumption.
Qed.

Lemma nnc_bindTo dlId tab st w :
  task w tab = Some st -> noNewComplete w (bindTo dlId tab st w).
Proof.
  intros Hst t st' Ht Hs. rewrite task_bindTo in Ht.
  destruct (bool_decide_reflect (t = tab)) as [->|Hne].
  - inversion Ht; subst. exists st. split; assumption.
  - exists st'. split; assumption.
Qed.

Lemma nnc_match dlId filename dlUrl w b w' :
  matchDownloadToTab dlId filename dlUrl w = Normal (b, w') ->
  noNewComplete w w'.
Proof.
  intros Hm. apply matchDownloadToTab_result in Hm.
  destruct Hm as [(_ & ->)|(_ & tab & st & Hst & ->)].
  - apply nnc_refl.
  - apply nnc_bindTo. exact Hst.
Qed.

Lemma nnc_updateTabState k st det w :
  st <> Complete -> noNewComplete w (updateTabState k st det w).
Proof.
  intros Hne t st' Ht Hs. rewrite task_updateTabState in Ht.
  destruct (bool_decide_reflect (t = k)) as [->|Hnk].
  - inversion Ht; subst. simpl in Hs. congruence.
  - exists st'. split; assumption.
Qed.

Lemma nnc_modifyState k f w :
  (forall s, status (f s) = status s) -> noNewComplete w (modifyState k f w).
Proof.
  intros Hf t st' Ht Hs. rewrite task_modifyState in Ht.
  destruct (bool_decide_reflect (t = k)) as [->|Hnk].
  - destruct (task w k) as [s|] eqn:E; [|discriminate].
    inversion Ht; subst. exists s. rewrite <- Hf. split; [reflexivity|exact Hs].
  - exists st'. split; assumption.
Qed.

Lemma nnc_set k st w w' :
  status st <> Some Complete ->
  downloadState w' = JSMap.set k st (downloadState w) ->
  noNewComplete w w'.
Proof.
  intros Hne E t st' Ht Hs. unfold task in Ht. rewrite E in Ht.
  destruct (Z.eq_dec k t) as [->|Hnk].
  - rewrite get_set_eq in Ht. inversion Ht; subst. congruence.
  - rewrite get_set_ne in Ht by exact Hnk. exists st'. split; assumption.
Qed.

Lemma nnc_poll tabId o w : noNewComplete w (pollTabProgress tabId o w).
Proof.
  unfold pollTabProgress.
  destruct o as [[|]|[[[| | |] p]|]]; try apply nnc_refl.
  1: apply nnc_same; reflexivity.
  all: destruct (JSMap.get tabId (downloadState w)) as [cur|];
    try apply nnc_refl.
  - eapply nnc_trans; [|apply nnc_modifyState; reflexivity].
    eapply nnc_trans; [|apply nnc_updateTabState; discriminate].
    apply nnc_modifyState. reflexivity.
  - destruct (_ && _).
    + eapply nnc_trans; [|apply nnc_updateTabState; discriminate].
      apply nnc_modifyState. reflexivity.
    + apply nnc_modifyState. reflexivity.
  - apply nnc_modifyState. reflexivity.
  - apply nnc_modifyState. reflexivity.
Qed.

Lemma nnc_startOne det tabId now o w :
  noNewComplete w (startOne det tabId now o w).
Proof.
  unfold startOne.
  destruct o as [msg|tab msg|tab].
  - apply nnc_updateTabState. discriminate.
  - eapply nnc_trans; [|apply nnc_updateTabState; discriminate].
    eapply nnc_set; [|reflexivity]. discriminate.
  - eapply nnc_trans;
      [|apply nnc_same; apply downloadState_addToMonitoring].
    eapply nnc_set; [|reflexivity]. discriminate.
Qed.

Lemma nnc_onMessage m w : noNewComplete w (onMessage m w).
Proof.
  destruct m as [|[tab|]|[tab|] p|[tab|] e|]; cbn [onMessage];
    try apply nnc_refl.
  - eapply nnc_trans;
      [|apply nnc_same; apply downloadState_addToMonitoring].
    eapply nnc_trans; [|apply nnc_updateTabState; discriminate].
    intros t st' Ht Hs. unfold task in Ht. simpl in Ht.
    destruct (Z.eq_dec tab t) as [->|Hne].
    + rewrite get_set_eq in Ht. inversion Ht; subst. simpl in Hs.
      unfold task. destruct (JSMap.get t (downloadState w)) as [s|].
      * exists s. split; [reflexivity|exact Hs].
      * discriminate.
    + rewrite get_set_ne in Ht by exact Hne. exists st'. split; assumption.
  - eapply nnc_trans; [|apply nnc_updateTabState; discriminate].
    apply nnc_modifyState. reflexivity.
  - eapply nnc_trans; [|apply nnc_same; reflexivity].
    apply nnc_updateTabState. discriminate.
  - intros t st' Ht Hs. unfold task in Ht. simpl in Ht.
    apply get_filter in Ht. destruct Ht as [_ Hp]. simpl in Hp.
    apply negb_true_iff, bool_decide_eq_false in Hp. contradiction.
Qed.

Lemma nnc_onCreated item w : noNewComplete w (onCreated item w).
Proof.
  unfold onCreated.
  destruct (itemFilename item) as [[|c f]|]; try (apply nnc_same; reflexivity).
  destruct (matchDownloadToTab _ _ _ w) as [[b w']|] eqn:Hm;
    [|apply nnc_refl].
  apply nnc_match in Hm.
  destruct b; [exact Hm|].
  eapply nnc_trans; [exact Hm|apply nnc_same; reflexivity].
Qed.

Lemma onChangedFilename_frame delta w w1 ok :
  onChangedFilename delta w = (w1, ok) ->
  noNewComplete w w1
  /\ (NoDup (JSMap.keys (downloadState w)) ->
      NoDup (JSMap.keys (downloadState w1))).
Proof.
  unfold onChangedFilename.
  destruct (deltaFilename delta) as [[|c f]|];
    try (intros [= <- <-]; split; [apply nnc_refl|tauto]).
  destruct (unmatchedDownloads w !! deltaId delta) as [info|];
    try (intros [= <- <-]; split; [apply nnc_refl|tauto]).
  destruct (negb (truthyStr (ufilename info)));
    try (intros [= <- <-]; split; [apply nnc_refl|tauto]).
  match goal with
  | |- context [matchDownloadToTab ?a ?b ?c ?w0] =>
      destruct (matchDownloadToTab a b c w0) as [[b' w']|] eqn:Hm
  end.
  - pose proof (nnc_match _ _ _ _ _ _ Hm) as Hn.
    apply matchDownloadToTab_result in Hm.
    assert (Hk : NoDup (JSMap.keys (downloadState w)) ->
                 NoDup (JSMap.keys (downloadState w'))).
    { destruct Hm as [(_ & ->)|(_ & tab & st & Hst & ->)]; [tauto|].
      intros Hnd. apply NoDup_bindTo. exact Hnd. }
    destruct b'; intros [= <- <-]; (split; [|exact Hk]).
    + eapply nnc_trans; [|apply nnc_same; reflexivity].
      eapply nnc_trans; [|exact Hn]. apply nnc_same. reflexivity.
    + eapply nnc_trans; [|exact Hn]. apply nnc_same. reflexivity.
  - intros [= <- <-]. split; [apply nnc_same; reflexivity|tauto].
Qed.

(** The second part of the [onChanged] listener completes only the task
    bound to the download of the delta, and only on [complete]. *)
Lemma onChangedState_completes delta w t st' :
  NoDup (JSMap.keys (downloadState w)) ->
  task (onChangedState delta w) t = Some st' ->
  status st' = Some Complete ->
  (exists st, task w t = Some st /\ status st = Some Complete)
  \/ (deltaState delta = Some PhaseComplete
      /\ downloadId st' = Some (deltaId delta)).
Proof.
  intros Hnd. unfold onChangedState.
  destruct (deltaState delta) as [cur|];
    [|intros Ht Hs; left; exists st'; split; assumption].
  destruct (findBound (deltaId delta) (downloadState w)) as [tabId|] eqn:Hf.
  - apply findBound_Some in Hf. destruct Hf as (st & Hi & Hd).
    apply (In_get _ _ _ Hnd) in Hi.
    destruct cur; try (intros Ht Hs; left; exists st'; split; assumption).
    + intros Ht Hs. left.
      eapply nnc_updateTabState; [|exact Ht|exact Hs]. discriminate.
    + intros Ht Hs.
      change (task (updateTabState tabId Complete [] w) t = Some st') in Ht.
      rewrite task_updateTabState in Ht.
      destruct (bool_decide_reflect (t = tabId)) as [->|Hne].
      * right. split; [reflexivity|].
        unfold task in Ht. rewrite Hi in Ht. inversion Ht; subst. exact Hd.
      * left. exists st'. split; assumption.
  - destruct cur; try (intros Ht Hs; left; exists st'; split; assumption).
    destruct (unmatchedDownloads w !! deltaId delta)
      as [[[[|c f]|] infoUrl]|];
      try (intros Ht Hs; left; exists st'; split; assumption).
    destruct (matchDownloadToTab _ _ _ w) as [[b w']|] eqn:Hm;
      [|intros Ht Hs; left; exists st'; split; assumption].
    pose proof (nnc_match _ _ _ _ _ _ Hm) as Hn.
    apply matchDownloadToTab_result in Hm.
    destruct Hm as [(-> & ->)|(-> & tab & st & Hst & ->)].
    + intros Ht Hs. left. exists st'. split; assumption.
    + destruct (findBound (deltaId delta)
                  (downloadState (bindTo (deltaId delta) tab st w)))
        as [tabId|] eqn:Hf2.
      * apply findBound_Some in Hf2. destruct Hf2 as (st2 & Hi2 & Hd2).
        apply In_get in Hi2; [|apply NoDup_bindTo; exact Hnd].
        intros Ht Hs.
        change (task (updateTabState tabId Complete []
                        (bindTo (deltaId delta) tab st w)) t = Some st') in Ht.
        rewrite task_updateTabState in Ht.
        destruct (bool_decide_reflect (t = tabId)) as [->|Hne].
        -- right. split; [reflexivity|].
           unfold task in Ht. rewrite Hi2 in Ht. inversion Ht; subst.
           exact Hd2.
        -- left. exact (Hn t st' Ht Hs).
      * intros Ht Hs. left. exact (Hn t st' Ht Hs).
Qed.
End CompletionFacts.

(** C2. The poller never completes a task: after [pollTabProgress],
    whatever the script reported, a task is complete only if it was
    before.  In any step of the worker a task becomes complete only in the
    [onChanged] listener, for a delta whose state is [complete] and whose
    id is the download id of the task.  A task in progress (with progress
    95, say) is still in progress after a poll, also when the page shows
    no progress bar any more. *)
Theorem completion_only_from_download_subsystem `{Platform} (w : World) :
  NoDup (JSMap.keys (downloadState w)) ->
  (forall tabId o t st',
     task (pollTabProgress tabId o w) t = Some st' ->
     status st' = Some Complete ->
     exists st, task w t = Some st /\ status st = Some Complete)
  /\ (forall e t st',
        task (handle e w) t = Some st' ->
        status st' = Some Complete ->
        (exists st, task w t = Some st /\ status st = Some Complete)
        \/ exists delta,
             e = DownloadChanged delta
             /\ deltaState delta = Some PhaseComplete
             /\ downloadId st' = Some (deltaId delta))
  /\ (forall tabId st o,
        task w tabId = Some st -> status st = Some InProgress ->
        exists st',
          task (pollTabProgress tabId o w) tabId = Some st'
          /\ status st' = Some InProgress).
Proof.
  intros Hnd. split; [|split].
  - intros tabId o. apply nnc_poll.
  - intros e t st' Ht Hs.
    destruct e as [item|delta|tabId o| |tabId now o|tabId now o|m];
      cbn [handle] in Ht.
    + left. exact (nnc_onCreated item w t st' Ht Hs).
    + unfold onChanged in Ht.
      destruct (onChangedFilename delta w) as [w1 ok] eqn:E1.
      destruct (onChangedFilename_frame _ _ _ _ E1) as [Hn Hk].
      destruct ok; [|left; exact (Hn t st' Ht Hs)].
      destruct (onChangedState_completes delta w1 t st' (Hk Hnd) Ht Hs)
        as [(st1 & Ht1 & Hs1)|[Hc Hd]].
      * left. exact (Hn t st1 Ht1 Hs1).
      * right. exists delta. repeat split; assumption.
    + left. exact (nnc_poll tabId o w t st' Ht Hs).
    + left. unfold pollingTick in Ht. destruct (_ && _) in Ht;
        exists st'; split; assumption.
    + left. exact (nnc_startOne _ tabId now o w t st' Ht Hs).
    + left. exact (nnc_startOne _ tabId now o w t st' Ht Hs).
    + left. exact (nnc_onMessage m w t st' Ht Hs).
  - intros tabId st o Ht Hs. unfold pollTabProgress.
    destruct o as [[|]|[[[| | |] p]|]];
      try (exists st; split; assumption).
    all: unfold task in Ht; rewrite Ht.
    + rewrite task_modifyState, bool_decide_eq_true_2 by reflexivity.
      rewrite task_updateTabState, bool_decide_eq_true_2 by reflexivity.
      eexists. split; [reflexivity|reflexivity].
    + destruct (_ && _).
      * rewrite task_updateTabState, bool_decide_eq_true_2 by reflexivity.
        eexists. split; reflexivity.
      * rewrite task_modifyState, bool_decide_eq_true_2 by reflexivity.
        unfold task. rewrite Ht. eexists. split; [reflexivity|exact Hs].
    + rewrite task_modifyState, bool_decide_eq_true_2 by reflexivity.
      unfold task. rewrite Ht. eexists. split; [reflexivity|exact Hs].
    + rewrite task_modifyState, bool_decide_eq_true_2 by reflexivity.
      unfold task. rewrite Ht. eexists. split; [reflexivity|exact Hs].
Qed.

Lemma completion_only_from_download_subsystem_witness :
  exists st',
    task (pollTabProgress 1 (Fulfilled (Some (PreparingZip, Num 100)))
            nearlyDone) 1 = Some st'
    /\ status st' = Some InProgress.
Proof.
  assert (Hnd : NoDup (JSMap.keys (downloadState nearlyDone))).
  { simpl. constructor; [simpl; tauto|constructor]. }
  destruct (@completion_only_from_download_subsystem AsciiPlatform
              nearlyDone Hnd) as (_ & _ & Hstay).
  eapply Hstay; reflexivity.
Defined.

(** The same task is completed by the delta that reports download 5
    complete. *)
Example nearlyDone_completed_by_delta :
  option_map status
    (task (@handle AsciiPlatform
             (DownloadChanged
                (mkDownloadDelta 5 None (Some PhaseComplete) None))
             nearlyDone) 1)
  = Some (Some Complete).
Proof. vm_compute. reflexivity. Qed.

(* ===================================================================== *)
(** * Bindings                                                            *)
(* ===================================================================== *)

Section BindingFacts.
Context `{Platform}.
Implicit Types (w : World) (t k d : Z).

Lemma bound_same w w' t :
  downloadState w' = downloadState w -> bound w' t = bound w t.
Proof. intros E. unfold bound, task. rewrite E. reflexivity. Qed.

Lemma bound_updateTabState k st det w t :
  bound (updateTabState k st det w) t = bound w t.
Proof.
  unfold bound. rewrite task_updateTabState.
  destruct (bool_decide_reflect (t = k)) as [->|Hne]; [|reflexivity].
  destruct (task w k); reflexivity.
Qed.

Lemma bound_modifyState k f w t :
  (forall s, downloadId (f s) = downloadId s) ->
  bound (modifyState k f w) t = bound w t.
Proof.
  intros Hf. unfold bound. rewrite task_modifyState.
  destruct (bool_decide_reflect (t = k)) as [->|Hne]; [|reflexivity].
  destruct (task w k); simpl; [apply Hf|reflexivity].
Qed.

Lemma bound_bindTo dlId tab st w t :
  bound (bindTo dlId tab st w) t
  = if bool_decide (t = tab) then Some dlId else bound w t.
Proof.
  unfold bound. rewrite task_bindTo.
  destruct (bool_decide (t = tab)); reflexivity.
Qed.

Lemma bound_In w t d :
  bound w t = Some d ->
  exists st, In (t, st) (downloadState w) /\ downloadId st = Some d.
Proof.
  unfold bound, task.
  destruct (JSMap.get t (downloadState w)) as [st|] eqn:Hg; [|discriminate].
  intros Hd. exists st. split; [apply get_In; exact Hg|exact Hd].
Qed.

Lemma candidate_unbound w t st :
  task w t = Some st -> candidate st -> bound w t = None.
Proof. intros Ht [_ Hd]. unfold bound. rewrite Ht. exact Hd. Qed.

Lemma wfRegistry_task w t st :
  wfRegistry (downloadState w) ->
  In (t, st) (downloadState w) -> task w t = Some st.
Proof. intros [Hnd _] Hi. apply In_get; assumption. Qed.

Lemma wfRegistry_bindTo dlId tab st w :
  dlId <> 0 -> wfRegistry (downloadState w) ->
  wfRegistry (downloadState (bindTo dlId tab st w)).
Proof.
  intros Hd [Hnd Hz]. split; [apply NoDup_bindTo; exact Hnd|].
  intros t s Hi.
  apply In_get in Hi; [|apply NoDup_bindTo; exact Hnd].
  change (task (bindTo dlId tab st w) t = Some s) in Hi.
  rewrite task_bindTo in Hi.
  destruct (bool_decide (t = tab)).
  - inversion Hi; subst. simpl. congruence.
  - apply get_In in Hi. exact (Hz t s Hi).
Qed.

(** The answer of the matcher on a well-formed registry. *)
Lemma match_effect dlId filename dlUrl w :
  wfRegistry (downloadState w) ->
  exists b w',
    matchDownloadToTab dlId filename dlUrl w = Normal (b, w')
    /\ ((b = false /\ w' = w
         /\ forall tab st s, task w tab = Some st -> candidate st ->
              scores filename st s -> num_geb s (Num 30) = false)
        \/ (b = true
            /\ exists tab st best,
                 task w tab = Some st /\ candidate st
                 /\ scores filename st best
                 /\ num_geb best (Num 30) = true
                 /\ w' = bindTo dlId tab st w)).
Proof.
  intros Hwf.
  destruct (matchDownloadToTab_spec dlId filename dlUrl w Hwf)
    as [(E & Hall)
       | (l1 & tab & st & l2 & bs & El & Hc & Hs & Hge & H1 & H2 & E)].
  - exists false, w. split; [exact E|]. left.
    split; [reflexivity|]. split; [reflexivity|].
    intros tab st s Ht. apply (Hall tab st s). apply get_In. exact Ht.
  - exists true, (bindTo dlId tab st w). split; [exact E|]. right.
    split; [reflexivity|]. exists tab, st, bs.
    split; [|repeat split; try assumption; apply Hc].
    apply wfRegistry_task; [exact Hwf|]. rewrite El. apply in_elt.
Qed.

Lemma findBound_bound d w :
  findBound d (downloadState w) = None -> forall t, bound w t <> Some d.
Proof.
  intros Hf t Hb. apply bound_In in Hb. destruct Hb as (st & Hi & Hd).
  exact (findBound_None _ _ Hf t st Hi Hd).
Qed.

Lemma findBound_found d w t :
  bound w t = Some d -> findBound d (downloadState w) <> None.
Proof.
  intros Hb Hf. exact (findBound_bound d w Hf t Hb).
Qed.

(** The effect of the [onCreated] listener. *)
Lemma onCreated_effect item w :
  wfRegistry (downloadState w) ->
  NoDup (JSMap.keys (downloadState (onCreated item w)))
  /\ ((downloadState (onCreated item w) = downloadState w
       /\ exists info,
            unmatchedDownloads (onCreated item w)
            = <[itemId item := info]> (unmatchedDownloads w))
      \/ (bindsOne (itemId item) w (onCreated item w)
          /\ unmatchedDownloads (onCreated item w) = unmatchedDownloads w)).
Proof.
  intros Hwf. unfold onCreated.
  destruct (itemFilename item) as [[|c f]|].
  1,3: split; [apply Hwf|]; left; split; [reflexivity|];
       eexists; reflexivity.
  destruct (match_effect (itemId item) (c :: f) (itemUrl item) w Hwf)
    as (b & w' & E & [(-> & -> & _)
                     |(-> & tab & st & best & Ht & Hc & _ & _ & ->)]);
    rewrite E.
  - split; [apply Hwf|]. left. split; [reflexivity|].
    eexists; reflexivity.
  - split; [apply NoDup_bindTo; apply Hwf|]. right.
    split; [|reflexivity]. exists tab, st.
    split; [exact Ht|]. split; [exact Hc|].
    intros t. apply bound_bindTo.
Qed.

Lemma lookup_delete_subset (u : gmap Z Unmatched) d d' :
  base.delete d u !! d' <> None -> u !! d' <> None.
Proof.
  destruct (decide (d = d')) as [->|Hne].
  - rewrite lookup_delete_eq. congruence.
  - rewrite lookup_delete_ne by exact Hne. tauto.
Qed.

Lemma lookup_insert_subset (u : gmap Z Unmatched) d x d' :
  u !! d <> None -> <[d := x]> u !! d' <> None -> u !! d' <> None.
Proof.
  intros Hd. destruct (decide (d = d')) as [->|Hne].
  - tauto.
  - rewrite lookup_insert_ne by exact Hne. tauto.
Qed.

(** The effect of the second part of the [onChanged] listener. *)
Lemma onChangedState_effect delta w :
  wfRegistry (downloadState w) ->
  let w' := onChangedState delta w in
  NoDup (JSMap.keys (downloadState w'))
  /\ (forall d', unmatchedDownloads w' !! d' <> None ->
                 unmatchedDownloads w !! d' <> None)
  /\ ((forall t, bound w' t = bound w t)
      \/ (bindsOne (deltaId delta) w w'
          /\ (forall t, bound w t <> Some (deltaId delta))
          /\ unmatchedDownloads w !! deltaId delta <> None
          /\ unmatchedDownloads w' !! deltaId delta = None)).
Proof.
  intros Hwf. pose proof Hwf as [Hnd _]. unfold onChangedState.
  destruct (deltaState delta) as [cur|];
    [|cbv zeta; split; [exact Hnd|split; [tauto|left; reflexivity]]].
  destruct (findBound (deltaId delta) (downloadState w)) as [tabId|] eqn:Hf.
  - destruct cur; cbv zeta;
      try (split; [exact Hnd|split; [tauto|left; reflexivity]]).
    all: split; [apply NoDup_updateTabState; exact Hnd|].
    all: split;
      [intros d' Hd';
       cbn [unmatchedDownloads saveStateToStorage emit setUnmatched
              setMonitoredTabs] in Hd';
       apply lookup_delete_subset in Hd';
       rewrite unmatched_updateTabState in Hd'; exact Hd'|].
    all: left; intros t;
      (etransitivity; [|apply (bound_updateTabState tabId)]);
      apply bound_same; reflexivity.
  - destruct cur; cbv zeta;
      try (split; [exact Hnd|split; [tauto|left; reflexivity]]).
    destruct (unmatchedDownloads w !! deltaId delta)
      as [[[[|c f]|] infoUrl]|] eqn:Hu;
      try (split; [exact Hnd|split; [tauto|left; reflexivity]]).
    destruct (match_effect (deltaId delta) (c :: f) infoUrl w Hwf)
      as (b & w' & E & [(-> & -> & _)
                       |(-> & tab & st & best & Ht & Hc & _ & _ & ->)]);
      rewrite E.
    + split; [exact Hnd|]. split; [|left; reflexivity].
      intros d'. apply lookup_delete_subset.
    + assert (Hb : forall t,
                 bound (bindTo (deltaId delta) tab st w) t
                 = if bool_decide (t = tab) then Some (deltaId delta)
                   else bound w t) by (intros t; apply bound_bindTo).
      destruct (findBound (deltaId delta)
                  (downloadState (bindTo (deltaId delta) tab st w)))
        as [tabId|] eqn:Hf2.
      * split; [apply NoDup_updateTabState, NoDup_bindTo; exact Hnd|].
        split.
        { intros d' Hd'.
          cbn [unmatchedDownloads saveStateToStorage emit setUnmatched
                 setMonitoredTabs] in Hd'.
          apply lookup_delete_subset in Hd'.
          rewrite unmatched_updateTabState in Hd'. exact Hd'. }
        right. split; [|split; [|split]].
        -- exists tab, st. split; [exact Ht|]. split; [exact Hc|].
           intros t. rewrite <- Hb.
           etransitivity; [|apply (bound_updateTabState tabId Complete [])].
           apply bound_same. reflexivity.
        -- apply findBound_bound. exact Hf.
        -- discriminate.
        -- simpl. apply lookup_delete_eq.
      * split; [apply NoDup_bindTo; exact Hnd|].
        split; [intros d'; apply lookup_delete_subset|].
        right. split; [|split; [|split]].
        -- exists tab, st. split; [exact Ht|]. split; [exact Hc|].
           intros t. rewrite <- Hb. apply bound_same. reflexivity.
        -- apply findBound_bound. exact Hf.
        -- discriminate.
        -- simpl. apply lookup_delete_eq.
Qed.
(** The effect of the first part of the [onChanged] listener. *)
Lemma onChangedFilename_effect delta w w1 ok :
  wfRegistry (downloadState w) ->
  (forall d, unmatchedDownloads w !! d <> None -> d <> 0) ->
  onChangedFilename delta w = (w1, ok) ->
  wfRegistry (downloadState w1)
  /\ (forall d', unmatchedDownloads w1 !! d' <> None ->
                 unmatchedDownloads w !! d' <> None)
  /\ (downloadState w1 = downloadState w
      \/ (bindsOne (deltaId delta) w w1
          /\ unmatchedDownloads w !! deltaId delta <> None
          /\ unmatchedDownloads w1 !! deltaId delta = None)).
Proof.
  intros Hwf Hnz. unfold onChangedFilename.
  destruct (deltaFilename delta) as [[|c f]|];
    try (intros [= <- <-]; split; [exact Hwf|split; [tauto|left; reflexivity]]).
  destruct (unmatchedDownloads w !! deltaId delta) as [info|] eqn:Hu;
    try (intros [= <- <-]; split; [exact Hwf|split; [tauto|left; reflexivity]]).
  destruct (negb (truthyStr (ufilename info)));
    try (intros [= <- <-]; split; [exact Hwf|split; [tauto|left; reflexivity]]).
  assert (Hin : unmatchedDownloads w !! deltaId delta <> None)
    by (rewrite Hu; discriminate).
  cbv zeta.
  match goal with
  | |- context [matchDownloadToTab _ _ _ ?x] => set (w0 := x)
  end.
  assert (Hwf0 : wfRegistry (downloadState w0)) by exact Hwf.
  destruct (match_effect (deltaId delta) (c :: f) (uurl info) w0 Hwf0)
    as (b & w' & E & [(-> & -> & _)
                     |(-> & tab & st & best & Ht & Hc & _ & _ & ->)]);
    rewrite E; intros [= <- <-].
  - split; [exact Hwf|]. split; [|left; reflexivity].
    intros d'. apply lookup_insert_subset. exact Hin.
  - split; [apply wfRegistry_bindTo; [apply Hnz; exact Hin|exact Hwf]|].
    split.
    + intros d' Hd'. apply lookup_delete_subset in Hd'.
      revert Hd'. apply lookup_insert_subset. exact Hin.
    + right. split; [|split; [discriminate|apply lookup_delete_eq]].
      exists tab, st. split; [exact Ht|]. split; [exact Hc|].
      intros t. etransitivity; [|apply (bound_bindTo _ tab st w0)].
      apply bound_same. reflexivity.
Qed.

(** The effect of the [onChanged] listener. *)
Lemma onChanged_effect delta w :
  wfRegistry (downloadState w) ->
  (forall d, unmatchedDownloads w !! d <> None -> d <> 0) ->
  NoDup (JSMap.keys (downloadState (onChanged delta w)))
  /\ (forall d', unmatchedDownloads (onChanged delta w) !! d' <> None ->
                 unmatchedDownloads w !! d' <> None)
  /\ ((forall t, bound (onChanged delta w) t = bound w t)
      \/ (bindsOne (deltaId delta) w (onChanged delta w)
          /\ unmatchedDownloads w !! deltaId delta <> None
          /\ unmatchedDownloads (onChanged delta w) !! deltaId delta = None)).
Proof.
  intros Hwf Hnz. unfold onChanged.
  destruct (onChangedFilename delta w) as [w1 ok] eqn:E1.
  destruct (onChangedFilename_effect _ _ _ _ Hwf Hnz E1)
    as (Hwf1 & Hsub1 & Hcase1).
  destruct ok.
  - destruct (onChangedState_effect delta w1 Hwf1) as (Hnd2 & Hsub2 & Hcase2).
    split; [exact Hnd2|]. split; [intros d' Hd'; auto|].
    destruct Hcase1 as [Hsame|(Hb1 & Hin & Hout)].
    + destruct Hcase2 as [Hb2|((tab & st & Ht & Hc & Hb2) & _ & Hin2 & Hout2)].
      * left. intros t. rewrite Hb2. apply bound_same. exact Hsame.
      * right. split; [|split; [auto|exact Hout2]].
        exists tab, st. unfold task in *. rewrite <- Hsame.
        split; [exact Ht|]. split; [exact Hc|].
        intros t. rewrite Hb2. destruct (bool_decide (t = tab)); [reflexivity|].
        apply bound_same. exact Hsame.
    + destruct Hcase2 as [Hb2|(_ & _ & Hin2 & _)]; [|contradiction].
      right. split; [|split; [exact Hin|]].
      * destruct Hb1 as (tab & st & Ht & Hc & Hb1). exists tab, st.
        split; [exact Ht|]. split; [exact Hc|].
        intros t. rewrite Hb2. apply Hb1.
      * destruct (unmatchedDownloads (onChangedState delta w1)
                    !! deltaId delta) eqn:E; [|reflexivity].
        exfalso. apply (Hsub2 (deltaId delta)); [|exact Hout].
        rewrite E. discriminate.
  - split; [apply Hwf1|]. split; [exact Hsub1|].
    destruct Hcase1 as [Hsame|(Hb1 & Hin & Hout)].
    + left. intros t. apply bound_same. exact Hsame.
    + right. split; [exact Hb1|]. split; assumption.
Qed.
End BindingFacts.

Section FrameFacts.
Context `{Platform}.
Implicit Types (w : World) (t k d : Z).

Lemma frames_refl w : frames w w.
Proof. intros Hnd. split; [exact Hnd|]. split; [tauto|reflexivity]. Qed.

Lemma frames_trans w1 w2 w3 : frames w1 w2 -> frames w2 w3 -> frames w1 w3.
Proof.
  intros H12 H23 Hnd. destruct (H12 Hnd) as (Hnd2 & Hb2 & Hu2).
  destruct (H23 Hnd2) as (Hnd3 & Hb3 & Hu3).
  split; [exact Hnd3|]. split; [|congruence].
  intros t d Hb. apply Hb2, Hb3, Hb.
Qed.

Lemma frames_same w w' :
  downloadState w' = downloadState w ->
  unmatchedDownloads w' = unmatchedDownloads w -> frames w w'.
Proof.
  intros Ed Eu Hnd. rewrite Ed. split; [exact Hnd|]. split; [|exact Eu].
  intros t d. rewrite (bound_same w w' t Ed). tauto.
Qed.

Lemma frames_updateTabState k st det w : frames w (updateTabState k st det w).
Proof.
  intros Hnd. split; [apply NoDup_updateTabState; exact Hnd|].
  split; [|apply unmatched_updateTabState].
  intros t d. rewrite bound_updateTabState. tauto.
Qed.

Lemma frames_modifyState k f w :
  (forall s, downloadId (f s) = downloadId s) -> frames w (modifyState k f w).
Proof.
  intros Hf Hnd. split; [apply NoDup_modifyState; exact Hnd|].
  split; [|apply unmatched_modifyState].
  intros t d. rewrite bound_modifyState by exact Hf. tauto.
Qed.

Lemma frames_set k st w w' :
  downloadState w' = JSMap.set k st (downloadState w) ->
  unmatchedDownloads w' = unmatchedDownloads w ->
  downloadId st = None \/ downloadId st = bound w k ->
  frames w w'.
Proof.
  intros Ed Eu Hd Hnd. rewrite Ed.
  split; [apply NoDup_keys_set; exact Hnd|]. split; [|exact Eu].
  intros t d. unfold bound at 1, task. rewrite Ed.
  destruct (Z.eq_dec k t) as [->|Hne].
  - rewrite get_set_eq. destruct Hd as [-> | ->]; [discriminate|tauto].
  - rewrite get_set_ne by exact Hne. tauto.
Qed.

Lemma frames_poll tabId o w : frames w (pollTabProgress tabId o w).
Proof.
  unfold pollTabProgress.
  destruct o as [[|]|[[[| | |] p]|]]; try apply frames_refl.
  1: apply frames_same; reflexivity.
  all: destruct (JSMap.get tabId (downloadState w)) as [cur|];
    try apply frames_refl.
  - eapply frames_trans; [|apply frames_modifyState; reflexivity].
    eapply frames_trans; [|apply frames_updateTabState].
    apply frames_modifyState. reflexivity.
  - destruct (_ && _).
    + eapply frames_trans; [|apply frames_updateTabState].
      apply frames_modifyState. reflexivity.
    + apply frames_modifyState. reflexivity.
  - apply frames_modifyState. reflexivity.
  - apply frames_modifyState. reflexivity.
Qed.

Lemma frames_startOne det tabId now o w :
  frames w (startOne det tabId now o w).
Proof.
  unfold startOne.
  destruct o as [msg|tab msg|tab].
  - apply frames_updateTabState.
  - eapply frames_trans; [|apply frames_updateTabState].
    eapply frames_set; [reflexivity|reflexivity|left; reflexivity].
  - eapply frames_trans;
      [|apply frames_same;
        [apply downloadState_addToMonitoring
        |apply unmatched_addToMonitoring]].
    eapply frames_set; [reflexivity|reflexivity|left; reflexivity].
Qed.

Lemma frames_onMessage m w : frames w (onMessage m w).
Proof.
  destruct m as [|[tab|]|[tab|] p|[tab|] e|]; cbn [onMessage];
    try apply frames_refl.
  - eapply frames_trans;
      [|apply frames_same;
        [apply downloadState_addToMonitoring
        |apply unmatched_addToMonitoring]].
    eapply frames_trans; [|apply frames_updateTabState].
    eapply frames_set; [reflexivity|reflexivity|]. right.
    unfold bound, task.
    destruct (JSMap.get tab (downloadState w)); reflexivity.
  - eapply frames_trans; [|apply frames_updateTabState].
    apply frames_modifyState. reflexivity.
  - eapply frames_trans; [|apply frames_same; reflexivity].
    apply frames_updateTabState.
  - intros Hnd. split; [apply NoDup_keys_filter; exact Hnd|].
    split; [|reflexivity].
    intros t d. unfold bound, task.
    cbn [downloadState saveStateToStorage emit setDownloadState].
    destruct (JSMap.get t (List.filter _ _)) as [st|] eqn:Hg; [|discriminate].
    apply get_filter in Hg. destruct Hg as [Hi _].
    rewrite (In_get _ _ _ Hnd Hi). tauto.
Qed.

Lemma createdIds_app (h1 h2 : list Event) :
  createdIds (h1 ++ h2) = createdIds h1 ++ createdIds h2.
Proof. unfold createdIds. apply flat_map_app. Qed.

Lemma createdIds_grow (h : list Event) (e : Event) d :
  In d (createdIds h) -> In d (createdIds (h ++ [e])).
Proof. rewrite createdIds_app, in_app_iff. tauto. Qed.

(** How the invariant goes through a step, from the effect of the step on
    the bindings and on the queue. *)
Lemma inv_step history e w w' :
  bindingInvariant history w ->
  NoDup (JSMap.keys (downloadState w')) ->
  (forall t d, bound w' t = Some d ->
     bound w t = Some d
     \/ (d <> 0 /\ In d (createdIds (history ++ [e]))
         /\ forall t2, bound w' t2 = Some d -> t2 = t)) ->
  (forall t d, bound w' t = Some d -> unmatchedDownloads w' !! d = None) ->
  (forall d, unmatchedDownloads w' !! d <> None ->
     unmatchedDownloads w !! d <> None
     \/ (d <> 0 /\ In d (createdIds (history ++ [e])))) ->
  bindingInvariant (history ++ [e]) w'.
Proof.
  intros (Hnd & I2 & I3 & I4) Hnd' Hb Hq Hu.
  split; [exact Hnd'|]. split; [|split].
  - intros t d Hd. destruct (Hb t d Hd) as [Hold|(Hz & Hc & _)].
    + destruct (I2 t d Hold) as (Hz & Hc & _).
      split; [exact Hz|]. split; [apply createdIds_grow; exact Hc|eauto].
    + split; [exact Hz|]. split; [exact Hc|eauto].
  - intros d Hd. destruct (Hu d Hd) as [Hold|Hnew]; [|exact Hnew].
    destruct (I3 d Hold) as (Hz & Hc).
    split; [exact Hz|apply createdIds_grow; exact Hc].
  - intros t1 t2 d H1 H2.
    destruct (Hb t1 d H1) as [Ho1|(_ & _ & Hu1)]; [|symmetry; auto].
    destruct (Hb t2 d H2) as [Ho2|(_ & _ & Hu2)]; [|auto].
    exact (I4 t1 t2 d Ho1 Ho2).
Qed.

Lemma inv_frames history e w w' :
  bindingInvariant history w -> frames w w' ->
  bindingInvariant (history ++ [e]) w'.
Proof.
  intros Hinv Hf. pose proof Hinv as (Hnd & I2 & _).
  destruct (Hf Hnd) as (Hnd' & Hb & Hu).
  apply (inv_step history e w w' Hinv Hnd').
  - intros t d Hd. left. exact (Hb t d Hd).
  - intros t d Hd. rewrite Hu. apply (I2 t d). exact (Hb t d Hd).
  - intros d Hd. left. rewrite <- Hu. exact Hd.
Qed.

Lemma inv_bind history e w w' d :
  bindingInvariant history w ->
  NoDup (JSMap.keys (downloadState w')) ->
  bindsOne d w w' ->
  d <> 0 -> In d (createdIds (history ++ [e])) ->
  (forall t, bound w t <> Some d) ->
  unmatchedDownloads w' !! d = None ->
  (forall d', unmatchedDownloads w' !! d' <> None ->
              unmatchedDownloads w !! d' <> None) ->
  bindingInvariant (history ++ [e]) w'.
Proof.
  intros Hinv Hnd' (tab & st & Ht & Hc & Hb) Hz Hcr Hfree Hout Hsub.
  pose proof Hinv as (_ & I2 & _).
  assert (Hcases : forall t d', bound w' t = Some d' ->
            (t = tab /\ d' = d) \/ (t <> tab /\ bound w t = Some d')).
  { intros t d' Hd. rewrite Hb in Hd.
    destruct (bool_decide_reflect (t = tab)) as [->|Hne].
    - left. split; congruence.
    - right. split; assumption. }
  apply (inv_step history e w w' Hinv Hnd').
  - intros t d' Hd. destruct (Hcases t d' Hd) as [(-> & ->)|(_ & Hold)].
    + right. split; [exact Hz|]. split; [exact Hcr|].
      intros t2 H2. destruct (Hcases t2 d H2) as [(-> & _)|(_ & Hold)].
      * reflexivity.
      * exfalso. exact (Hfree t2 Hold).
    + left. exact Hold.
  - intros t d' Hd. destruct (Hcases t d' Hd) as [(-> & ->)|(_ & Hold)].
    + exact Hout.
    + destruct (unmatchedDownloads w' !! d') eqn:E; [|reflexivity].
      exfalso. destruct (I2 t d' Hold) as (_ & _ & Hq).
      apply (Hsub d'); [rewrite E; discriminate|exact Hq].
  - intros d' Hd'. left. apply Hsub. exact Hd'.
Qed.

Lemma inv_wfRegistry history w :
  bindingInvariant history w -> wfRegistry (downloadState w).
Proof.
  intros (Hnd & I2 & _). split; [exact Hnd|].
  intros tab st Hi Hd. apply (In_get _ _ _ Hnd) in Hi.
  destruct (I2 tab 0) as (Hz & _); [|congruence].
  unfold bound, task. rewrite Hi. exact Hd.
Qed.

(** The invariant goes through every admissible step. *)
Lemma inv_handle history e w :
  bindingInvariant history w -> admissible history e ->
  bindingInvariant (history ++ [e]) (handle e w).
Proof.
  intros Hinv Hadm. pose proof (inv_wfRegistry _ _ Hinv) as Hwf.
  pose proof Hinv as (Hnd & I2 & I3 & I4).
  destruct e as [item|delta|tabId o| |tabId now o|tabId now o|m];
    cbn [handle].
  - destruct Hadm as [Hz Hfresh].
    assert (Hcr : In (itemId item)
                    (createdIds (history ++ [DownloadCreated item]))).
    { rewrite createdIds_app, in_app_iff. right. left. reflexivity. }
    destruct (onCreated_effect item w Hwf)
      as (Hnd' & [(Ed & info & Eu)|(Hb & Eu)]).
    + apply (inv_step _ _ w _ Hinv Hnd').
      * intros t d. rewrite (bound_same _ _ t Ed). tauto.
      * intros t d. rewrite (bound_same _ _ t Ed), Eu. intros Hd.
        destruct (I2 t d Hd) as (_ & Hc & Hq).
        rewrite lookup_insert_ne; [exact Hq|]. intros <-. contradiction.
      * intros d. rewrite Eu.
        destruct (decide (itemId item = d)) as [<-|Hne].
        -- intros _. right. split; assumption.
        -- rewrite lookup_insert_ne by exact Hne. tauto.
    + apply (inv_bind _ _ w _ (itemId item) Hinv Hnd' Hb Hz Hcr).
      * intros t Hd. destruct (I2 t _ Hd) as (_ & Hc & _). contradiction.
      * rewrite Eu.
        destruct (unmatchedDownloads w !! itemId item) eqn:E; [|reflexivity].
        exfalso. destruct (I3 (itemId item)) as (_ & Hc);
          [rewrite E; discriminate|contradiction].
      * intros d'. rewrite Eu. tauto.
  - assert (Hnz : forall d, unmatchedDownloads w !! d <> None -> d <> 0).
    { intros d Hd. apply (I3 d Hd). }
    destruct (onChanged_effect delta w Hwf Hnz)
      as (Hnd' & Hsub & [Hb|(Hb & Hin & Hout)]).
    + apply (inv_step _ _ w _ Hinv Hnd').
      * intros t d. rewrite Hb. tauto.
      * intros t d. rewrite Hb. intros Hd.
        destruct (I2 t d Hd) as (_ & _ & Hq).
        destruct (unmatchedDownloads (onChanged delta w) !! d) eqn:E;
          [|reflexivity].
        exfalso. apply (Hsub d); [rewrite E; discriminate|exact Hq].
      * intros d Hd. left. exact (Hsub d Hd).
    + destruct (I3 _ Hin) as (Hz & Hc).
      apply (inv_bind _ _ w _ (deltaId delta) Hinv Hnd' Hb Hz).
      * apply createdIds_grow. exact Hc.
      * intros t Hd. destruct (I2 t _ Hd) as (_ & _ & Hq). contradiction.
      * exact Hout.
      * exact Hsub.
  - eapply inv_frames; [exact Hinv|apply frames_poll].
  - eapply inv_frames; [exact Hinv|].
    unfold pollingTick. destruct (_ && _);
      [apply frames_same; reflexivity|apply frames_refl].
  - eapply inv_frames; [exact Hinv|apply frames_startOne].
  - eapply inv_frames; [exact Hinv|apply frames_startOne].
  - eapply inv_frames; [exact Hinv|apply frames_onMessage].
Qed.

Lemma reachable_invariant history w :
  reachable history w -> bindingInvariant history w.
Proof.
  induction 1 as [|history w e Hr IH Hadm].
  - split; [constructor|]. split; [|split].
    + intros t d Hd. discriminate.
    + intros d Hd. exfalso. apply Hd. apply lookup_empty.
    + intros t1 t2 d Hd. discriminate.
  - apply inv_handle; assumption.
Qed.
End FrameFacts.

(** C1. Binding is an immutable partial injection.  In every state the
    worker reaches (from empty maps, each listener run as one step, the
    download subsystem giving every new download an id that is not 0 and
    was not used before) no two tasks are bound to the same download id;
    and in every step of a [chrome.downloads] listener (the only steps
    that match and bind) a task bound to a download id stays bound to it,
    and a task that gets a download id was in progress with no download
    id. *)
Theorem binding_partial_injection `{Platform} (history : list Event)
    (w : World) :
  reachable history w ->
  (forall t1 t2 d, bound w t1 = Some d -> bound w t2 = Some d -> t1 = t2)
  /\ forall e, admissible history e -> isDownloadEvent e ->
       (forall t d, bound w t = Some d -> bound (handle e w) t = Some d)
       /\ (forall t d, bound (handle e w) t = Some d ->
             bound w t = Some d
             \/ exists st, task w t = Some st
                           /\ status st = Some InProgress
                           /\ downloadId st = None).
Proof.
  intros Hr. pose proof (reachable_invariant _ _ Hr) as Hinv.
  pose proof (inv_wfRegistry _ _ Hinv) as Hwf.
  pose proof Hinv as (Hnd & I2 & I3 & I4).
  split; [exact I4|].
  intros e Hadm Hde.
  assert (Hcases :
            (forall t, bound (handle e w) t = bound w t)
            \/ exists d, bindsOne d w (handle e w)).
  { destruct e as [item|delta| | | | |]; try contradiction; cbn [handle].
    - destruct (onCreated_effect item w Hwf)
        as (_ & [(Ed & _)|(Hb & _)]).
      + left. intros t. apply bound_same. exact Ed.
      + right. exists (itemId item). exact Hb.
    - assert (Hnz : forall d, unmatchedDownloads w !! d <> None -> d <> 0).
      { intros d Hd. apply (I3 d Hd). }
      destruct (onChanged_effect delta w Hwf Hnz)
        as (_ & _ & [Hb|(Hb & _)]).
      + left. exact Hb.
      + right. exists (deltaId delta). exact Hb. }
  destruct Hcases as [Hb|(d0 & tab & st & Ht & Hc & Hb)].
  - split; intros t d; rewrite Hb; tauto.
  - pose proof (candidate_unbound _ _ _ Ht Hc) as Hnone.
    split; intros t d; rewrite Hb;
      destruct (bool_decide_reflect (t = tab)) as [->|Hne]; try tauto.
    + rewrite Hnone. discriminate.
    + intros _. right. exists st. destruct Hc as [Hs Hd].
      split; [exact Ht|]. split; assumption.
Qed.

Lemma boundOnce_reachable :
  @reachable AsciiPlatform boundOnce
    (@run AsciiPlatform boundOnce initialWorld).
Proof.
  apply (@reachable_run AsciiPlatform boundOnce [] initialWorld).
  - constructor.
  - simpl. intuition discriminate.
Qed.

(** Task 1, bound to download 5, stays bound to it when download 6 is
    created with the same file name. *)
Lemma binding_partial_injection_witness :
  bound
    (@handle AsciiPlatform
       (DownloadCreated
          (mkDownloadItem 6 (Some (lit "C:\Downloads\My Gallery.zip")) None))
       (@run AsciiPlatform boundOnce initialWorld)) 1
  = Some 5.
Proof.
  destruct (@binding_partial_injection AsciiPlatform boundOnce _
              boundOnce_reachable) as [_ Hstep].
  apply Hstep.
  - split; [discriminate|]. simpl. intuition discriminate.
  - exact I.
  - vm_compute. reflexivity.
Defined.

(** The two guarantees of the download subsystem are used.  Were the id 5
    given to two downloads, both tabs would be bound to it; and a tab
    bound to a download with id 0 is bound again, the test of
    [state.downloadId] being one of truthiness. *)
Example reused_id_binds_two_tasks :
  let w := @run AsciiPlatform
             (twoTabs ++ [sameTitleDownload 5; sameTitleDownload 5])
             initialWorld in
  bound w 1 = Some 5 /\ bound w 2 = Some 5.
Proof. vm_compute. split; reflexivity. Qed.

Example zero_id_is_rebound :
  bound (@run AsciiPlatform (twoTabs ++ [sameTitleDownload 0]) initialWorld) 1
  = Some 0
  /\ bound (@run AsciiPlatform
              (twoTabs ++ [sameTitleDownload 0; sameTitleDownload 6])
              initialWorld) 1
     = Some 6.
Proof. vm_compute. split; reflexivity. Qed.

Section RematchFacts.
Context `{Platform}.

(** The second part of the [onChanged] listener keeps the binding of the
    download of the delta, and keeps that download out of the queue. *)
Lemma onChangedState_keeps (delta : DownloadDelta) (w : World) (tab : Z) :
  bound w tab = Some (deltaId delta) ->
  unmatchedDownloads w !! deltaId delta = None ->
  bound (onChangedState delta w) tab = Some (deltaId delta)
  /\ unmatchedDownloads (onChangedState delta w) !! deltaId delta = None.
Proof.
  intros Hb Hq. unfold onChangedState.
  destruct (deltaState delta) as [cur|]; [|split; assumption].
  destruct (findBound (deltaId delta) (downloadState w)) as [tabId|] eqn:Hf;
    [|exfalso; exact (findBound_found _ _ _ Hb Hf)].
  destruct cur; cbv zeta; try (split; assumption).
  all: split;
    [ etransitivity; [|exact Hb];
      (etransitivity; [|apply (bound_updateTabState tabId)]);
      apply bound_same; reflexivity
    | apply lookup_delete_eq ].
Qed.
End RematchFacts.

(** C6. Late name: when a download is in the unmatched queue without a
    name, and an [onChanged] delta brings its name, and that name scores
    at least 30 against exactly one unbound task in progress, then after
    the listener that task is bound to the download and the queue does not
    have the download any more. *)
Theorem late_name_rematch `{Platform} (w : World) (delta : DownloadDelta)
    (info : Unmatched) (filename : jsstring) (tab : Z) (st : TabState)
    (s : jsnum) :
  wfRegistry (downloadState w) ->
  unmatchedDownloads w !! deltaId delta = Some info ->
  ufilename info = None ->
  deltaFilename delta = Some filename -> filename <> [] ->
  task w tab = Some st -> candidate st ->
  scores filename st s -> num_geb s (Num 30) = true ->
  (forall t2 st2 s2, task w t2 = Some st2 -> candidate st2 -> t2 <> tab ->
     scores filename st2 s2 -> num_geb s2 (Num 30) = false) ->
  bound (onChanged delta w) tab = Some (deltaId delta)
  /\ unmatchedDownloads (onChanged delta w) !! deltaId delta = None.
Proof.
  intros Hwf Hu Hnone Hdf Hne Ht Hc Hs Hge Huniq.
  unfold onChanged, onChangedFilename. rewrite Hdf.
  destruct filename as [|c f]; [congruence|].
  rewrite Hu, Hnone. cbn [truthyStr negb]. cbv zeta.
  match goal with
  | |- context [matchDownloadToTab _ _ _ ?x] => set (w0 := x)
  end.
  assert (Hwf0 : wfRegistry (downloadState w0)) by exact Hwf.
  destruct (match_effect (deltaId delta) (c :: f) (uurl info) w0 Hwf0)
    as (b & w' & E & [(-> & -> & Hall)
                     |(-> & tab' & st' & best & Ht' & Hc' & Hs' & Hge' & ->)]);
    rewrite E.
  - exfalso. change (task w0 tab) with (task w tab) in Hall.
    rewrite (Hall tab st s Ht Hc Hs) in Hge. discriminate.
  - change (task w0 tab') with (task w tab') in Ht'.
    assert (tab' = tab) as ->.
    { destruct (Z.eq_dec tab' tab) as [E'|Hne']; [exact E'|].
      rewrite (Huniq tab' st' best Ht' Hc' Hne' Hs') in Hge'. discriminate. }
    apply onChangedState_keeps.
    + transitivity (bound (bindTo (deltaId delta) tab st' w0) tab).
      * apply bound_same. reflexivity.
      * rewrite bound_bindTo, bool_decide_eq_true_2; reflexivity.
    + apply lookup_delete_eq.
Qed.

Lemma parkedNameless_wf :
  wfRegistry
    (downloadState (@run AsciiPlatform parkedNameless initialWorld)).
Proof.
  split.
  - vm_compute. repeat constructor; simpl; intuition discriminate.
  - vm_compute. intros tab st [E|[]]; inversion E; subst; discriminate.
Qed.

(** Download 5, created without a name after tab 1 was started, is bound
    to tab 1 and leaves the queue when its name is determined. *)
Lemma late_name_rematch_witness :
  unmatchedDownloads (@run AsciiPlatform parkedNameless initialWorld) !! 5
    = Some (mkUnmatched None None)
  /\ bound (@onChanged AsciiPlatform nameDetermined
              (@run AsciiPlatform parkedNameless initialWorld)) 1 = Some 5
  /\ unmatchedDownloads
       (@onChanged AsciiPlatform nameDetermined
          (@run AsciiPlatform parkedNameless initialWorld)) !! 5 = None.
Proof.
  assert (Hq : unmatchedDownloads
                 (@run AsciiPlatform parkedNameless initialWorld) !! 5
               = Some (mkUnmatched None None)).
  { vm_compute. reflexivity. }
  split; [exact Hq|].
  destruct (task (@run AsciiPlatform parkedNameless initialWorld) 1)
    as [st|] eqn:Et; [|vm_compute in Et; discriminate].
  apply (@late_name_rematch AsciiPlatform _ nameDetermined
           (mkUnmatched None None) (lit "C:\Downloads\My Gallery.zip")
           1 st (Num 100)).
  - exact parkedNameless_wf.
  - exact Hq.
  - reflexivity.
  - reflexivity.
  - discriminate.
  - exact Et.
  - vm_compute in Et. inversion Et; subst. split; reflexivity.
  - vm_compute in Et. inversion Et; subst. vm_compute. reflexivity.
  - reflexivity.
  - intros t2 st2 s2 Ht2 _ Hne. exfalso. apply Hne.
    unfold task in Ht2. apply get_In in Ht2. vm_compute in Ht2.
    destruct Ht2 as [E|[]]. inversion E. reflexivity.
Defined.

(* ===================================================================== *)
(** * Labels that normalise to nothing                                    *)
(* ===================================================================== *)

Section EmptyLabelFacts.
Context `{Platform}.
Implicit Types (s x : jsstring) (c : N).

Lemma numeral_classes c :
  isJapaneseNumeral c = true ->
  isDecoration c = false /\ isSeparator c = false /\ isSpace c = false.
Proof.
  unfold isJapaneseNumeral, isDigit, isZenkakuDigit, kanjiDigits,
    kanjiHundred. cbn [existsb].
  rewrite !orb_true_iff, !andb_true_iff, !N.leb_le, !N.eqb_eq.
  intros Hc.
  unfold isDecoration, isSeparator, isSpace. cbn [existsb].
  repeat split; apply not_true_is_false;
    rewrite !orb_true_iff, ?andb_true_iff, ?N.leb_le, !N.eqb_eq; lia.
Qed.

Lemma digit_numeral c : isDigit c = true -> isJapaneseNumeral c = true.
Proof. unfold isJapaneseNumeral. intros ->. reflexivity. Qed.

Lemma In_dropWhile (p : N -> bool) s c : In c (dropWhile p s) -> In c s.
Proof.
  induction s as [|a s IH]; simpl; [tauto|].
  destruct (p a); [right; auto|tauto].
Qed.

Lemma dropWhile_keeps (p : N -> bool) s c :
  In c s -> p c = false -> In c (dropWhile p s).
Proof.
  induction s as [|a s IH]; simpl; [tauto|].
  intros [->|Hi] Hp.
  - rewrite Hp. left. reflexivity.
  - destruct (p a); [auto|right; exact Hi].
Qed.

Lemma takeWhile_none (p : N -> bool) s :
  (forall c, In c s -> p c = false) -> takeWhile p s = [].
Proof.
  destruct s as [|a s]; simpl; [reflexivity|].
  intros Hall. rewrite (Hall a); [reflexivity|left; reflexivity].
Qed.

Lemma In_stripPrefixBy (eqc : N -> N -> bool) (p s r : jsstring) c :
  stripPrefixBy eqc p s = Some r -> In c r -> In c s.
Proof.
  revert s. induction p as [|a p IH]; intros s; simpl.
  - intros [= ->]. tauto.
  - destruct s as [|b s]; [discriminate|].
    destruct (eqc a b); [|discriminate].
    intros Hs Hi. right. exact (IH s Hs Hi).
Qed.

Lemma numeralFree_digits s :
  numeralFree s -> forall c, In c s -> isDigit c = false.
Proof.
  intros Hs c Hi. apply not_true_is_false. intros Hd.
  apply digit_numeral in Hd. rewrite (Hs c Hi) in Hd. discriminate.
Qed.

Lemma numeralFree_tail c s : numeralFree (c :: s) -> numeralFree s.
Proof. intros Hs x Hi. apply Hs. right. exact Hi. Qed.

Lemma scanAll_none (m : anchored) s :
  (forall x, numeralFree x -> m x = None) ->
  numeralFree s -> forall skip, scanAll m skip s = [].
Proof.
  intros Hm. induction s as [|c s IH]; intros Hs skip; [reflexivity|].
  simpl. pose proof (numeralFree_tail _ _ Hs) as Hs'.
  destruct skip; [|apply IH; exact Hs'].
  rewrite (Hm _ Hs). apply IH. exact Hs'.
Qed.

Lemma japaneseAt_none x : numeralFree x -> japaneseAt x = None.
Proof.
  intros Hx. unfold japaneseAt. destruct x as [|c r]; [reflexivity|].
  destruct (c =? 31532)%N; [|reflexivity].
  rewrite takeWhile_none; [reflexivity|].
  intros a Ha. apply Hx. right. exact Ha.
Qed.

Lemma numberTail_none x : numeralFree x -> numberTail x = None.
Proof.
  intros Hx. unfold numberTail. rewrite takeWhile_none; [reflexivity|].
  intros a Ha. apply (numeralFree_digits x Hx). eapply In_dropWhile, Ha.
Qed.

Lemma keywordAt_none kw dot x : numeralFree x -> keywordAt kw dot x = None.
Proof.
  intros Hx. unfold keywordAt.
  destruct (stripPrefixCI (lit kw) x) as [r|] eqn:Hs; [|reflexivity].
  assert (Hr : numeralFree r).
  { intros a Ha. apply Hx. eapply In_stripPrefixBy; eauto. }
  destruct r as [|a r']; [apply numberTail_none; exact Hr|].
  destruct (N.eq_dec a 46) as [->|Hne].
  - destruct dot; apply numberTail_none;
      [exact (numeralFree_tail _ _ Hr)|exact Hr].
  - assert (E : forall (A : Type) (u v : A),
               match a with 46%N => u | _ => v end = v).
    { intros A u v. destruct a as [|p]; [reflexivity|].
      do 6 (destruct p as [p|p|]; try reflexivity). congruence. }
    rewrite E. apply numberTail_none. exact Hr.
Qed.

Lemma englishAt_none x : numeralFree x -> englishAt x = None.
Proof.
  intros Hx. unfold englishAt. cbn [firstOf].
  rewrite !keywordAt_none by exact Hx. reflexivity.
Qed.

Lemma bracketAt_none x : numeralFree x -> bracketAt x = None.
Proof.
  intros Hx. unfold bracketAt. destruct x as [|c r]; [reflexivity|].
  destruct (isOpenBracket c); [|reflexivity].
  rewrite takeWhile_none; [reflexivity|].
  intros a Ha. apply (numeralFree_digits _ Hx). right. exact Ha.
Qed.

Lemma trailingNumber_none s : numeralFree s -> trailingNumber s = None.
Proof.
  intros Hs. unfold trailingNumber. rewrite takeWhile_none; [reflexivity|].
  intros a Ha. apply (numeralFree_digits s Hs).
  apply In_dropWhile in Ha. apply in_rev. exact Ha.
Qed.

(** Without a numeral there is no episode number. *)
Lemma extractEpisodeNumbers_none s :
  numeralFree s -> extractEpisodeNumbers s = [].
Proof.
  intros Hs. unfold extractEpisodeNumbers, matchAll.
  destruct s as [|c r]; [reflexivity|].
  rewrite (scanAll_none japaneseAt _ japaneseAt_none Hs).
  rewrite (scanAll_none englishAt _ englishAt_none Hs).
  rewrite (scanAll_none bracketAt _ bracketAt_none Hs).
  rewrite (trailingNumber_none _ Hs). reflexivity.
Qed.

Lemma collapseSpaces_keeps b s c :
  In c s -> isSpace c = false -> In c (collapseSpaces b s).
Proof.
  revert b. induction s as [|a s IH]; intros b; simpl; [tauto|].
  intros [->|Hi] Hc.
  - rewrite Hc. left. reflexivity.
  - destruct (isSpace a); [destruct b|]; simpl; auto.
Qed.

Lemma trim_keeps s c : In c s -> isSpace c = false -> In c (trim s).
Proof.
  intros Hi Hc. unfold trim, trimEnd, trimStart.
  apply in_rev. rewrite rev_involutive.
  apply dropWhile_keeps; [|exact Hc].
  apply in_rev. rewrite rev_involutive.
  apply dropWhile_keeps; assumption.
Qed.

(** A numeral survives the normalisation when lower-casing keeps the
    numerals, as it does: they have no case. *)
Lemma normalizeForComparison_keeps s c :
  (forall x a, isJapaneseNumeral a = true -> In a x -> In a (toLowerCase x)) ->
  In c s -> isJapaneseNumeral c = true -> In c (normalizeForComparison s).
Proof.
  intros Hlow Hi Hc. unfold normalizeForComparison.
  destruct s as [|a s]; [destruct Hi|].
  destruct (numeral_classes c Hc) as (Hd & Hsep & Hsp).
  apply trim_keeps; [|exact Hsp].
  apply collapseSpaces_keeps; [|exact Hsp].
  apply in_map_iff. exists c. rewrite Hsep. split; [reflexivity|].
  apply filter_In. split; [|rewrite Hd; reflexivity].
  apply Hlow; assumption.
Qed.

Lemma normalised_empty_numeralFree s :
  (forall x a, isJapaneseNumeral a = true -> In a x -> In a (toLowerCase x)) ->
  normalizeForComparison s = [] -> numeralFree s.
Proof.
  intros Hlow Hn c Hi. apply not_true_is_false. intros Hc.
  pose proof (normalizeForComparison_keeps s c Hlow Hi Hc) as Hin.
  rewrite Hn in Hin. destruct Hin.
Qed.

(** The score against a label without episode numbers whose normal form
    is empty. *)
Lemma score_empty_label (filename : jsstring) (tabTitle gid : option jsstring) :
  extractEpisodeNumbers (cleanTitle tabTitle) = [] ->
  normalizeForComparison (cleanTitle tabTitle) = [] ->
  calculateMatchScore (Some filename) tabTitle gid = Normal (Num 100)
  \/ calculateMatchScore (Some filename) tabTitle gid = Normal (Num 98)
  \/ calculateMatchScore (Some filename) tabTitle gid = Normal (Num 85).
Proof.
  intros Hnum Hnorm. unfold calculateMatchScore.
  rewrite Hnum, Hnorm.
  destruct gid as [[|c g]|]; cbv zeta;
    repeat match goal with
           | |- context [if ?b then _ else _] =>
               destruct b; [tauto|]
           end;
    cbn [List.length Nat.ltb Nat.leb andb];
    rewrite ?andb_false_r, ?includes_nil; cbn [andb orb]; tauto.
Qed.
End EmptyLabelFacts.

Lemma asciiLower_keepsNumerals : @keepsNumerals AsciiPlatform.
Proof.
  intros x a Ha Hi. cbn [toLowerCase AsciiPlatform]. unfold asciiLower.
  apply in_map_iff. exists a. split; [|exact Hi].
  destruct ((65 <=? a) && (a <=? 90))%N eqn:E; [|reflexivity].
  exfalso. revert Ha E.
  unfold isJapaneseNumeral, isDigit, isZenkakuDigit, kanjiDigits,
    kanjiHundred. cbn [existsb].
  rewrite !orb_true_iff, !andb_true_iff, !N.leb_le, !N.eqb_eq. lia.
Qed.

(** C10. A task whose label is absent or empty, or whose normalised label
    is empty, scores at least 85 against every file name (100, 98 or 85:
    every string contains the empty string), whatever its identifier; so
    the matcher answers [true] for every download when such a task is a
    candidate, and binds it when it is the only candidate. *)
Theorem empty_label_matches_anything `{Platform} (filename : jsstring)
    (st : TabState) :
  emptyLabel (title st) ->
  (exists n, scores filename st (Num n) /\ 85 <= n)
  /\ forall dlId dlUrl w tab,
       wfRegistry (downloadState w) ->
       task w tab = Some st -> candidate st ->
       exists w',
         matchDownloadToTab dlId filename dlUrl w = Normal (true, w')
         /\ ((forall t2 st2, task w t2 = Some st2 -> candidate st2 -> t2 = tab)
             -> bound w' tab = Some dlId).
Proof.
  intros Hempty.
  assert (Hscore : exists n, scores filename st (Num n) /\ 85 <= n).
  { assert (Hnum : extractEpisodeNumbers (cleanTitle (title st)) = []
                   /\ normalizeForComparison (cleanTitle (title st)) = []).
    { destruct Hempty as [Habs|[Hlow Hnorm]].
      - unfold cleanTitle. rewrite Habs. split; reflexivity.
      - split; [|exact Hnorm]. apply extractEpisodeNumbers_none.
        apply normalised_empty_numeralFree; assumption. }
    destruct Hnum as [Hnum Hnorm]. unfold scores.
    destruct (score_empty_label filename (title st) (galleryId st) Hnum Hnorm)
      as [E|[E|E]]; rewrite E; eexists; (split; [reflexivity|lia]). }
  split; [exact Hscore|].
  intros dlId dlUrl w tab Hwf Ht Hc.
  destruct Hscore as (n & Hs & Hn).
  destruct (match_effect dlId filename dlUrl w Hwf)
    as (b & w' & E & [(-> & -> & Hall)
                     |(-> & tab' & st' & best & Ht' & Hc' & _ & _ & ->)]).
  - exfalso. pose proof (Hall tab st (Num n) Ht Hc Hs) as Hlt.
    simpl in Hlt. apply Z.leb_gt in Hlt. lia.
  - eexists. split; [exact E|].
    intros Honly. rewrite (Honly tab' st' Ht' Hc').
    rewrite bound_bindTo, bool_decide_eq_true_2; reflexivity.
Qed.

(** A label made of brackets only normalises to nothing and scores at
    least 85 against an unrelated file name. *)
Lemma empty_label_matches_anything_witness :
  @emptyLabel AsciiPlatform (title (unboundTask (Some bracketsOnly)))
  /\ exists n,
       @scores AsciiPlatform (lit "Completely unrelated 7.zip")
         (unboundTask (Some bracketsOnly)) (Num n)
       /\ 85 <= n.
Proof.
  assert (He : @emptyLabel AsciiPlatform
                 (title (unboundTask (Some bracketsOnly)))).
  { right. split; [exact asciiLower_keepsNumerals|reflexivity]. }
  split; [exact He|].
  exact (proj1 (@empty_label_matches_anything AsciiPlatform
                  (lit "Completely unrelated 7.zip")
                  (unboundTask (Some bracketsOnly)) He)).
Defined.

(** The same with no label at all. *)
Example absent_label_scores_85 :
  @scores AsciiPlatform (lit "Completely unrelated 7.zip")
    (unboundTask None) (Num 85).
Proof. vm_compute. reflexivity. Qed.

(* ===================================================================== *)
(** * Further properties of the string functions                          *)
(* ===================================================================== *)

Section StringFacts.
Implicit Types (s t x : jsstring) (c : N) (p : N -> bool).

Lemma takeWhile_dropWhile p s : takeWhile p s ++ dropWhile p s = s.
Proof.
  induction s as [|a s IH]; simpl; [reflexivity|].
  destruct (p a); simpl; [rewrite IH|]; reflexivity.
Qed.

Lemma takeWhile_all p s : forallb p (takeWhile p s) = true.
Proof.
  induction s as [|a s IH]; simpl; [reflexivity|].
  destruct (p a) eqn:E; simpl; [rewrite E; exact IH|reflexivity].
Qed.

Lemma takeWhile_app_all p s t :
  (forall c, In c s -> p c = true) ->
  takeWhile p (s ++ t) = s ++ takeWhile p t.
Proof.
  induction s as [|a s IH]; simpl; intros Hall; [reflexivity|].
  rewrite (Hall a) by (left; reflexivity). f_equal.
  apply IH. intros c Hc. apply Hall. right. exact Hc.
Qed.

Lemma dropWhile_app_all p s t :
  (forall c, In c s -> p c = true) ->
  dropWhile p (s ++ t) = dropWhile p t.
Proof.
  induction s as [|a s IH]; simpl; intros Hall; [reflexivity|].
  rewrite (Hall a) by (left; reflexivity).
  apply IH. intros c Hc. apply Hall. right. exact Hc.
Qed.

Lemma dropWhile_length p s :
  (List.length (dropWhile p s) <= List.length s)%nat.
Proof.
  induction s as [|a s IH]; simpl; [lia|]. destruct (p a); simpl; lia.
Qed.

Lemma dropWhile_full p s :
  List.length (dropWhile p s) = List.length s -> dropWhile p s = s.
Proof.
  destruct s as [|a s]; simpl; [reflexivity|].
  destruct (p a); [|reflexivity].
  pose proof (dropWhile_length p s). lia.
Qed.

Lemma dropWhile_idem p s : dropWhile p (dropWhile p s) = dropWhile p s.
Proof.
  induction s as [|a s IH]; simpl; [reflexivity|].
  destruct (p a) eqn:E; [exact IH|]. simpl. rewrite E. reflexivity.
Qed.

Lemma dropWhile_snoc p s c :
  p c = false -> dropWhile p (s ++ [c]) = dropWhile p s ++ [c].
Proof.
  intros Hc. induction s as [|a s IH]; simpl.
  - rewrite Hc. reflexivity.
  - destruct (p a); [exact IH|reflexivity].
Qed.

Lemma stripPrefix_app s t rest :
  stripPrefix s t = Some rest -> t = s ++ rest.
Proof.
  unfold stripPrefix. revert t.
  induction s as [|a s IH]; intros t; simpl.
  - intros [= ->]. reflexivity.
  - destruct t as [|b t]; [discriminate|].
    destruct (N.eqb_spec a b) as [->|]; [|discriminate].
    intros Hs. rewrite (IH t Hs). reflexivity.
Qed.

Lemma stripPrefix_refl s rest : stripPrefix s (s ++ rest) = Some rest.
Proof.
  unfold stripPrefix. induction s as [|a s IH]; simpl; [reflexivity|].
  rewrite N.eqb_refl. exact IH.
Qed.

Lemma includes_app pre sub post : includes (pre ++ sub ++ post) sub = true.
Proof.
  induction pre as [|a pre IH]; simpl.
  - assert (Hs : startsWith sub (sub ++ post) = true).
    { unfold startsWith. rewrite stripPrefix_refl. reflexivity. }
    destruct (sub ++ post); simpl; rewrite Hs; reflexivity.
  - rewrite IH. apply orb_true_r.
Qed.

(** [trimEnd] keeps a first character that is not white space. *)
Lemma trimEnd_cons c s :
  isSpace c = false -> exists r, trimEnd (c :: s) = c :: r.
Proof.
  intros Hc. unfold trimEnd. simpl.
  rewrite (dropWhile_snoc _ _ _ Hc), rev_app_distr. simpl.
  eexists. reflexivity.
Qed.

Lemma trimEnd_idem s : trimEnd (trimEnd s) = trimEnd s.
Proof.
  unfold trimEnd. rewrite rev_involutive, dropWhile_idem. reflexivity.
Qed.

(** [trim] is idempotent: what it returns has no white space at either
    end. *)
Lemma trim_idem s : trim (trim s) = trim s.
Proof.
  unfold trim, trimStart.
  destruct (dropWhile isSpace s) as [|c r] eqn:E.
  - reflexivity.
  - assert (Hc : isSpace c = false).
    { clear -E. revert E.
      induction s as [|b l IH]; simpl; [discriminate|].
      destruct (isSpace b) eqn:Eb; [exact IH|].
      intros [= <- _]. exact Eb. }
    destruct (trimEnd_cons c r Hc) as (r' & Er). rewrite Er.
    simpl. rewrite Hc. rewrite <- Er. apply trimEnd_idem.
Qed.

Lemma trim_fixed_trimEnd s : trim s = s -> trimEnd s = s.
Proof.
  intros Ht. unfold trim, trimStart, trimEnd in *.
  assert (Hl : List.length (dropWhile isSpace s) = List.length s).
  { pose proof (dropWhile_length isSpace s).
    pose proof (dropWhile_length isSpace (rev (dropWhile isSpace s))).
    apply (f_equal (@List.length N)) in Ht.
    rewrite length_rev in Ht. rewrite length_rev in H0. lia. }
  rewrite (dropWhile_full _ _ Hl) in Ht. exact Ht.
Qed.

(** A string that [trimEnd] leaves alone has a character that is not
    white space in each of its non-empty suffixes. *)
Lemma trimEnd_fixed_suffix s u v :
  trimEnd s = s -> s = u ++ v -> v <> [] ->
  exists c, In c v /\ isSpace c = false.
Proof.
  intros Ht -> Hv.
  destruct (existsb (fun c => negb (isSpace c)) v) eqn:E.
  - apply existsb_exists in E. destruct E as (c & Hc & Hs).
    exists c. split; [exact Hc|]. apply negb_true_iff. exact Hs.
  - exfalso.
    assert (Hall : forall c, In c (rev v) -> isSpace c = true).
    { intros c Hc. apply in_rev in Hc.
      destruct (isSpace c) eqn:Ec; [reflexivity|].
      assert (existsb (fun c => negb (isSpace c)) v = true).
      { apply existsb_exists. exists c. rewrite Ec. split; auto. }
      congruence. }
    unfold trimEnd in Ht. rewrite rev_app_distr in Ht.
    rewrite (dropWhile_app_all _ _ _ Hall) in Ht.
    apply (f_equal (@List.length N)) in Ht.
    rewrite length_rev, length_app in Ht.
    pose proof (dropWhile_length isSpace (rev u)).
    rewrite length_rev in H.
    destruct v; [congruence|simpl in Ht; lia].
Qed.
End StringFacts.

(** What follows the last separator of a path whose name has none. *)
Lemma lastSegment_name (pre name : jsstring) :
  noSeparator name ->
  (pre = [] \/ exists l a, pre = l ++ [a] /\ isSlash a = true) ->
  lastSegment (pre ++ name) = name.
Proof.
  intros Hname Hpre. unfold lastSegment.
  assert (Hall : forall c, In c (rev name) ->
                   negb (isSlash c) = true).
  { intros c Hc. apply in_rev in Hc. rewrite (Hname c Hc). reflexivity. }
  destruct Hpre as [->|(l & a & -> & Ha)].
  - simpl. rewrite <- (app_nil_r (rev name)).
    rewrite takeWhile_app_all by exact Hall.
    simpl. rewrite app_nil_r. apply rev_involutive.
  - rewrite rev_app_distr, rev_app_distr. simpl.
    rewrite takeWhile_app_all by exact Hall.
    simpl. rewrite Ha. simpl. rewrite app_nil_r. apply rev_involutive.
Qed.

Lemma lastSegment_path (dir name : jsstring) (sep : N) :
  isSlash sep = true -> noSeparator name ->
  lastSegment (dir ++ sep :: name) = name.
Proof.
  intros Hsep Hname.
  change (dir ++ sep :: name) with (dir ++ [sep] ++ name).
  rewrite app_assoc. apply lastSegment_name; [exact Hname|].
  right. exists dir, sep. split; [reflexivity|exact Hsep].
Qed.

(** X1. [cleanFilename] ignores the directory: a path ending in a
    separator and a non-empty name without separators is cleaned as the
    name alone. *)
Theorem cleanFilename_ignores_directory (dir name : jsstring) (sep : N) :
  isSlash sep = true -> name <> [] -> noSeparator name ->
  cleanFilename (Some (dir ++ sep :: name)) = cleanFilename (Some name).
Proof.
  intros Hsep Hne Hname.
  unfold cleanFilename.
  rewrite (lastSegment_path dir name sep Hsep Hname).
  pose proof (lastSegment_name [] name Hname (or_introl eq_refl)) as E.
  simpl app in E. rewrite E.
  destruct name as [|n0 name0]; [congruence|].
  destruct dir; reflexivity.
Qed.

Lemma cleanFilename_ignores_directory_witness :
  cleanFilename (Some (lit "C:\Users\me\Downloads" ++ 92%N :: lit "My Gallery.zip"))
  = lit "My Gallery".
Proof.
  rewrite (cleanFilename_ignores_directory
             (lit "C:\Users\me\Downloads") (lit "My Gallery.zip") 92%N).
  - reflexivity.
  - reflexivity.
  - discriminate.
  - intros c Hc. vm_compute in Hc.
    repeat (destruct Hc as [<-|Hc]; [reflexivity|]). destruct Hc.
Defined.

Section CleanTitleFacts.
Implicit Types (s t x : jsstring) (c : N).

Lemma hitomiSuffixAt_site ws1 ws2 rest :
  allSpace ws1 -> allSpace ws2 ->
  (forall c, In c rest -> isLineTerminator c = false) ->
  hitomiSuffixAt (ws1 ++ 124%N :: ws2 ++ lit "Hitomi.la" ++ rest) = true.
Proof.
  intros H1 H2 Hrest. unfold hitomiSuffixAt.
  set (X := ws2 ++ lit "Hitomi.la" ++ rest).
  rewrite (dropWhile_app_all _ _ _ H1).
  change (dropWhile isSpace (124%N :: X)) with (124%N :: X).
  cbv beta iota. subst X.
  rewrite (dropWhile_app_all _ _ _ H2). simpl.
  apply forallb_forall. intros c Hc. rewrite (Hrest c Hc). reflexivity.
Qed.

Lemma hitomiSuffixAt_other v S c0 :
  In c0 v -> isSpace c0 = false ->
  (forall c, In c v -> c <> 124%N) ->
  hitomiSuffixAt (v ++ S) = false.
Proof.
  intros Hin Hsp Hbar. unfold hitomiSuffixAt.
  assert (Hd : exists c r, dropWhile isSpace (v ++ S) = c :: r /\ In c v).
  { clear Hbar. induction v as [|a v IH]; [destruct Hin|].
    simpl. destruct (isSpace a) eqn:Ea.
    - destruct Hin as [->|Hin]; [congruence|].
      destruct (IH Hin) as (c & r & E & Hc).
      exists c, r. split; [exact E|right; exact Hc].
    - exists a, (v ++ S). split; [reflexivity|left; reflexivity]. }
  destruct Hd as (c & r & -> & Hc).
  destruct (N.eqb_spec c 124) as [->|Hne]; [|reflexivity].
  exfalso. exact (Hbar _ Hc eq_refl).
Qed.

Lemma removeHitomiSuffix_app t S :
  S <> [] -> hitomiSuffixAt S = true ->
  (forall u v, t = u ++ v -> v <> [] -> hitomiSuffixAt (v ++ S) = false) ->
  removeHitomiSuffix (t ++ S) = t.
Proof.
  intros HS Hat. induction t as [|a t IH]; intros Hsuf.
  - destruct S as [|b S]; [congruence|].
    change ([] ++ b :: S) with (b :: S). cbn [removeHitomiSuffix].
    rewrite Hat. reflexivity.
  - assert (Hh : hitomiSuffixAt (a :: t ++ S) = false).
    { apply (Hsuf [] (a :: t) eq_refl). discriminate. }
    change ((a :: t) ++ S) with (a :: t ++ S). cbn [removeHitomiSuffix].
    rewrite Hh. f_equal. apply IH. intros u v -> Hv.
    apply (Hsuf (a :: u) v); [reflexivity|exact Hv].
Qed.
Lemma removeHitomiSuffix_site t ws1 ws2 rest :
  (forall c, In c t -> c <> 124%N) -> trimEnd t = t ->
  allSpace ws1 -> allSpace ws2 ->
  (forall c, In c rest -> isLineTerminator c = false) ->
  removeHitomiSuffix (t ++ ws1 ++ 124%N :: ws2 ++ lit "Hitomi.la" ++ rest)
  = t.
Proof.
  intros Hbar Hend H1 H2 Hrest.
  set (S := ws1 ++ 124%N :: ws2 ++ lit "Hitomi.la" ++ rest).
  apply removeHitomiSuffix_app.
  - subst S. destruct ws1; discriminate.
  - apply hitomiSuffixAt_site; assumption.
  - intros u v E Hv.
    destruct (trimEnd_fixed_suffix t u v Hend E Hv) as (c0 & Hc0 & Hs0).
    apply (hitomiSuffixAt_other v S c0 Hc0 Hs0).
    intros c Hc. apply Hbar. rewrite E. apply in_or_app. right. exact Hc.
Qed.
End CleanTitleFacts.

(** X2. [cleanTitle] removes the site suffix: a title without a bar that
    does not end in white space, followed by a bar (white space around
    it), the site name and anything on the same line, is cleaned to the
    trimmed title. *)
Theorem cleanTitle_strips_site_suffix (t ws1 ws2 rest : jsstring) :
  (forall c, In c t -> c <> 124%N) -> trimEnd t = t ->
  allSpace ws1 -> allSpace ws2 ->
  (forall c, In c rest -> isLineTerminator c = false) ->
  cleanTitle (Some (t ++ ws1 ++ 124%N :: ws2 ++ lit "Hitomi.la" ++ rest))
  = trim t.
Proof.
  intros Hbar Hend H1 H2 Hrest.
  unfold cleanTitle.
  assert (Htruthy : truthyStr
            (Some (t ++ ws1 ++ 124%N :: ws2 ++ lit "Hitomi.la" ++ rest))
          = true).
  { destruct t; [|reflexivity]. destruct ws1; reflexivity. }
  rewrite Htruthy. f_equal.
  apply removeHitomiSuffix_site; assumption.
Qed.

Lemma cleanTitle_strips_site_suffix_witness :
  cleanTitle (Some (lit "  My Gallery" ++ lit " " ++ 124%N :: lit " "
                      ++ lit "Hitomi.la" ++ lit " - Read online"))
  = lit "My Gallery".
Proof.
  rewrite (cleanTitle_strips_site_suffix (lit "  My Gallery") (lit " ")
             (lit " ") (lit " - Read online")).
  - reflexivity.
  - intros c Hc. vm_compute in Hc.
    repeat (destruct Hc as [<-|Hc]; [discriminate|]). destruct Hc.
  - reflexivity.
  - intros c [<-|[]]. reflexivity.
  - intros c [<-|[]]. reflexivity.
  - intros c Hc. vm_compute in Hc.
    repeat (destruct Hc as [<-|Hc]; [reflexivity|]). destruct Hc.
Defined.

Section TitledFileFacts.
Context `{Platform}.
Implicit Types (T dir : jsstring).

(** What [cleanFilename] makes of the file [<title>.zip] in a
    directory. *)
Lemma cleanFilename_titled dir T (sep : N) :
  isSlash sep = true -> T <> [] -> trim T = T -> noSeparator T ->
  cleanFilename (Some (dir ++ sep :: T ++ lit ".zip")) = T.
Proof.
  intros Hsep Hne Htrim Hslash.
  assert (Hzip : noSeparator (T ++ lit ".zip")).
  { intros c Hc. apply in_app_or in Hc.
    destruct Hc as [Hc|Hc]; [exact (Hslash c Hc)|].
    vm_compute in Hc.
    repeat (destruct Hc as [<-|Hc]; [reflexivity|]). destruct Hc. }
  unfold cleanFilename.
  rewrite (lastSegment_path dir (T ++ lit ".zip") sep Hsep Hzip).
  assert (Ez : removeZipSuffix (T ++ lit ".zip") = T).
  { unfold removeZipSuffix. rewrite rev_app_distr. simpl.
    apply rev_involutive. }
  assert (Etr : truthyStr (Some (dir ++ sep :: T ++ lit ".zip")) = true)
    by (destruct dir; reflexivity).
  rewrite Etr.
  destruct T as [|c0 T0]; [congruence|]. simpl truthyStr. cbv iota.
  rewrite Ez. exact Htrim.
Qed.

(** What [cleanTitle] makes of the tab title [<title> | Hitomi.la]. *)
Lemma cleanTitle_titled T :
  trim T = T -> (forall c, In c T -> c <> 124%N) ->
  cleanTitle (Some (T ++ lit " | Hitomi.la")) = T.
Proof.
  intros Htrim Hbar. unfold cleanTitle.
  assert (Etr : truthyStr (Some (T ++ lit " | Hitomi.la")) = true)
    by (destruct T; reflexivity).
  rewrite Etr.
  change (T ++ lit " | Hitomi.la")
    with (T ++ lit " " ++ 124%N :: lit " " ++ lit "Hitomi.la" ++ []).
  rewrite removeHitomiSuffix_site.
  - exact Htrim.
  - exact Hbar.
  - apply trim_fixed_trimEnd. exact Htrim.
  - intros c [<-|[]]. reflexivity.
  - intros c [<-|[]]. reflexivity.
  - intros c [].
Qed.

(** A file name and a title that are cleaned to the same string score
    100, by the first rule or by the second. *)
Lemma score_of_equal_names (filename : jsstring)
    (tabTitle gid : option jsstring) :
  cleanFilename (Some filename) = cleanTitle tabTitle ->
  calculateMatchScore (Some filename) tabTitle gid = Normal (Num 100).
Proof.
  intros E. unfold calculateMatchScore. rewrite E.
  assert (Heq : eqs (cleanTitle tabTitle) (cleanTitle tabTitle) = true)
    by (apply eqs_true; reflexivity).
  rewrite Heq.
  destruct gid as [[|g0 g]|]; cbv beta iota zeta; try reflexivity.
  destruct (includes _ _ || includes _ _); reflexivity.
Qed.
End TitledFileFacts.

(** X3. The file the site names after the gallery scores 100: for a title
    that is trimmed, not empty, and has no bar and no path separator, the
    file [<title>.zip] in any directory scores 100 against the tab title
    [<title> | Hitomi.la], whatever the gallery id and the platform. *)
Theorem titled_file_scores_100 `{Platform} (dir T : jsstring) (sep : N)
    (gid : option jsstring) :
  isSlash sep = true -> T <> [] -> trim T = T ->
  noSeparator T -> (forall c, In c T -> c <> 124%N) ->
  calculateMatchScore (Some (dir ++ sep :: T ++ lit ".zip"))
    (Some (T ++ lit " | Hitomi.la")) gid
  = Normal (Num 100).
Proof.
  intros Hsep Hne Htrim Hslash Hbar.
  apply score_of_equal_names.
  etransitivity; [apply cleanFilename_titled; assumption|].
  symmetry. apply cleanTitle_titled; assumption.
Qed.

Lemma titled_file_scores_100_witness :
  @calculateMatchScore AsciiPlatform
    (Some (lit "C:\Downloads" ++ 92%N :: lit "My Gallery vol.2" ++ lit ".zip"))
    (Some (lit "My Gallery vol.2" ++ lit " | Hitomi.la"))
    (Some (lit "424242"))
  = Normal (Num 100).
Proof.
  apply (@titled_file_scores_100 AsciiPlatform).
  - reflexivity.
  - discriminate.
  - reflexivity.
  - intros c Hc. vm_compute in Hc.
    repeat (destruct Hc as [<-|Hc]; [reflexivity|]). destruct Hc.
  - intros c Hc. vm_compute in Hc.
    repeat (destruct Hc as [<-|Hc]; [discriminate|]). destruct Hc.
Defined.

Section NormalFormFacts.
Implicit Types (s t x : jsstring) (c : N) (p : N -> bool).

Lemma takeWhile_full p s :
  (forall c, In c s -> p c = true) -> takeWhile p s = s.
Proof.
  intros Hall. rewrite <- (app_nil_r s) at 1.
  rewrite takeWhile_app_all by exact Hall. simpl. apply app_nil_r.
Qed.

(** What [trim] returns is a segment of its argument. *)
Lemma trim_segment s : exists pre post, s = pre ++ trim s ++ post.
Proof.
  unfold trim, trimStart, trimEnd.
  exists (takeWhile isSpace s),
         (rev (takeWhile isSpace (rev (dropWhile isSpace s)))).
  rewrite <- rev_app_distr, takeWhile_dropWhile, rev_involutive.
  symmetry. apply takeWhile_dropWhile.
Qed.

Lemma singleSpaced_app_r s t :
  singleSpaced (s ++ t) = true -> singleSpaced t = true.
Proof.
  induction s as [|a s IH]; simpl; [tauto|].
  destruct (s ++ t) eqn:E.
  - destruct s; [simpl in E; subst; reflexivity|discriminate].
  - rewrite andb_true_iff. intros [_ Hs]. exact (IH Hs).
Qed.

Lemma singleSpaced_app_l s t :
  singleSpaced (s ++ t) = true -> singleSpaced s = true.
Proof.
  induction s as [|a s IH]; simpl; [reflexivity|].
  destruct s as [|b s]; [reflexivity|].
  simpl in *. rewrite !andb_true_iff. intros [Hab Hs].
  split; [exact Hab|exact (IH Hs)].
Qed.

Lemma collapseSpaces_singleSpaced s :
  forall inRun,
    singleSpaced (collapseSpaces inRun s) = true
    /\ (inRun = true ->
        match collapseSpaces inRun s with
        | c :: _ => isSpace c = false
        | [] => True
        end).
Proof.
  induction s as [|a s IH]; intros inRun;
    [split; [reflexivity|intros _; exact I]|].
  simpl. destruct (isSpace a) eqn:Ea.
  - destruct (IH true) as [Hs Hh]. specialize (Hh eq_refl).
    destruct inRun.
    + split; [exact Hs|intros _; exact Hh].
    + split; [|discriminate].
      simpl. destruct (collapseSpaces true s) as [|b r]; [reflexivity|].
      rewrite Hh, Hs. reflexivity.
  - destruct (IH false) as [Hs _]. split; [|intros _; exact Ea].
    simpl. destruct (collapseSpaces false s) as [|b r]; [reflexivity|].
    rewrite Ea, Hs. reflexivity.
Qed.

Lemma In_collapseSpaces inRun s c :
  In c (collapseSpaces inRun s) ->
  c = 32%N \/ (In c s /\ isSpace c = false).
Proof.
  revert inRun. induction s as [|a s IH]; intros inRun; simpl; [tauto|].
  destruct (isSpace a) eqn:Ea.
  - destruct inRun; simpl.
    + intros Hc. destruct (IH _ Hc) as [E|[Hi Hs]]; [left|right]; auto.
    + intros [E|Hc]; [left; congruence|].
      destruct (IH _ Hc) as [E|[Hi Hs]]; [left|right]; auto.
  - simpl. intros [<-|Hc]; [right; auto|].
    destruct (IH _ Hc) as [E|[Hi Hs]]; [left|right]; auto.
Qed.
End NormalFormFacts.

(** X4. What [normalizeForComparison] returns is in normal form, whatever
    the case mapping of the platform: it has no decoration and no
    separator character, its only white space is the space character,
    never twice in a row nor at either end. *)
Theorem normalizeForComparison_normal_form `{Platform} (s : jsstring) :
  (forall c, In c (normalizeForComparison s) ->
     isDecoration c = false /\ isSeparator c = false
     /\ (isSpace c = true -> c = 32%N))
  /\ singleSpaced (normalizeForComparison s) = true
  /\ trim (normalizeForComparison s) = normalizeForComparison s.
Proof.
  unfold normalizeForComparison.
  destruct s as [|a0 s0]; [split; [intros c []|split; reflexivity]|].
  set (l := List.map (fun c => if isSeparator c then 32%N else c)
              (List.filter (fun c => negb (isDecoration c))
                 (toLowerCase (a0 :: s0)))).
  destruct (trim_segment (collapseSpaces false l)) as (pre & post & E).
  split; [|split].
  - intros c Hc.
    assert (Hin : In c (collapseSpaces false l)).
    { rewrite E. apply in_or_app. right. apply in_or_app. left. exact Hc. }
    apply In_collapseSpaces in Hin.
    destruct Hin as [->|[Hl Hs]]; [repeat split; reflexivity|].
    subst l. apply in_map_iff in Hl. destruct Hl as (a & Ea & Ha).
    apply filter_In in Ha. destruct Ha as [_ Hd].
    apply negb_true_iff in Hd.
    destruct (isSeparator a) eqn:Esep.
    + subst c. discriminate.
    + subst c. repeat split; try assumption. congruence.
  - destruct (collapseSpaces_singleSpaced l false) as [Hs _].
    rewrite E in Hs.
    apply singleSpaced_app_r in Hs. apply singleSpaced_app_l in Hs. exact Hs.
  - apply trim_idem.
Qed.

Section EpisodeFacts.
Implicit Types (s x : jsstring) (c : N).











End EpisodeFacts.


Section GalleryIdFacts.
Implicit Types (s u pre ds g : jsstring).

Lemma takeWhile_run (p : N -> bool) ds t :
  forallb p ds = true ->
  match t with c :: _ => p c = false | [] => True end ->
  takeWhile p (ds ++ t) = ds /\ dropWhile p (ds ++ t) = t.
Proof.
  intros Hd Ht. rewrite forallb_forall in Hd.
  rewrite takeWhile_app_all, dropWhile_app_all by exact Hd.
  destruct t as [|c t]; simpl; [rewrite app_nil_r; auto|].
  rewrite Ht, app_nil_r. auto.
Qed.

Lemma galleryIdAt_Some s ds :
  galleryIdAt s = Some ds <-> galleryRef s [] ds.
Proof.
  unfold galleryRef, digitRun. split.
  - unfold galleryIdAt. destruct s as [|c r]; [discriminate|].
    destruct (N.eqb_spec c 45) as [->|]; [|discriminate].
    destruct (takeWhile isDigit r) as [|d0 d] eqn:Et; [discriminate|].
    unfold startsWith.
    destruct (stripPrefix (lit ".html") (dropWhile isDigit r)) as [post|] eqn:Es;
      [|discriminate].
    intros [= <-]. split; [split; [discriminate|]|].
    + rewrite <- Et. apply takeWhile_all.
    + exists post. rewrite <- (takeWhile_dropWhile isDigit r) at 1.
      rewrite Et. apply stripPrefix_app in Es. rewrite Es. reflexivity.
  - intros [[Hne Hd] (post & E)]. cbn [app] in E. subst s.
    unfold galleryIdAt. rewrite N.eqb_refl.
    destruct (takeWhile_run isDigit ds (lit ".html" ++ post) Hd eq_refl)
      as [-> ->].
    destruct ds as [|d0 d]; [congruence|].
    unfold startsWith. rewrite stripPrefix_refl. reflexivity.
Qed.

Lemma firstGalleryId_Some u g :
  firstGalleryId u = Some g <->
  exists pre, galleryRef u pre g
    /\ forall pre' ds', galleryRef u pre' ds' ->
         (List.length pre <= List.length pre')%nat
         /\ (List.length pre' = List.length pre -> ds' = g).
Proof.
  revert g. induction u as [|a u IH]; intros g.
  - simpl. split; [discriminate|].
    intros (pre & [_ (post & E)] & _). destruct pre; discriminate.
  - cbn [firstGalleryId].
    destruct (galleryIdAt (a :: u)) as [ds|] eqn:Eg.
    + apply galleryIdAt_Some in Eg. split.
      * intros [= <-]. exists []. split; [exact Eg|].
        intros pre' ds' Href. split; [simpl; lia|].
        destruct pre'; [|discriminate]. intros _.
        apply galleryIdAt_Some in Eg, Href. congruence.
      * intros (pre & Href & Hfirst).
        destruct (Hfirst [] ds Eg) as [Hlen Heq].
        destruct pre; [|simpl in Hlen; lia].
        f_equal. apply Heq. reflexivity.
    + rewrite IH. clear IH.
      assert (Hshift : forall pre ds,
                galleryRef (a :: u) pre ds ->
                exists pre0, pre = a :: pre0 /\ galleryRef u pre0 ds).
      { intros pre ds Href. destruct pre as [|b pre0].
        - apply galleryIdAt_Some in Href. congruence.
        - destruct Href as [Hd (post & E)]. cbn [app] in E.
          assert (E' : a = b /\ u = pre0 ++ 45%N :: ds ++ lit ".html" ++ post)
            by (split; congruence).
          destruct E' as [<- E']. exists pre0. split; [reflexivity|].
          split; [exact Hd|]. exists post. exact E'. }
      split.
      * intros (pre & [Hd (post & E)] & Hfirst). exists (a :: pre). split.
        -- split; [exact Hd|]. exists post. rewrite E. reflexivity.
        -- intros pre' ds' Href.
           destruct (Hshift _ _ Href) as (pre0 & -> & Href0).
           destruct (Hfirst _ _ Href0) as [Hlen Heq].
           simpl. split; [lia|]. intros Hl. apply Heq. lia.
      * intros (pre & Href & Hfirst).
        destruct (Hshift _ _ Href) as (pre0 & -> & Href0).
        exists pre0. split; [exact Href0|].
        intros pre' ds' [Hd' (post' & E')].
        assert (Href' : galleryRef (a :: u) (a :: pre') ds').
        { split; [exact Hd'|]. exists post'. rewrite E'. reflexivity. }
        destruct (Hfirst _ _ Href') as [Hlen Heq].
        simpl in Hlen, Heq. split; [lia|]. intros Hl. apply Heq. lia.
Qed.
End GalleryIdFacts.

(** X6. [extractGalleryId] finds the leftmost reference [-<digits>.html]
    of the address, with all its digits: it returns [g] exactly when the
    address has that reference with the digits [g] at some place and no
    reference starts before it; it returns nothing exactly when the
    address has no reference at all. *)
Theorem extractGalleryId_leftmost_reference (u : jsstring) :
  (forall g, extractGalleryId (Some u) = Some g <->
     exists pre, galleryRef u pre g
       /\ forall pre' ds', galleryRef u pre' ds' ->
            (List.length pre <= List.length pre')%nat
            /\ (List.length pre' = List.length pre -> ds' = g))
  /\ (extractGalleryId (Some u) = None <->
      forall pre ds, ~ galleryRef u pre ds).
Proof.
  assert (E : extractGalleryId (Some u) = firstGalleryId u).
  { destruct u; reflexivity. }
  rewrite E. split; [intros g; apply firstGalleryId_Some|].
  split.
  - intros Hnone pre ds Href.
    induction u as [|a u IH] in pre, Href, Hnone |- *.
    + destruct Href as [_ (post & Hu)]. destruct pre; discriminate.
    + cbn [firstGalleryId] in Hnone.
      destruct (galleryIdAt (a :: u)) as [g|] eqn:Eg; [discriminate|].
      destruct pre as [|b pre0].
      * apply galleryIdAt_Some in Href. congruence.
      * destruct Href as [Hd (post & Hu)]. cbn [app] in Hu.
        assert (Hu' : u = pre0 ++ 45%N :: ds ++ lit ".html" ++ post)
          by congruence.
        apply (IH Hnone pre0). split; [exact Hd|]. exists post. exact Hu'.
  - intros Hno. destruct (firstGalleryId u) as [g|] eqn:Eg; [|reflexivity].
    apply firstGalleryId_Some in Eg. destruct Eg as (pre & Href & _).
    destruct (Hno pre g Href).
Qed.

Lemma extractGalleryId_leftmost_reference_witness :
  let u := lit "https://hitomi.la/doujinshi/vol-2-english-424242.html#1" in
  exists pre, galleryRef u pre (lit "424242")
    /\ forall pre' ds', galleryRef u pre' ds' ->
         (List.length pre <= List.length pre')%nat
         /\ (List.length pre' = List.length pre -> ds' = lit "424242").
Proof.
  intros u.
  apply (proj1 (proj1 (extractGalleryId_leftmost_reference u) (lit "424242"))).
  reflexivity.
Defined.



(* ===================================================================== *)
(** * Further properties of the listeners                                 *)
(* ===================================================================== *)




Section MonitoringFacts.
Context `{Platform}.
Implicit Types (w : World) (t k : Z).

Lemma monitored_updateTabState k st det w :
  monitoredTabs (updateTabState k st det w) = monitoredTabs w.
Proof. destruct st; reflexivity. Qed.

Lemma polling_updateTabState k st det w :
  progressPolling (updateTabState k st det w) = progressPolling w.
Proof. destruct st; reflexivity. Qed.

Lemma monitored_modifyState k f w :
  monitoredTabs (modifyState k f w) = monitoredTabs w.
Proof. unfold modifyState. destruct (JSMap.get k _); reflexivity. Qed.

Lemma polling_modifyState k f w :
  progressPolling (modifyState k f w) = progressPolling w.
Proof. unfold modifyState. destruct (JSMap.get k _); reflexivity. Qed.

Lemma monitored_match dlId filename dlUrl w b w' :
  matchDownloadToTab dlId filename dlUrl w = Normal (b, w') ->
  monitoredTabs w' = monitoredTabs w
  /\ progressPolling w' = progressPolling w.
Proof.
  intros Hm. apply matchDownloadToTab_result in Hm.
  destruct Hm as [(_ & ->)|(_ & tab & st & _ & ->)]; split; reflexivity.
Qed.

Lemma monitored_addToMonitoring k w :
  monitoredTabs (addToMonitoring k w) = monitoredTabs w ∪ {[k]}
  /\ progressPolling (addToMonitoring k w) = true.
Proof.
  unfold addToMonitoring, startProgressPolling.
  cbn [progressPolling setMonitoredTabs].
  destruct (progressPolling w) eqn:E; split; try reflexivity. exact E.
Qed.

Lemma monitored_onCreated item w :
  monitoredTabs (onCreated item w) = monitoredTabs w
  /\ progressPolling (onCreated item w) = progressPolling w.
Proof.
  unfold onCreated.
  destruct (itemFilename item) as [[|c f]|]; try (split; reflexivity).
  destruct (matchDownloadToTab _ _ _ w) as [[b w']|] eqn:Hm;
    [|split; reflexivity].
  apply monitored_match in Hm. destruct b; exact Hm.
Qed.

Lemma monitored_onChangedFilename delta w w1 ok :
  onChangedFilename delta w = (w1, ok) ->
  monitoredTabs w1 = monitoredTabs w
  /\ progressPolling w1 = progressPolling w.
Proof.
  unfold onChangedFilename.
  destruct (deltaFilename delta) as [[|c f]|];
    try (intros [= <- <-]; split; reflexivity).
  destruct (unmatchedDownloads w !! deltaId delta) as [info|];
    try (intros [= <- <-]; split; reflexivity).
  destruct (negb (truthyStr (ufilename info)));
    try (intros [= <- <-]; split; reflexivity).
  match goal with
  | |- context [matchDownloadToTab ?a ?b ?c ?w0] =>
      destruct (matchDownloadToTab a b c w0) as [[b' w']|] eqn:Hm
  end.
  - apply monitored_match in Hm.
    destruct b'; intros [= <- <-]; exact Hm.
  - intros [= <- <-]. split; reflexivity.
Qed.

(** The second part of the [onChanged] listener takes a task it completes
    out of the monitored set, and never adds to that set. *)
Lemma onChangedState_unmonitors delta w :
  monitoredTabs (onChangedState delta w) ⊆ monitoredTabs w
  /\ progressPolling (onChangedState delta w) = progressPolling w
  /\ forall t st', task (onChangedState delta w) t = Some st' ->
       status st' = Some Complete ->
       (exists st, task w t = Some st /\ status st = Some Complete)
       \/ t ∉ monitoredTabs (onChangedState delta w).
Proof.
  assert (Hsame : forall w0,
            monitoredTabs w0 ⊆ monitoredTabs w0
            /\ progressPolling w0 = progressPolling w0
            /\ forall t st', task w0 t = Some st' ->
                 status st' = Some Complete ->
                 (exists st, task w0 t = Some st /\ status st = Some Complete)
                 \/ t ∉ monitoredTabs w0).
  { intros w0. split; [reflexivity|]. split; [reflexivity|].
    intros t st' Ht Hs. left. exists st'. split; assumption. }
  unfold onChangedState.
  destruct (deltaState delta) as [cur|]; [|apply Hsame].
  destruct (findBound (deltaId delta) (downloadState w)) as [tabId|] eqn:Hf.
  - destruct cur; try apply Hsame.
    + cbn [monitoredTabs progressPolling saveStateToStorage emit
           setUnmatched setMonitoredTabs].
      rewrite monitored_updateTabState, polling_updateTabState.
      split; [apply subseteq_difference_l; reflexivity|]. split; [reflexivity|].
      intros t st' Ht Hs. left.
      eapply nnc_updateTabState; [|exact Ht|exact Hs]. discriminate.
    + cbn [monitoredTabs progressPolling saveStateToStorage emit
           setUnmatched setMonitoredTabs].
      rewrite monitored_updateTabState, polling_updateTabState.
      split; [apply subseteq_difference_l; reflexivity|]. split; [reflexivity|].
      intros t st' Ht Hs.
      change (task (updateTabState tabId Complete [] w) t = Some st') in Ht.
      rewrite task_updateTabState in Ht.
      destruct (bool_decide_reflect (t = tabId)) as [->|Hne].
      * right. apply not_elem_of_difference. right.
        apply elem_of_singleton. reflexivity.
      * left. exists st'. split; assumption.
  - destruct cur; try apply Hsame.
    destruct (unmatchedDownloads w !! deltaId delta)
      as [[[[|c f]|] infoUrl]|]; try apply Hsame.
    destruct (matchDownloadToTab _ _ _ w) as [[b w']|] eqn:Hm;
      [|apply Hsame].
    pose proof (nnc_match _ _ _ _ _ _ Hm) as Hn.
    destruct (monitored_match _ _ _ _ _ _ Hm) as [Hmon Hpol].
    destruct b.
    + destruct (findBound (deltaId delta) (downloadState w'))
        as [tabId|] eqn:Hf2.
      * cbn [monitoredTabs progressPolling setUnmatched setMonitoredTabs].
        rewrite monitored_updateTabState, polling_updateTabState, Hmon, Hpol.
        split; [apply subseteq_difference_l; reflexivity|]. split; [reflexivity|].
        intros t st' Ht Hs.
        change (task (updateTabState tabId Complete [] w') t = Some st')
          in Ht.
        rewrite task_updateTabState in Ht.
        destruct (bool_decide_reflect (t = tabId)) as [->|Hne].
        -- right. apply not_elem_of_difference. right.
           apply elem_of_singleton. reflexivity.
        -- left. exact (Hn t st' Ht Hs).
      * cbn [monitoredTabs progressPolling setUnmatched]. rewrite Hmon, Hpol.
        split; [reflexivity|]. split; [reflexivity|].
        intros t st' Ht Hs. left. exact (Hn t st' Ht Hs).
    + cbn [monitoredTabs progressPolling setUnmatched]. rewrite Hmon, Hpol.
      split; [reflexivity|]. split; [reflexivity|].
      intros t st' Ht Hs. left. exact (Hn t st' Ht Hs).
Qed.
End MonitoringFacts.

(** X9. A task that becomes complete is no longer monitored: whatever the
    event, a task that is complete after it and was not before is not in
    the monitored set after it. *)
Theorem completed_task_leaves_monitoring `{Platform} (e : Event) (w : World)
    (t : Z) (st' : TabState) :
  (forall st, task w t = Some st -> status st <> Some Complete) ->
  task (handle e w) t = Some st' -> status st' = Some Complete ->
  t ∉ monitoredTabs (handle e w).
Proof.
  intros Hnot Ht Hs.
  assert (Hold : ~ exists st, task w t = Some st /\ status st = Some Complete).
  { intros (st & Hst & Hc). exact (Hnot st Hst Hc). }
  destruct e as [item|delta|tabId o| |tabId now o|tabId now o|m];
    cbn [handle] in *.
  - destruct Hold. exact (nnc_onCreated item w t st' Ht Hs).
  - unfold onChanged in *.
    destruct (onChangedFilename delta w) as [w1 ok] eqn:E1.
    destruct (onChangedFilename_frame _ _ _ _ E1) as [Hn _].
    destruct ok; [|destruct Hold; exact (Hn t st' Ht Hs)].
    destruct (onChangedState_unmonitors delta w1) as (_ & _ & Hun).
    destruct (Hun t st' Ht Hs) as [(st1 & Ht1 & Hs1)|Hout]; [|exact Hout].
    destruct Hold. exact (Hn t st1 Ht1 Hs1).
  - destruct Hold. exact (nnc_poll tabId o w t st' Ht Hs).
  - destruct Hold. unfold pollingTick in Ht. destruct (_ && _) in Ht;
      exists st'; split; assumption.
  - destruct Hold. exact (nnc_startOne _ tabId now o w t st' Ht Hs).
  - destruct Hold. exact (nnc_startOne _ tabId now o w t st' Ht Hs).
  - destruct Hold. exact (nnc_onMessage m w t st' Ht Hs).
Qed.

Lemma completed_task_leaves_monitoring_witness :
  1 ∈ monitoredTabs nearlyDone
  /\ 1 ∉ monitoredTabs
           (@handle AsciiPlatform
              (DownloadChanged
                 (mkDownloadDelta 5 None (Some PhaseComplete) None))
              nearlyDone).
Proof.
  split; [change (1 ∈ ({[1]} : gset Z)); apply elem_of_singleton;
          reflexivity|].
  eapply (@completed_task_leaves_monitoring AsciiPlatform
            (DownloadChanged (mkDownloadDelta 5 None (Some PhaseComplete) None))
            nearlyDone 1).
  - intros st Hst. vm_compute in Hst. injection Hst as <-. discriminate.
  - vm_compute. reflexivity.
  - reflexivity.
Defined.

Section PollingFacts.
Context `{Platform}.
Implicit Types (w : World) (t k : Z).

Lemma polled_sub w w' :
  monitoredTabs w' ⊆ monitoredTabs w ->
  progressPolling w' = progressPolling w ->
  polled w -> polled w'.
Proof.
  intros Hsub Hpol Hw Hne. rewrite Hpol. apply Hw.
  intros Hempty. apply Hne. rewrite Hempty in Hsub.
  apply equiv_empty_L. exact Hsub.
Qed.

Lemma polled_on w : progressPolling w = true -> polled w.
Proof. intros Hp _. exact Hp. Qed.

Lemma monitored_poll tabId o w :
  monitoredTabs (pollTabProgress tabId o w) ⊆ monitoredTabs w
  /\ progressPolling (pollTabProgress tabId o w) = progressPolling w.
Proof.
  unfold pollTabProgress.
  destruct o as [[|]|[[[| | |] p]|]]; try (split; reflexivity).
  1: split; [apply subseteq_difference_l|]; reflexivity.
  all: destruct (JSMap.get tabId (downloadState w)) as [cur|];
    try (split; reflexivity).
  2: destruct (_ && _).
  all: rewrite ?monitored_modifyState, ?polling_modifyState,
         ?monitored_updateTabState, ?polling_updateTabState,
         ?monitored_modifyState, ?polling_modifyState;
    split; reflexivity.
Qed.

Lemma polled_startOne det tabId now o w :
  polled w -> polled (startOne det tabId now o w).
Proof.
  unfold startOne. destruct o as [msg|tab msg|tab].
  - apply polled_sub.
    + rewrite monitored_updateTabState. reflexivity.
    + apply polling_updateTabState.
  - apply polled_sub.
    + rewrite monitored_updateTabState. reflexivity.
    + rewrite polling_updateTabState. reflexivity.
  - intros _. apply polled_on. apply monitored_addToMonitoring.
Qed.

Lemma polled_onMessage m w : polled w -> polled (onMessage m w).
Proof.
  destruct m as [|[tab|]|[tab|] p|[tab|] e|]; cbn [onMessage]; try tauto.
  - intros _. apply polled_on. apply monitored_addToMonitoring.
  - apply polled_sub.
    + rewrite monitored_updateTabState, monitored_modifyState. reflexivity.
    + rewrite polling_updateTabState, polling_modifyState. reflexivity.
  - apply polled_sub.
    + cbn [monitoredTabs setMonitoredTabs].
      rewrite monitored_updateTabState. apply subseteq_difference_l.
      reflexivity.
    + cbn [progressPolling setMonitoredTabs].
      apply polling_updateTabState.
Qed.

Lemma polled_handle e w : polled w -> polled (handle e w).
Proof.
  destruct e as [item|delta|tabId o| |tabId now o|tabId now o|m];
    cbn [handle].
  - destruct (monitored_onCreated item w) as [Hm Hp].
    apply polled_sub; [rewrite Hm; reflexivity|exact Hp].
  - unfold onChanged.
    destruct (onChangedFilename delta w) as [w1 ok] eqn:E1.
    destruct (monitored_onChangedFilename _ _ _ _ E1) as [Hm Hp].
    destruct ok.
    + destruct (onChangedState_unmonitors delta w1) as (Hsub & Hpol & _).
      apply polled_sub; [rewrite <- Hm; exact Hsub|].
      rewrite Hpol. exact Hp.
    + apply polled_sub; [rewrite Hm; reflexivity|exact Hp].
  - destruct (monitored_poll tabId o w) as [Hm Hp].
    apply polled_sub; assumption.
  - unfold pollingTick.
    destruct (progressPolling w && bool_decide (monitoredTabs w = ∅)) eqn:E;
      [|tauto].
    apply andb_true_iff in E. destruct E as [_ E].
    apply bool_decide_eq_true in E.
    intros _ Hne. destruct Hne. exact E.
  - apply polled_startOne.
  - apply polled_startOne.
  - apply polled_onMessage.
Qed.
End PollingFacts.

(** X10. While a tab is monitored the polling timer is set: this holds
    when the worker starts, and every event preserves it, so it holds
    after any sequence of events. *)
Theorem monitored_tabs_are_polled `{Platform} (events : list Event)
    (w : World) :
  polled w -> polled (run events w).
Proof.
  revert w. induction events as [|e events IH]; intros w Hw; [exact Hw|].
  change (run (e :: events) w) with (run events (handle e w)).
  apply IH. apply polled_handle. exact Hw.
Qed.

Lemma monitored_tabs_are_polled_witness :
  polled (@run AsciiPlatform boundOnce initialWorld).
Proof.
  apply (@monitored_tabs_are_polled AsciiPlatform boundOnce initialWorld).
  intros Hne. destruct Hne. reflexivity.
Defined.

Section PersistenceFacts.
Context `{Platform}.
Implicit Types (w : World) (t k : Z).

Lemma kt_refl w : keepsTerminal w w.
Proof. intros t st' Ht _. exists st'. split; [exact Ht|reflexivity]. Qed.

Lemma kt_trans w1 w2 w3 :
  keepsTerminal w1 w2 -> keepsTerminal w2 w3 -> keepsTerminal w1 w3.
Proof.
  intros H12 H23 t st' Ht Hs.
  destruct (H23 t st' Ht Hs) as (st2 & Ht2 & Hs2).
  assert (Hterm : terminal st2) by (unfold terminal in *; rewrite Hs2; exact Hs).
  destruct (H12 t st2 Ht2 Hterm) as (st1 & Ht1 & Hs1).
  exists st1. split; [exact Ht1|congruence].
Qed.

Lemma kt_same w w' :
  downloadState w' = downloadState w -> keepsTerminal w w'.
Proof.
  intros E t st' Ht _. exists st'. unfold task in *. rewrite <- E.
  split; [exact Ht|reflexivity].
Qed.

Lemma kt_bindTo dlId tab st w :
  task w tab = Some st -> keepsTerminal w (bindTo dlId tab st w).
Proof.
  intros Hst t st' Ht _. rewrite task_bindTo in Ht.
  destruct (bool_decide_reflect (t = tab)) as [->|Hne].
  - inversion Ht; subst. exists st. split; [exact Hst|reflexivity].
  - exists st'. split; [exact Ht|reflexivity].
Qed.

Lemma kt_match dlId filename dlUrl w b w' :
  matchDownloadToTab dlId filename dlUrl w = Normal (b, w') ->
  keepsTerminal w w'.
Proof.
  intros Hm. apply matchDownloadToTab_result in Hm.
  destruct Hm as [(_ & ->)|(_ & tab & st & Hst & ->)].
  - apply kt_refl.
  - apply kt_bindTo. exact Hst.
Qed.

Lemma kt_updateTabState k det w :
  keepsTerminal w (updateTabState k InProgress det w).
Proof.
  intros t st' Ht Hs. rewrite task_updateTabState in Ht.
  destruct (bool_decide_reflect (t = k)) as [->|Hnk].
  - inversion Ht; subst. destruct Hs as [Hs|Hs]; discriminate.
  - exists st'. split; [exact Ht|reflexivity].
Qed.

Lemma kt_modifyState k f w :
  (forall s, status (f s) = status s) -> keepsTerminal w (modifyState k f w).
Proof.
  intros Hf t st' Ht _. rewrite task_modifyState in Ht.
  destruct (bool_decide_reflect (t = k)) as [->|Hnk].
  - destruct (task w k) as [s|] eqn:E; [|discriminate].
    inversion Ht; subst. exists s. split; [reflexivity|].
    symmetry. apply Hf.
  - exists st'. split; [exact Ht|reflexivity].
Qed.

Lemma kt_set k st w w' :
  ~ terminal st ->
  downloadState w' = JSMap.set k st (downloadState w) ->
  keepsTerminal w w'.
Proof.
  intros Hne E t st' Ht Hs. unfold task in Ht. rewrite E in Ht.
  destruct (Z.eq_dec k t) as [->|Hnk].
  - rewrite get_set_eq in Ht. inversion Ht; subst. contradiction.
  - rewrite get_set_ne in Ht by exact Hnk.
    exists st'. split; [exact Ht|reflexivity].
Qed.

Lemma savedLast_updateTabState k st det w :
  st <> InProgress -> savedLast (updateTabState k st det w).
Proof.
  intros Hne. destruct st; [congruence| |];
    (eexists; cbn [updateTabState sent saveStateToStorage emit
                   broadcastStatusUpdate setDownloadState downloadState];
     reflexivity).
Qed.

Lemma savedLast_frame w w' :
  savedLast w -> sent w' = sent w -> downloadState w' = downloadState w ->
  savedLast w'.
Proof. intros (pre & E) Hs Hd. exists pre. rewrite Hs, Hd. exact E. Qed.

Lemma kt_poll tabId o w : keepsTerminal w (pollTabProgress tabId o w).
Proof.
  unfold pollTabProgress.
  destruct o as [[|]|[[[| | |] p]|]]; try apply kt_refl.
  1: apply kt_same; reflexivity.
  all: destruct (JSMap.get tabId (downloadState w)) as [cur|];
    try apply kt_refl.
  - eapply kt_trans; [|apply kt_modifyState; reflexivity].
    eapply kt_trans; [|apply kt_updateTabState].
    apply kt_modifyState. reflexivity.
  - destruct (_ && _).
    + eapply kt_trans; [|apply kt_updateTabState].
      apply kt_modifyState. reflexivity.
    + apply kt_modifyState. reflexivity.
  - apply kt_modifyState. reflexivity.
  - apply kt_modifyState. reflexivity.
Qed.

Lemma kt_onCreated item w : keepsTerminal w (onCreated item w).
Proof.
  unfold onCreated.
  destruct (itemFilename item) as [[|c f]|]; try (apply kt_same; reflexivity).
  destruct (matchDownloadToTab _ _ _ w) as [[b w']|] eqn:Hm;
    [|apply kt_refl].
  apply kt_match in Hm.
  destruct b; [exact Hm|].
  eapply kt_trans; [exact Hm|apply kt_same; reflexivity].
Qed.

Lemma kt_onChangedFilename delta w w1 ok :
  onChangedFilename delta w = (w1, ok) -> keepsTerminal w w1.
Proof.
  unfold onChangedFilename.
  destruct (deltaFilename delta) as [[|c f]|];
    try (intros [= <- <-]; apply kt_refl).
  destruct (unmatchedDownloads w !! deltaId delta) as [info|];
    try (intros [= <- <-]; apply kt_refl).
  destruct (negb (truthyStr (ufilename info)));
    try (intros [= <- <-]; apply kt_refl).
  match goal with
  | |- context [matchDownloadToTab ?a ?b ?c ?w0] =>
      destruct (matchDownloadToTab a b c w0) as [[b' w']|] eqn:Hm
  end.
  - apply kt_match in Hm.
    destruct b'; intros [= <- <-].
    + eapply kt_trans; [|apply kt_same; reflexivity].
      eapply kt_trans; [|exact Hm]. apply kt_same. reflexivity.
    + eapply kt_trans; [|exact Hm]. apply kt_same. reflexivity.
  - intros [= <- <-]. apply kt_same. reflexivity.
Qed.

Lemma persists_onChangedState delta w :
  keepsTerminal w (onChangedState delta w)
  \/ savedLast (onChangedState delta w).
Proof.
  unfold onChangedState.
  destruct (deltaState delta) as [cur|]; [|left; apply kt_refl].
  destruct (findBound (deltaId delta) (downloadState w)) as [tabId|] eqn:Hf.
  - destruct cur; try (left; apply kt_refl).
    + right. eexists. reflexivity.
    + right. eexists. reflexivity.
  - destruct cur; try (left; apply kt_refl).
    destruct (unmatchedDownloads w !! deltaId delta)
      as [[[[|c f]|] infoUrl]|]; try (left; apply kt_refl).
    destruct (matchDownloadToTab _ _ _ w) as [[b w']|] eqn:Hm;
      [|left; apply kt_refl].
    apply kt_match in Hm.
    destruct b.
    + destruct (findBound (deltaId delta) (downloadState w'))
        as [tabId|] eqn:Hf2.
      * right.
        eapply savedLast_frame;
          [apply (savedLast_updateTabState tabId Complete [] w');
           discriminate| |]; reflexivity.
      * left. eapply kt_trans; [exact Hm|apply kt_same; reflexivity].
    + left. eapply kt_trans; [exact Hm|apply kt_same; reflexivity].
Qed.

Lemma persists_startOne det tabId now o w :
  keepsTerminal w (startOne det tabId now o w)
  \/ savedLast (startOne det tabId now o w).
Proof.
  unfold startOne. destruct o as [msg|tab msg|tab].
  - right. apply savedLast_updateTabState. discriminate.
  - right. apply savedLast_updateTabState. discriminate.
  - left. eapply kt_trans;
      [|apply kt_same; apply downloadState_addToMonitoring].
    eapply kt_set; [|reflexivity].
    intros [Hs|Hs]; discriminate.
Qed.

Lemma persists_onMessage m w :
  keepsTerminal w (onMessage m w) \/ savedLast (onMessage m w).
Proof.
  destruct m as [|[tab|]|[tab|] p|[tab|] e|]; cbn [onMessage];
    try (left; apply kt_refl).
  - left. eapply kt_trans;
      [|apply kt_same; apply downloadState_addToMonitoring].
    eapply kt_trans; [|apply kt_updateTabState].
    intros t st' Ht Hs. unfold task in Ht. simpl in Ht.
    destruct (Z.eq_dec tab t) as [->|Hne].
    + rewrite get_set_eq in Ht. inversion Ht; subst. simpl in Hs.
      unfold task. destruct (JSMap.get t (downloadState w)) as [s|].
      * exists s. split; reflexivity.
      * destruct Hs as [Hs|Hs]; discriminate.
    + rewrite get_set_ne in Ht by exact Hne.
      exists st'. split; [exact Ht|reflexivity].
  - left. eapply kt_trans; [|apply kt_updateTabState].
    apply kt_modifyState. reflexivity.
  - right.
    eapply savedLast_frame;
      [apply (savedLast_updateTabState tab Error e w); discriminate| |];
      reflexivity.
  - right. eexists. reflexivity.
Qed.
End PersistenceFacts.

(** X11. A final status never stays in memory only: after any event,
    either every task that is complete or in error had that status before
    the event, or the last thing the worker sent is the write of the whole
    registry, as it is after the event, to storage. *)
Theorem final_status_is_persisted `{Platform} (e : Event) (w : World) :
  keepsTerminal w (handle e w) \/ savedLast (handle e w).
Proof.
  destruct e as [item|delta|tabId o| |tabId now o|tabId now o|m];
    cbn [handle].
  - left. apply kt_onCreated.
  - unfold onChanged.
    destruct (onChangedFilename delta w) as [w1 ok] eqn:E1.
    pose proof (kt_onChangedFilename _ _ _ _ E1) as H1.
    destruct ok; [|left; exact H1].
    destruct (persists_onChangedState delta w1) as [H2|H2];
      [left; exact (kt_trans _ _ _ H1 H2)|right; exact H2].
  - left. apply kt_poll.
  - left. apply kt_same. unfold pollingTick. destruct (_ && _); reflexivity.
  - apply persists_startOne.
  - apply persists_startOne.
  - apply persists_onMessage.
Qed.

Section ClearFacts.
Context {V : Type}.
Implicit Types (m : list (Z * V)) (k : Z).

Lemma keys_filter m (p : Z * V -> bool) k :
  In k (JSMap.keys (List.filter p m)) -> In k (JSMap.keys m).
Proof.
  unfold JSMap.keys. rewrite !in_map_iff.
  intros (e & E & Hi). apply filter_In in Hi. exists e. tauto.
Qed.

(** Looking up in a filtered map whose keys are distinct. *)
Lemma get_filter_NoDup m (p : Z * V -> bool) k :
  NoDup (JSMap.keys m) ->
  JSMap.get k (List.filter p m)
  = match JSMap.get k m with
    | Some v => if p (k, v) then Some v else None
    | None => None
    end.
Proof.
  induction m as [|[k' v'] m IH]; simpl; [reflexivity|].
  intros Hnd. apply NoDup_cons_iff in Hnd. destruct Hnd as [Hk Hnd].
  destruct (Z.eqb_spec k k') as [->|Hne].
  - destruct (p (k', v')) eqn:Ep; simpl.
    + rewrite Z.eqb_refl. reflexivity.
    + apply get_None_keys. intros Hi. apply Hk.
      exact (keys_filter _ _ _ Hi).
  - destruct (p (k', v')); simpl.
    + destruct (Z.eqb_spec k k'); [contradiction|]. exact (IH Hnd).
    + exact (IH Hnd).
Qed.
End ClearFacts.

(** X12. [CLEAR_COMPLETED] removes the complete tasks and nothing else:
    afterwards a task is in the registry exactly when it was there and
    not complete, with the state it had; the monitored set and the
    unmatched queue are as before; and the one thing sent is the write of
    the new registry to storage. *)
Theorem clear_completed_removes_complete_tasks (w : World) :
  NoDup (JSMap.keys (downloadState w)) ->
  (forall t,
     task (onMessage CLEAR_COMPLETED w) t
     = match task w t with
       | Some st =>
           if bool_decide (status st = Some Complete) then None else Some st
       | None => None
       end)
  /\ monitoredTabs (onMessage CLEAR_COMPLETED w) = monitoredTabs w
  /\ unmatchedDownloads (onMessage CLEAR_COMPLETED w) = unmatchedDownloads w
  /\ sent (onMessage CLEAR_COMPLETED w)
     = sent w ++ [StorageSet (downloadState (onMessage CLEAR_COMPLETED w))].
Proof.
  intros Hnd. split; [|repeat split].
  intros t. unfold task. cbn [onMessage downloadState saveStateToStorage emit
                              setDownloadState].
  rewrite get_filter_NoDup by exact Hnd.
  destruct (JSMap.get t (downloadState w)) as [st|]; [|reflexivity].
  cbn [snd]. destruct (bool_decide (status st = Some Complete)); reflexivity.
Qed.

Lemma clear_completed_removes_complete_tasks_witness :
  let w := @run AsciiPlatform completedOnce initialWorld in
  JSMap.keys (downloadState w) = [1; 2]
  /\ JSMap.keys (downloadState (onMessage CLEAR_COMPLETED w)) = [2]
  /\ task (onMessage CLEAR_COMPLETED w) 1 = None
  /\ task (onMessage CLEAR_COMPLETED w) 2 = task w 2.
Proof.
  intros w.
  assert (Hnd : NoDup (JSMap.keys (downloadState w))).
  { vm_compute. repeat constructor; simpl; intuition discriminate. }
  destruct (clear_completed_removes_complete_tasks w Hnd) as (Ht & _).
  split; [vm_compute; reflexivity|]. split; [vm_compute; reflexivity|].
  split; rewrite Ht; vm_compute; reflexivity.
Defined.

Section PollFrameFacts.
Implicit Types (w : World) (t k : Z).

Lemma sameJob_refl st : sameJob st st.
Proof. repeat split. Qed.

Lemma sameJob_trans st1 st2 st3 :
  sameJob st1 st2 -> sameJob st2 st3 -> sameJob st1 st3.
Proof.
  unfold sameJob. intros (A1 & A2 & A3 & A4 & A5) (B1 & B2 & B3 & B4 & B5).
  repeat split; congruence.
Qed.

Lemma to_refl tabId w : touchesOnly tabId w w.
Proof.
  split; [|split; [reflexivity|]].
  - intros t. destruct (task w t) as [st|]; [|exact I].
    split; [apply sameJob_refl|]. split; [reflexivity|left; reflexivity].
  - exists []. split; [symmetry; apply app_nil_r|intros x []].
Qed.

Lemma to_trans tabId w1 w2 w3 :
  touchesOnly tabId w1 w2 -> touchesOnly tabId w2 w3 ->
  touchesOnly tabId w1 w3.
Proof.
  intros (T12 & U12 & out1 & S12 & O12) (T23 & U23 & out2 & S23 & O23).
  split; [|split; [congruence|]].
  - intros t. specialize (T12 t). specialize (T23 t).
    destruct (task w1 t) as [st1|], (task w2 t) as [st2|],
             (task w3 t) as [st3|]; try tauto.
    destruct T12 as (J12 & E12 & St12), T23 as (J23 & E23 & St23).
    split; [exact (sameJob_trans _ _ _ J12 J23)|]. split.
    + intros Hne. rewrite (E23 Hne). exact (E12 Hne).
    + destruct St23 as [St23|St23]; [|right; exact St23].
      rewrite St23. exact St12.
  - exists (out1 ++ out2). split; [rewrite S23, S12, app_assoc; reflexivity|].
    intros x Hx. apply in_app_or in Hx. destruct Hx; auto.
Qed.

Lemma to_modifyState tabId f w :
  (forall s, sameJob s (f s) /\ status (f s) = status s) ->
  touchesOnly tabId w (modifyState tabId f w).
Proof.
  intros Hf. split; [|split; [apply unmatched_modifyState|]].
  - intros t. rewrite task_modifyState.
    destruct (bool_decide_reflect (t = tabId)) as [->|Hne].
    + destruct (task w tabId) as [st|]; simpl; [|exact I].
      destruct (Hf st) as [Hj Hs].
      split; [exact Hj|]. split; [congruence|left; exact Hs].
    + destruct (task w t) as [st|]; [|exact I].
      split; [apply sameJob_refl|]. split; [reflexivity|left; reflexivity].
  - exists []. split; [|intros x []]. rewrite app_nil_r.
    unfold modifyState. destruct (JSMap.get tabId _); reflexivity.
Qed.

Lemma to_updateTabState tabId det w :
  task w tabId <> None ->
  touchesOnly tabId w (updateTabState tabId InProgress det w).
Proof.
  intros Hsome. split; [|split; [reflexivity|]].
  - intros t. rewrite task_updateTabState.
    destruct (bool_decide_reflect (t = tabId)) as [->|Hne].
    + destruct (task w tabId) as [st|]; [|congruence].
      split; [repeat split|]. split; [congruence|right; reflexivity].
    + destruct (task w t) as [st|]; [|exact I].
      split; [apply sameJob_refl|]. split; [reflexivity|left; reflexivity].
  - exists [StatusUpdate tabId InProgress det]. split; [reflexivity|].
    intros x [<-|[]]. eexists. reflexivity.
Qed.

Lemma task_modifyState_some tabId f w :
  task w tabId <> None -> task (modifyState tabId f w) tabId <> None.
Proof.
  intros Hsome. rewrite task_modifyState, bool_decide_eq_true_2 by reflexivity.
  destruct (task w tabId); [discriminate|congruence].
Qed.
End PollFrameFacts.

(** X13. A poll only reports progress: whatever the page answered,
    [pollTabProgress] adds no task and removes none, leaves every task
    but the polled one as it was, keeps the download id, address, title,
    gallery id and start time of the polled one, changes its status to
    [in-progress] if at all, leaves the unmatched queue alone, and sends
    nothing but status updates [in-progress] for the polled tab: it never
    writes to storage. *)
Theorem poll_only_reports_progress (tabId : Z) (o : ScriptOutcome)
    (w : World) :
  touchesOnly tabId w (pollTabProgress tabId o w).
Proof.
  unfold pollTabProgress.
  destruct o as [[|]|[[[| | |] p]|]]; try apply to_refl.
  - destruct (to_refl tabId w) as (T & U & S).
    split; [exact T|]. split; [reflexivity|exact S].
  - destruct (JSMap.get tabId (downloadState w)) as [cur|] eqn:Hg;
      [|apply to_refl].
    assert (Hsome : task w tabId <> None) by (unfold task; congruence).
    eapply to_trans; [|apply to_modifyState; intros s; repeat split].
    eapply to_trans;
      [|apply to_updateTabState; apply task_modifyState_some; exact Hsome].
    apply to_modifyState. intros s. repeat split.
  - destruct (JSMap.get tabId (downloadState w)) as [cur|] eqn:Hg;
      [|apply to_refl].
    assert (Hsome : task w tabId <> None) by (unfold task; congruence).
    destruct (_ && _).
    + eapply to_trans;
        [|apply to_updateTabState; apply task_modifyState_some; exact Hsome].
      apply to_modifyState. intros s. repeat split.
    + apply to_modifyState. intros s. repeat split.
  - destruct (JSMap.get tabId (downloadState w)) as [cur|]; [|apply to_refl].
    apply to_modifyState. intros s. repeat split.
  - destruct (JSMap.get tabId (downloadState w)) as [cur|]; [|apply to_refl].
    apply to_modifyState. intros s. repeat split.
Qed.

Section RetryFacts.
Context `{Platform}.
Implicit Types (w : World) (t k d : Z).

(** The converse of [findBound_Some] on a map with distinct keys. *)
Lemma findBound_unbound d w :
  NoDup (JSMap.keys (downloadState w)) ->
  (forall k, bound w k <> Some d) ->
  findBound d (downloadState w) = None.
Proof.
  intros Hnd Hno.
  destruct (findBound d (downloadState w)) as [k|] eqn:Hf; [|reflexivity].
  apply findBound_Some in Hf. destruct Hf as (st & Hi & Hd).
  apply (In_get _ _ _ Hnd) in Hi.
  destruct (Hno k). unfold bound, task. rewrite Hi. exact Hd.
Qed.

(** Once the entry of the tab is written, [startOne] has unbound it and
    has touched no other binding. *)
Lemma startOne_unbinds det t now o w :
  (forall message, o <> TabLookupFailed message) ->
  NoDup (JSMap.keys (downloadState w)) ->
  NoDup (JSMap.keys (downloadState (startOne det t now o w)))
  /\ unmatchedDownloads (startOne det t now o w) = unmatchedDownloads w
  /\ forall k, bound (startOne det t now o w) k
               = if bool_decide (k = t) then None else bound w k.
Proof.
  intros Ho Hnd. unfold startOne.
  destruct o as [msg|tab msg|tab]; [destruct (Ho msg); reflexivity| |].
  - split; [apply NoDup_updateTabState; cbn [downloadState
              saveStateToStorage broadcastStatusUpdate emit setDownloadState];
            apply NoDup_keys_set; exact Hnd|].
    split; [rewrite unmatched_updateTabState; reflexivity|].
    intros k. rewrite bound_updateTabState. unfold bound, task.
    cbn [downloadState saveStateToStorage broadcastStatusUpdate emit
         setDownloadState].
    destruct (bool_decide_reflect (k = t)) as [->|Hne].
    + rewrite get_set_eq. reflexivity.
    + rewrite get_set_ne by congruence. reflexivity.
  - rewrite unmatched_addToMonitoring. unfold bound, task.
    rewrite downloadState_addToMonitoring.
    cbn [downloadState unmatchedDownloads saveStateToStorage
         broadcastStatusUpdate emit setDownloadState].
    split; [apply NoDup_keys_set; exact Hnd|]. split; [reflexivity|].
    intros k. destruct (bool_decide_reflect (k = t)) as [->|Hne].
    + rewrite get_set_eq. reflexivity.
    + rewrite get_set_ne by congruence. reflexivity.
Qed.

(** A delta for a download that is neither bound nor queued changes
    nothing. *)
Lemma onChanged_unknown delta w :
  NoDup (JSMap.keys (downloadState w)) ->
  (forall k, bound w k <> Some (deltaId delta)) ->
  unmatchedDownloads w !! deltaId delta = None ->
  onChanged delta w = w.
Proof.
  intros Hnd Hno Hq. unfold onChanged, onChangedFilename. rewrite Hq.
  assert (E : onChangedState delta w = w).
  { unfold onChangedState.
    rewrite (findBound_unbound _ _ Hnd Hno), Hq.
    destruct (deltaState delta) as [[| | |]|]; reflexivity. }
  destruct (deltaFilename delta) as [[|c f]|]; exact E.
Qed.
End RetryFacts.

(** X14. Starting a tab again lets go of its earlier download: when the
    tab [t] is bound to the download [d] (which no other task is bound to
    and which is not in the unmatched queue, as is the case in every
    reachable world) and [t] is started or retried, then, unless the tab
    could not be found, [t] is not bound any more, and a later change of
    [d], its completion included, leaves the worker as it is. *)
Theorem restart_forgets_earlier_download `{Platform} (w : World)
    (t d now : Z) (o : StartOutcome) (e : Event) (delta : DownloadDelta) :
  NoDup (JSMap.keys (downloadState w)) ->
  bound w t = Some d ->
  (forall t2, bound w t2 = Some d -> t2 = t) ->
  unmatchedDownloads w !! d = None ->
  e = StartDownload t now o \/ e = RetryDownload t now o ->
  (forall message, o <> TabLookupFailed message) ->
  deltaId delta = d ->
  bound (handle e w) t = None
  /\ handle (DownloadChanged delta) (handle e w) = handle e w.
Proof.
  intros Hnd Hb Huniq Hq He Ho <-.
  assert (Hw1 : exists det, handle e w = startOne det t now o w).
  { destruct He as [-> | ->]; eexists; reflexivity. }
  destruct Hw1 as (det & ->).
  destruct (startOne_unbinds det t now o w Ho Hnd) as (Hnd1 & Hq1 & Hb1).
  split.
  - rewrite Hb1, bool_decide_eq_true_2; reflexivity.
  - cbn [handle]. apply onChanged_unknown.
    + exact Hnd1.
    + intros k. rewrite Hb1.
      destruct (bool_decide_reflect (k = t)) as [->|Hne]; [discriminate|].
      intros Hk. apply Hne. exact (Huniq k Hk).
    + rewrite Hq1. exact Hq.
Qed.

Lemma restart_forgets_earlier_download_witness :
  let w := @run AsciiPlatform boundOnce initialWorld in
  let w1 := @handle AsciiPlatform (RetryDownload 1 300 (Injected galleryTab)) w in
  bound w 1 = Some 5
  /\ bound w1 1 = None
  /\ @handle AsciiPlatform
       (DownloadChanged (mkDownloadDelta 5 None (Some PhaseComplete) None)) w1
     = w1.
Proof.
  intros w w1.
  assert (Hb : bound w 1 = Some 5) by (vm_compute; reflexivity).
  split; [exact Hb|].
  apply (@restart_forgets_earlier_download AsciiPlatform w 1 5 300
           (Injected galleryTab) (RetryDownload 1 300 (Injected galleryTab))
           (mkDownloadDelta 5 None (Some PhaseComplete) None)).
  - vm_compute. repeat constructor; simpl; intuition discriminate.
  - exact Hb.
  - intros t2 Ht2.
    destruct (reachable_invariant _ _ boundOnce_reachable)
      as (_ & _ & _ & Hinj).
    exact (Hinj t2 1 5 Ht2 Hb).
  - vm_compute. reflexivity.
  - right. reflexivity.
  - intros message. discriminate.
  - reflexivity.
Defined.

(** X15. The download ids the worker holds come from the download
    subsystem, and a download is never both bound and queued: in every
    reachable world (each listener taken as one step) a download id a
    task is bound to is not [0], was reported by [onCreated] and is not
    in the unmatched queue; and an id in the unmatched queue is not [0]
    and was reported by [onCreated]. *)
Theorem held_download_ids_were_created `{Platform} (history : list Event)
    (w : World) :
  reachable history w ->
  (forall t d, bound w t = Some d ->
     d <> 0 /\ In d (createdIds history)
     /\ unmatchedDownloads w !! d = None)
  /\ (forall d, unmatchedDownloads w !! d <> None ->
        d <> 0 /\ In d (createdIds history)).
Proof.
  intros Hr.
  destruct (reachable_invariant _ _ Hr) as (_ & Hbound & Hqueue & _).
  split; assumption.
Qed.

Lemma held_download_ids_were_created_witness :
  In 5 (createdIds boundOnce)
  /\ unmatchedDownloads (@run AsciiPlatform boundOnce initialWorld) !! 5 = None.
Proof.
  destruct (@held_download_ids_were_created AsciiPlatform boundOnce _
              boundOnce_reachable) as [Hbound _].
  destruct (Hbound 1 5) as (_ & Hin & Hq); [vm_compute; reflexivity|].
  split; assumption.
Defined.

Section TerminalFacts.
Context `{Platform}.
Implicit Types (w : World) (t k d : Z).


End TerminalFacts.



Section AnnounceFacts.
Context `{Platform}.
Implicit Types (w : World) (t k : Z).

Lemma an_frame w w' out :
  downloadState w' = downloadState w -> sent w' = sent w ++ out ->
  announces w w'.
Proof.
  intros Ed Es. exists out. split; [exact Es|].
  intros t st' Ht. left. exists st'. unfold task in *. rewrite <- Ed.
  repeat split. exact Ht.
Qed.

Lemma an_refl w : announces w w.
Proof. apply (an_frame w w []); [reflexivity|symmetry; apply app_nil_r]. Qed.

Lemma an_trans w1 w2 w3 :
  announces w1 w2 -> announces w2 w3 -> announces w1 w3.
Proof.
  intros (out1 & S12 & T12) (out2 & S23 & T23).
  exists (out1 ++ out2). split; [rewrite S23, S12, app_assoc; reflexivity|].
  intros t st3 Ht3.
  destruct (T23 t st3 Ht3) as [(st2 & Ht2 & Es & Ed)|(s & det & Hs & Hd & Hi)].
  - destruct (T12 t st2 Ht2)
      as [(st1 & Ht1 & Es1 & Ed1)|(s & det & Hs & Hd & Hi)].
    + left. exists st1. repeat split; congruence.
    + right. exists s, det. rewrite <- Es, <- Ed.
      repeat split; try assumption. apply in_or_app. left. exact Hi.
  - right. exists s, det. repeat split; try assumption.
    apply in_or_app. right. exact Hi.
Qed.

Lemma sent_modifyState k f w : sent (modifyState k f w) = sent w.
Proof. unfold modifyState. destruct (JSMap.get k _); reflexivity. Qed.

Lemma sent_addToMonitoring k w : sent (addToMonitoring k w) = sent w.
Proof.
  unfold addToMonitoring, startProgressPolling.
  destruct (progressPolling _); reflexivity.
Qed.

Lemma an_modifyState k f w :
  (forall s, status (f s) = status s /\ details (f s) = details s) ->
  announces w (modifyState k f w).
Proof.
  intros Hf. exists []. rewrite sent_modifyState, app_nil_r.
  split; [reflexivity|].
  intros t st' Ht. left. rewrite task_modifyState in Ht.
  destruct (bool_decide_reflect (t = k)) as [->|Hne].
  - destruct (task w k) as [s|]; [|discriminate].
    inversion Ht; subst. exists s. destruct (Hf s) as [E1 E2].
    repeat split; congruence.
  - exists st'. repeat split. exact Ht.
Qed.

Lemma an_updateTabState k st det w :
  announces w (updateTabState k st det w).
Proof.
  assert (Hs : exists out,
            sent (updateTabState k st det w) = sent w ++ out
            /\ In (StatusUpdate k st det) out).
  { destruct st.
    - exists [StatusUpdate k InProgress det]. split; [reflexivity|].
      left. reflexivity.
    - eexists [StatusUpdate k Complete det; _]. split.
      + cbn [updateTabState sent saveStateToStorage emit
             broadcastStatusUpdate setDownloadState].
        rewrite <- app_assoc. reflexivity.
      + left. reflexivity.
    - eexists [StatusUpdate k Error det; _]. split.
      + cbn [updateTabState sent saveStateToStorage emit
             broadcastStatusUpdate setDownloadState].
        rewrite <- app_assoc. reflexivity.
      + left. reflexivity. }
  destruct Hs as (out & Es & Hi). exists out. split; [exact Es|].
  intros t st' Ht. rewrite task_updateTabState in Ht.
  destruct (bool_decide_reflect (t = k)) as [->|Hne].
  - right. inversion Ht; subst. exists st, det. repeat split. exact Hi.
  - left. exists st'. repeat split. exact Ht.
Qed.

Lemma an_bindTo dlId tab st w :
  task w tab = Some st -> announces w (bindTo dlId tab st w).
Proof.
  intros Hst. eexists. split; [reflexivity|].
  intros t st' Ht. left. rewrite task_bindTo in Ht.
  destruct (bool_decide_reflect (t = tab)) as [->|Hne].
  - inversion Ht; subst. exists st. repeat split. exact Hst.
  - exists st'. repeat split. exact Ht.
Qed.

Lemma an_match dlId filename dlUrl w b w' :
  matchDownloadToTab dlId filename dlUrl w = Normal (b, w') ->
  announces w w'.
Proof.
  intros Hm. apply matchDownloadToTab_result in Hm.
  destruct Hm as [(_ & ->)|(_ & tab & st & Hst & ->)].
  - apply an_refl.
  - apply an_bindTo. exact Hst.
Qed.

Lemma an_same w w' :
  downloadState w' = downloadState w -> sent w' = sent w -> announces w w'.
Proof.
  intros Ed Es. apply (an_frame w w' []); [exact Ed|].
  rewrite app_nil_r. exact Es.
Qed.

Lemma an_onCreated item w : announces w (onCreated item w).
Proof.
  unfold onCreated.
  destruct (itemFilename item) as [[|c f]|];
    try (apply an_same; reflexivity).
  destruct (matchDownloadToTab _ _ _ w) as [[b w']|] eqn:Hm;
    [|apply an_refl].
  apply an_match in Hm.
  destruct b; [exact Hm|].
  eapply an_trans; [exact Hm|apply an_same; reflexivity].
Qed.

Lemma an_onChangedFilename delta w w1 ok :
  onChangedFilename delta w = (w1, ok) -> announces w w1.
Proof.
  unfold onChangedFilename.
  destruct (deltaFilename delta) as [[|c f]|];
    try (intros [= <- <-]; apply an_refl).
  destruct (unmatchedDownloads w !! deltaId delta) as [info|];
    try (intros [= <- <-]; apply an_refl).
  destruct (negb (truthyStr (ufilename info)));
    try (intros [= <- <-]; apply an_refl).
  match goal with
  | |- context [matchDownloadToTab ?a ?b ?c ?w0] =>
      destruct (matchDownloadToTab a b c w0) as [[b' w']|] eqn:Hm
  end.
  - apply an_match in Hm.
    destruct b'; intros [= <- <-].
    + eapply an_trans; [|apply an_same; reflexivity].
      eapply an_trans; [|exact Hm]. apply an_same; reflexivity.
    + eapply an_trans; [|exact Hm]. apply an_same; reflexivity.
  - intros [= <- <-]. apply an_same; reflexivity.
Qed.

Lemma an_onChangedState delta w : announces w (onChangedState delta w).
Proof.
  unfold onChangedState.
  destruct (deltaState delta) as [cur|]; [|apply an_refl].
  destruct (findBound (deltaId delta) (downloadState w)) as [tabId|] eqn:Hf.
  - destruct cur; try apply an_refl.
    + eapply an_trans; [apply an_updateTabState|].
      eapply an_frame; reflexivity.
    + eapply an_trans; [apply an_updateTabState|].
      eapply an_frame; reflexivity.
  - destruct cur; try apply an_refl.
    destruct (unmatchedDownloads w !! deltaId delta)
      as [[[[|c f]|] infoUrl]|]; try apply an_refl.
    destruct (matchDownloadToTab _ _ _ w) as [[b w']|] eqn:Hm;
      [|apply an_refl].
    apply an_match in Hm.
    eapply an_trans; [exact Hm|].
    destruct b; [|apply an_same; reflexivity].
    destruct (findBound (deltaId delta) (downloadState w')) as [tabId|];
      [|apply an_same; reflexivity].
    eapply an_trans; [apply an_updateTabState|].
    apply an_same; reflexivity.
Qed.

Lemma an_poll tabId o w : announces w (pollTabProgress tabId o w).
Proof.
  unfold pollTabProgress.
  destruct o as [[|]|[[[| | |] p]|]]; try apply an_refl.
  1: apply an_same; reflexivity.
  all: destruct (JSMap.get tabId (downloadState w)) as [cur|];
    try apply an_refl.
  - eapply an_trans; [|apply an_modifyState; intros s; split; reflexivity].
    eapply an_trans; [|apply an_updateTabState].
    apply an_modifyState. intros s. split; reflexivity.
  - destruct (_ && _).
    + eapply an_trans; [|apply an_updateTabState].
      apply an_modifyState. intros s. split; reflexivity.
    + apply an_modifyState. intros s. split; reflexivity.
  - apply an_modifyState. intros s. split; reflexivity.
  - apply an_modifyState. intros s. split; reflexivity.
Qed.

(** Writing an entry with a status and details, and sending them. *)
Lemma an_set k st s det w w' more :
  status st = Some s -> details st = Some det ->
  downloadState w' = JSMap.set k st (downloadState w) ->
  sent w' = sent w ++ StatusUpdate k s det :: more ->
  announces w w'.
Proof.
  intros Hs Hd Ed Es. eexists. split; [exact Es|].
  intros t st' Ht. unfold task in Ht. rewrite Ed in Ht.
  destruct (Z.eq_dec k t) as [->|Hne].
  - rewrite get_set_eq in Ht. inversion Ht; subst.
    right. exists s, det. repeat split; try assumption. left. reflexivity.
  - rewrite get_set_ne in Ht by exact Hne.
    left. exists st'. repeat split. exact Ht.
Qed.

Lemma an_startOne det tabId now o w :
  announces w (startOne det tabId now o w).
Proof.
  unfold startOne. destruct o as [msg|tab msg|tab].
  - apply an_updateTabState.
  - eapply an_trans; [|apply an_updateTabState].
    eapply (an_set tabId _ InProgress det); cycle 2;
      [reflexivity| |reflexivity|reflexivity].
    cbn [sent saveStateToStorage broadcastStatusUpdate emit setDownloadState].
    rewrite <- app_assoc. reflexivity.
  - eapply an_trans;
      [|apply an_same;
        [apply downloadState_addToMonitoring|apply sent_addToMonitoring]].
    eapply (an_set tabId _ InProgress det); cycle 2;
      [reflexivity| |reflexivity|reflexivity].
    cbn [sent saveStateToStorage broadcastStatusUpdate emit setDownloadState].
    rewrite <- app_assoc. reflexivity.
Qed.

Lemma an_onMessage m w :
  NoDup (JSMap.keys (downloadState w)) -> announces w (onMessage m w).
Proof.
  intros Hnd.
  destruct m as [|[tab|]|[tab|] p|[tab|] e|]; cbn [onMessage];
    try apply an_refl.
  - eapply an_trans;
      [|apply an_same;
        [apply downloadState_addToMonitoring|apply sent_addToMonitoring]].
    exists [StatusUpdate tab InProgress textClicked].
    split; [reflexivity|].
    intros t st' Ht. rewrite task_updateTabState in Ht.
    destruct (bool_decide_reflect (t = tab)) as [->|Hne].
    + right. inversion Ht; subst. exists InProgress, textClicked.
      repeat split. left. reflexivity.
    + left. exists st'. repeat split.
      unfold task in *. cbn [downloadState setDownloadState] in Ht.
      rewrite get_set_ne in Ht by congruence. exact Ht.
  - eapply an_trans; [|apply an_updateTabState].
    apply an_modifyState. intros s. split; reflexivity.
  - eapply an_trans; [apply an_updateTabState|].
    apply an_same; reflexivity.
  - eexists. split; [reflexivity|].
    intros t st' Ht. left. exists st'. repeat split.
    unfold task in *.
    cbn [downloadState saveStateToStorage emit setDownloadState] in Ht.
    rewrite get_filter_NoDup in Ht by exact Hnd.
    destruct (JSMap.get t (downloadState w)) as [st|]; [|discriminate].
    destruct (negb _); [exact Ht|discriminate].
Qed.
End AnnounceFacts.

(** X17. Every change of status is announced: after any event, each task
    of the registry either has the status and the details it had before
    the event, or a [STATUS_UPDATE] message for its tab, with the status
    and the details it has now, was sent during the event. *)
Theorem status_changes_are_announced `{Platform} (e : Event) (w : World) :
  NoDup (JSMap.keys (downloadState w)) ->
  announces w (handle e w).
Proof.
  intros Hnd.
  destruct e as [item|delta|tabId o| |tabId now o|tabId now o|m];
    cbn [handle].
  - apply an_onCreated.
  - unfold onChanged.
    destruct (onChangedFilename delta w) as [w1 ok] eqn:E1.
    pose proof (an_onChangedFilename _ _ _ _ E1) as H1.
    destruct ok; [|exact H1].
    exact (an_trans _ _ _ H1 (an_onChangedState delta w1)).
  - apply an_poll.
  - apply an_same; unfold pollingTick; destruct (_ && _); reflexivity.
  - apply an_startOne.
  - apply an_startOne.
  - apply an_onMessage. exact Hnd.
Qed.

Lemma status_changes_are_announced_witness :
  let w := @run AsciiPlatform boundOnce initialWorld in
  let e := DownloadChanged (mkDownloadDelta 5 None (Some PhaseComplete) None) in
  announces w (@handle AsciiPlatform e w).
Proof.
  intros w e.
  apply (@status_changes_are_announced AsciiPlatform e w).
  vm_compute. repeat constructor; simpl; intuition discriminate.
Defined.

Section RemovalFacts.
Context `{Platform}.
Implicit Types (w : World) (t k d : Z).

Lemma keeps_refl w : keepsTasks w w.
Proof. intros t Ht. exact Ht. Qed.

Lemma keeps_trans w1 w2 w3 :
  keepsTasks w1 w2 -> keepsTasks w2 w3 -> keepsTasks w1 w3.
Proof. intros H12 H23 t Ht. apply H23, H12, Ht. Qed.

Lemma keeps_same w w' :
  downloadState w' = downloadState w -> keepsTasks w w'.
Proof. intros E t Ht. unfold task in *. rewrite E. exact Ht. Qed.

Lemma keeps_set k st w w' :
  downloadState w' = JSMap.set k st (downloadState w) -> keepsTasks w w'.
Proof.
  intros E t Ht. unfold task in *. rewrite E.
  destruct (Z.eq_dec k t) as [->|Hne].
  - rewrite get_set_eq. discriminate.
  - rewrite get_set_ne by exact Hne. exact Ht.
Qed.

Lemma keeps_updateTabState k st det w :
  keepsTasks w (updateTabState k st det w).
Proof. eapply keeps_set. apply downloadState_updateTabState. Qed.

Lemma keeps_modifyState k f w : keepsTasks w (modifyState k f w).
Proof.
  pose proof (downloadState_modifyState k f w) as E.
  destruct (task w k); [eapply keeps_set|apply keeps_same]; exact E.
Qed.

Lemma keeps_match dlId filename dlUrl w b w' :
  matchDownloadToTab dlId filename dlUrl w = Normal (b, w') ->
  keepsTasks w w'.
Proof.
  intros Hm. apply matchDownloadToTab_result in Hm.
  destruct Hm as [(_ & ->)|(_ & tab & st & _ & ->)].
  - apply keeps_refl.
  - eapply keeps_set. reflexivity.
Qed.

Lemma keeps_onCreated item w : keepsTasks w (onCreated item w).
Proof.
  unfold onCreated.
  destruct (itemFilename item) as [[|c f]|];
    try (apply keeps_same; reflexivity).
  destruct (matchDownloadToTab _ _ _ w) as [[b w']|] eqn:Hm;
    [|apply keeps_refl].
  apply keeps_match in Hm.
  destruct b; [exact Hm|].
  eapply keeps_trans; [exact Hm|apply keeps_same; reflexivity].
Qed.

Lemma keeps_onChangedFilename delta w w1 ok :
  onChangedFilename delta w = (w1, ok) -> keepsTasks w w1.
Proof.
  unfold onChangedFilename.
  destruct (deltaFilename delta) as [[|c f]|];
    try (intros [= <- <-]; apply keeps_refl).
  destruct (unmatchedDownloads w !! deltaId delta) as [info|];
    try (intros [= <- <-]; apply keeps_refl).
  destruct (negb (truthyStr (ufilename info)));
    try (intros [= <- <-]; apply keeps_refl).
  match goal with
  | |- context [matchDownloadToTab ?a ?b ?c ?w0] =>
      destruct (matchDownloadToTab a b c w0) as [[b' w']|] eqn:Hm
  end.
  - apply keeps_match in Hm.
    destruct b'; intros [= <- <-].
    + eapply keeps_trans; [|apply keeps_same; reflexivity].
      eapply keeps_trans; [|exact Hm]. apply keeps_same; reflexivity.
    + eapply keeps_trans; [|exact Hm]. apply keeps_same; reflexivity.
  - intros [= <- <-]. apply keeps_same; reflexivity.
Qed.

Lemma keeps_onChangedState delta w : keepsTasks w (onChangedState delta w).
Proof.
  unfold onChangedState.
  destruct (deltaState delta) as [cur|]; [|apply keeps_refl].
  destruct (findBound (deltaId delta) (downloadState w)) as [tabId|] eqn:Hf.
  - destruct cur; try apply keeps_refl.
    + eapply keeps_trans; [apply keeps_updateTabState|].
      apply keeps_same; reflexivity.
    + eapply keeps_trans; [apply keeps_updateTabState|].
      apply keeps_same; reflexivity.
  - destruct cur; try apply keeps_refl.
    destruct (unmatchedDownloads w !! deltaId delta)
      as [[[[|c f]|] infoUrl]|]; try apply keeps_refl.
    destruct (matchDownloadToTab _ _ _ w) as [[b w']|] eqn:Hm;
      [|apply keeps_refl].
    apply keeps_match in Hm.
    eapply keeps_trans; [exact Hm|].
    destruct b; [|apply keeps_same; reflexivity].
    destruct (findBound (deltaId delta) (downloadState w')) as [tabId|];
      [|apply keeps_same; reflexivity].
    eapply keeps_trans; [apply keeps_updateTabState|].
    apply keeps_same; reflexivity.
Qed.

Lemma keeps_poll tabId o w : keepsTasks w (pollTabProgress tabId o w).
Proof.
  unfold pollTabProgress.
  destruct o as [[|]|[[[| | |] p]|]]; try apply keeps_refl.
  1: apply keeps_same; reflexivity.
  all: destruct (JSMap.get tabId (downloadState w)) as [cur|];
    try apply keeps_refl.
  - eapply keeps_trans; [|apply keeps_modifyState].
    eapply keeps_trans; [|apply keeps_updateTabState].
    apply keeps_modifyState.
  - destruct (_ && _).
    + eapply keeps_trans; [|apply keeps_updateTabState].
      apply keeps_modifyState.
    + apply keeps_modifyState.
  - apply keeps_modifyState.
  - apply keeps_modifyState.
Qed.

Lemma keeps_startOne det tabId now o w :
  keepsTasks w (startOne det tabId now o w).
Proof.
  unfold startOne. destruct o as [msg|tab msg|tab].
  - apply keeps_updateTabState.
  - eapply keeps_trans; [|apply keeps_updateTabState].
    eapply keeps_set. reflexivity.
  - eapply keeps_trans;
      [|apply keeps_same; apply downloadState_addToMonitoring].
    eapply keeps_set. reflexivity.
Qed.

Lemma keeps_onMessage m w :
  m <> CLEAR_COMPLETED -> keepsTasks w (onMessage m w).
Proof.
  intros Hm.
  destruct m as [|[tab|]|[tab|] p|[tab|] e|]; cbn [onMessage];
    try apply keeps_refl; try congruence.
  - eapply keeps_trans;
      [|apply keeps_same; apply downloadState_addToMonitoring].
    eapply keeps_trans; [|apply keeps_updateTabState].
    eapply keeps_set. reflexivity.
  - eapply keeps_trans; [|apply keeps_updateTabState].
    apply keeps_modifyState.
  - eapply keeps_trans; [apply keeps_updateTabState|].
    apply keeps_same; reflexivity.
Qed.
End RemovalFacts.

(** X18. A task leaves the registry only when it is cleared: if a task
    of the registry is not in it after an event, the event is the message
    [CLEAR_COMPLETED] and the task was complete.  Tasks in progress or in
    error are never removed. *)
Theorem task_removed_only_when_cleared `{Platform} (e : Event) (w : World)
    (t : Z) (st : TabState) :
  NoDup (JSMap.keys (downloadState w)) ->
  task w t = Some st -> task (handle e w) t = None ->
  e = Received CLEAR_COMPLETED /\ status st = Some Complete.
Proof.
  intros Hnd Ht Hgone.
  assert (Hkeeps : keepsTasks w (handle e w) -> False).
  { intros Hk. apply (Hk t); [congruence|exact Hgone]. }
  destruct e as [item|delta|tabId o| |tabId now o|tabId now o|m];
    cbn [handle] in *.
  - destruct Hkeeps. apply keeps_onCreated.
  - destruct Hkeeps. unfold onChanged.
    destruct (onChangedFilename delta w) as [w1 ok] eqn:E1.
    pose proof (keeps_onChangedFilename _ _ _ _ E1) as H1.
    destruct ok; [|exact H1].
    exact (keeps_trans _ _ _ H1 (keeps_onChangedState delta w1)).
  - destruct Hkeeps. apply keeps_poll.
  - destruct Hkeeps. apply keeps_same.
    unfold pollingTick. destruct (_ && _); reflexivity.
  - destruct Hkeeps. apply keeps_startOne.
  - destruct Hkeeps. apply keeps_startOne.
  - assert (Hcases : m = CLEAR_COMPLETED \/ m <> CLEAR_COMPLETED)
      by (destruct m; (left; reflexivity) || (right; discriminate)).
    destruct Hcases as [->|Hm].
    + split; [reflexivity|].
      unfold task in Hgone, Ht.
      cbn [onMessage downloadState saveStateToStorage emit setDownloadState]
        in Hgone.
      rewrite get_filter_NoDup, Ht in Hgone by exact Hnd. cbn [snd] in Hgone.
      destruct (bool_decide_reflect (status st = Some Complete)) as [Hs|Hs];
        [exact Hs|discriminate].
    + destruct Hkeeps. apply keeps_onMessage. exact Hm.
Qed.

Lemma task_removed_only_when_cleared_witness :
  let w := @run AsciiPlatform completedOnce initialWorld in
  option_map status (task w 1) = Some (Some Complete).
Proof.
  intros w.
  destruct (task w 1) as [st|] eqn:Ht; [|vm_compute in Ht; discriminate].
  destruct (@task_removed_only_when_cleared AsciiPlatform
              (Received CLEAR_COMPLETED) w 1 st) as [_ Hs].
  - vm_compute. repeat constructor; simpl; intuition discriminate.
  - exact Ht.
  - vm_compute. reflexivity.
  - simpl. rewrite Hs. reflexivity.
Defined.

Section QueueFacts.
Context `{Platform}.
Implicit Types (w : World) (t k d : Z).

Lemma unmatched_match dlId filename dlUrl w b w' :
  matchDownloadToTab dlId filename dlUrl w = Normal (b, w') ->
  unmatchedDownloads w' = unmatchedDownloads w.
Proof.
  intros Hm. apply matchDownloadToTab_result in Hm.
  destruct Hm as [(_ & ->)|(_ & tab & st & _ & ->)]; reflexivity.
Qed.

Lemma lookup_insert_keeps (u : gmap Z Unmatched) d x d' :
  u !! d' <> None -> <[d := x]> u !! d' <> None.
Proof.
  intros Hd. destruct (decide (d = d')) as [->|Hne].
  - rewrite lookup_insert_eq. discriminate.
  - rewrite lookup_insert_ne by exact Hne. exact Hd.
Qed.

Lemma queue_onCreated item w d :
  unmatchedDownloads w !! d <> None ->
  unmatchedDownloads (onCreated item w) !! d <> None.
Proof.
  intros Hd. unfold onCreated.
  destruct (itemFilename item) as [[|c f]|];
    try (apply lookup_insert_keeps; exact Hd).
  destruct (matchDownloadToTab _ _ _ w) as [[b w']|] eqn:Hm; [|exact Hd].
  apply unmatched_match in Hm.
  destruct b; cbn [unmatchedDownloads setUnmatched]; rewrite Hm;
    [exact Hd|apply lookup_insert_keeps; exact Hd].
Qed.

(** The first part of the [onChanged] listener and the queue: the entries
    of other downloads stay; that of the download of the delta stays
    unless the download was bound. *)
Lemma queue_onChangedFilename delta w w1 ok :
  onChangedFilename delta w = (w1, ok) ->
  (forall d, d <> deltaId delta ->
     unmatchedDownloads w1 !! d = unmatchedDownloads w !! d)
  /\ (unmatchedDownloads w !! deltaId delta <> None ->
      unmatchedDownloads w1 !! deltaId delta <> None
      \/ (ok = true
          /\ unmatchedDownloads w1 !! deltaId delta = None
          /\ exists t, bound w1 t = Some (deltaId delta))).
Proof.
  unfold onChangedFilename.
  destruct (deltaFilename delta) as [[|c f]|];
    try (intros [= <- <-]; split; [reflexivity|tauto]).
  destruct (unmatchedDownloads w !! deltaId delta) as [info|] eqn:Hu;
    try (intros [= <- <-]; split; [reflexivity|tauto]).
  destruct (negb (truthyStr (ufilename info)));
    try (intros [= <- <-]; split; [reflexivity|rewrite Hu; tauto]).
  match goal with
  | |- context [matchDownloadToTab ?a ?b ?c ?w0] =>
      set (w0' := w0);
      destruct (matchDownloadToTab a b c w0') as [[b' w']|] eqn:Hm
  end.
  - apply matchDownloadToTab_result in Hm.
    destruct Hm as [(-> & ->)|(-> & tab & st & _ & ->)]; intros [= <- <-];
      subst w0'.
    + split.
      * intros d Hne. cbn [unmatchedDownloads setUnmatched].
        apply lookup_insert_ne. congruence.
      * intros _. left. cbn [unmatchedDownloads setUnmatched].
        rewrite lookup_insert_eq. discriminate.
    + split.
      * intros d Hne. cbn [unmatchedDownloads setUnmatched bindTo
                           saveStateToStorage emit setDownloadState].
        rewrite lookup_delete_ne by congruence.
        apply lookup_insert_ne. congruence.
      * intros _. right. split; [reflexivity|].
        split; [apply lookup_delete_eq|].
        exists tab. unfold bound, task.
        cbn [downloadState setUnmatched bindTo saveStateToStorage emit
             setDownloadState].
        rewrite get_set_eq. reflexivity.
  - intros [= <- <-]. subst w0'. split.
    + intros d Hne. cbn [unmatchedDownloads setUnmatched].
      apply lookup_insert_ne. congruence.
    + intros _. left. cbn [unmatchedDownloads setUnmatched].
      rewrite lookup_insert_eq. discriminate.
Qed.

(** The second part of the listener and the queue. *)
Lemma queue_onChangedState delta w :
  NoDup (JSMap.keys (downloadState w)) ->
  (forall d, d <> deltaId delta ->
     unmatchedDownloads (onChangedState delta w) !! d
     = unmatchedDownloads w !! d)
  /\ (unmatchedDownloads w !! deltaId delta <> None ->
      unmatchedDownloads (onChangedState delta w) !! deltaId delta = None ->
      (exists t, bound (onChangedState delta w) t = Some (deltaId delta))
      \/ deltaState delta = Some PhaseComplete).
Proof.
  intros Hnd. unfold onChangedState.
  destruct (deltaState delta) as [cur|]; [|split; [reflexivity|congruence]].
  destruct (findBound (deltaId delta) (downloadState w)) as [tabId|] eqn:Hf.
  - apply findBound_Some in Hf. destruct Hf as (st & Hi & Hd).
    apply (In_get _ _ _ Hnd) in Hi.
    assert (Hb : forall det s,
              bound (updateTabState tabId s det w) tabId
              = Some (deltaId delta)).
    { intros det s. rewrite bound_updateTabState. unfold bound, task.
      rewrite Hi. exact Hd. }
    destruct cur; try (split; [reflexivity|congruence]).
    + split.
      * intros d Hne. cbn [unmatchedDownloads setUnmatched saveStateToStorage
                           emit setMonitoredTabs].
        rewrite lookup_delete_ne by congruence.
        rewrite unmatched_updateTabState. reflexivity.
      * intros _ _. left. exists tabId. etransitivity; [|apply Hb].
        apply bound_same. reflexivity.
    + split.
      * intros d Hne. cbn [unmatchedDownloads setUnmatched saveStateToStorage
                           emit setMonitoredTabs].
        rewrite lookup_delete_ne by congruence.
        rewrite unmatched_updateTabState. reflexivity.
      * intros _ _. left. exists tabId. etransitivity; [|apply Hb].
        apply bound_same. reflexivity.
  - destruct cur; try (split; [reflexivity|congruence]).
    split; [|intros _ _; right; reflexivity].
    intros d Hne.
    destruct (unmatchedDownloads w !! deltaId delta)
      as [[[[|c f]|] infoUrl]|]; try reflexivity.
    destruct (matchDownloadToTab _ _ _ w) as [[b w']|] eqn:Hm;
      [|reflexivity].
    apply unmatched_match in Hm.
    cbn [unmatchedDownloads setUnmatched].
    rewrite lookup_delete_ne by congruence.
    destruct b; [|rewrite Hm; reflexivity].
    destruct (findBound (deltaId delta) (downloadState w')) as [tabId|];
      [|rewrite Hm; reflexivity].
    cbn [unmatchedDownloads setMonitoredTabs].
    rewrite unmatched_updateTabState, Hm. reflexivity.
Qed.
End QueueFacts.

(** X19. A download leaves the unmatched queue only bound or complete:
    if a download of the queue is not in it after an event, the event is
    an [onChanged] delta of that download, and either a task is bound to
    the download after it or the delta reports the download complete.  A
    queued download that is interrupted, or whose name never comes, is
    never removed. *)
Theorem queued_download_leaves_bound_or_complete `{Platform} (e : Event)
    (w : World) (d : Z) :
  NoDup (JSMap.keys (downloadState w)) ->
  unmatchedDownloads w !! d <> None ->
  unmatchedDownloads (handle e w) !! d = None ->
  exists delta,
    e = DownloadChanged delta /\ deltaId delta = d
    /\ ((exists t, bound (handle e w) t = Some d)
        \/ deltaState delta = Some PhaseComplete).
Proof.
  intros Hnd Hin Hout.
  assert (Hsame : unmatchedDownloads (handle e w) = unmatchedDownloads w ->
                  False).
  { intros E. rewrite E in Hout. contradiction. }
  destruct e as [item|delta|tabId o| |tabId now o|tabId now o|m];
    cbn [handle] in *.
  - destruct (queue_onCreated item w d Hin Hout).
  - exists delta. split; [reflexivity|].
    unfold onChanged in *.
    destruct (onChangedFilename delta w) as [w1 ok] eqn:E1.
    destruct (queue_onChangedFilename _ _ _ _ E1) as [Hother1 Hthis1].
    destruct (onChangedFilename_frame _ _ _ _ E1) as [_ Hnd1].
    specialize (Hnd1 Hnd).
    destruct (queue_onChangedState delta w1 Hnd1) as [Hother2 Hthis2].
    destruct (Z.eq_dec d (deltaId delta)) as [->|Hne].
    + split; [reflexivity|].
      destruct (Hthis1 Hin) as [Hstill|(-> & Hgone & t & Hb)].
      * destruct ok; [|contradiction].
        exact (Hthis2 Hstill Hout).
      * left. exists t.
        apply (onChangedState_keeps delta w1 t Hb Hgone).
    + exfalso. apply Hin.
      rewrite <- (Hother1 d Hne).
      destruct ok; [|exact Hout].
      rewrite <- (Hother2 d Hne). exact Hout.
  - destruct Hsame. apply (frames_poll tabId o w Hnd).
  - destruct Hsame. unfold pollingTick. destruct (_ && _); reflexivity.
  - destruct Hsame. apply (frames_startOne _ tabId now o w Hnd).
  - destruct Hsame. apply (frames_startOne _ tabId now o w Hnd).
  - destruct Hsame. apply (frames_onMessage m w Hnd).
Qed.

Lemma queued_download_leaves_bound_or_complete_witness :
  let w := @run AsciiPlatform parkedNameless initialWorld in
  exists t, bound (@handle AsciiPlatform (DownloadChanged nameDetermined) w) t
            = Some 5.
Proof.
  intros w.
  destruct (@queued_download_leaves_bound_or_complete AsciiPlatform
              (DownloadChanged nameDetermined) w 5)
    as (delta & Ee & _ & [Hb|Hc]).
  - vm_compute. repeat constructor; simpl; intuition discriminate.
  - vm_compute. discriminate.
  - vm_compute. reflexivity.
  - exact Hb.
  - injection Ee as <-. discriminate.
Defined.

Section EntryFacts.
Context `{Platform}.
Implicit Types (w : World) (t k : Z).

(** Apart from the tab it is called for, [startOne] leaves the tasks as
    they are. *)
Lemma task_startOne_other det tabId now o w t :
  t <> tabId -> task (startOne det tabId now o w) t = task w t.
Proof.
  intros Hne. unfold startOne. destruct o as [msg|tab msg|tab].
  - rewrite task_updateTabState, bool_decide_eq_false_2 by exact Hne.
    reflexivity.
  - rewrite task_updateTabState, bool_decide_eq_false_2 by exact Hne.
    unfold task. cbn [downloadState saveStateToStorage broadcastStatusUpdate
                      emit setDownloadState].
    apply get_set_ne. congruence.
  - unfold task. rewrite downloadState_addToMonitoring.
    cbn [downloadState saveStateToStorage broadcastStatusUpdate emit
         setDownloadState].
    apply get_set_ne. congruence.
Qed.




End EntryFacts.



Section ErrorFacts.
Context `{Platform}.
Implicit Types (w : World) (t k : Z).

Lemma kt_error w w' t st' :
  keepsTerminal w w' -> task w' t = Some st' -> status st' = Some Error ->
  exists st, task w t = Some st /\ status st = Some Error.
Proof.
  intros Hk Ht Hs. destruct (Hk t st' Ht (or_intror Hs)) as (st & Hst & E).
  exists st. split; [exact Hst|congruence].
Qed.

Lemma kt_startOne_injected det tabId now tab w :
  keepsTerminal w (startOne det tabId now (Injected tab) w).
Proof.
  unfold startOne.
  eapply kt_trans; [|apply kt_same; apply downloadState_addToMonitoring].
  eapply kt_set; [|reflexivity]. intros [Hs|Hs]; discriminate.
Qed.

Lemma kt_onMessage m w :
  NoDup (JSMap.keys (downloadState w)) ->
  (forall tab e, m <> DOWNLOAD_ERROR (Some tab) e) ->
  keepsTerminal w (onMessage m w).
Proof.
  intros Hnd Hm.
  destruct m as [|[tab|]|[tab|] p|[tab|] e|]; cbn [onMessage];
    try apply kt_refl.
  - eapply kt_trans; [|apply kt_same; apply downloadState_addToMonitoring].
    eapply kt_trans; [|apply kt_updateTabState].
    intros t st' Ht Hs. unfold task in Ht. simpl in Ht.
    destruct (Z.eq_dec tab t) as [->|Hne].
    + rewrite get_set_eq in Ht. inversion Ht; subst. simpl in Hs.
      unfold task. destruct (JSMap.get t (downloadState w)) as [s|].
      * exists s. split; reflexivity.
      * destruct Hs as [Hs|Hs]; discriminate.
    + rewrite get_set_ne in Ht by exact Hne.
      exists st'. split; [exact Ht|reflexivity].
  - eapply kt_trans; [|apply kt_updateTabState].
    apply kt_modifyState. reflexivity.
  - destruct (Hm tab e). reflexivity.
  - intros t st' Ht _. exists st'. split; [|reflexivity].
    unfold task in *.
    cbn [downloadState saveStateToStorage emit setDownloadState] in Ht.
    apply get_filter in Ht. destruct Ht as [Hi _].
    apply (In_get _ _ _ Hnd). exact Hi.
Qed.

(** The second part of the [onChanged] listener puts in error only the
    task bound to the download of the delta, and only on [interrupted]. *)
Lemma onChangedState_errors delta w t st' :
  NoDup (JSMap.keys (downloadState w)) ->
  task (onChangedState delta w) t = Some st' ->
  status st' = Some Error ->
  (exists st, task w t = Some st /\ status st = Some Error)
  \/ (deltaState delta = Some PhaseInterrupted
      /\ downloadId st' = Some (deltaId delta)).
Proof.
  intros Hnd. unfold onChangedState.
  destruct (deltaState delta) as [cur|];
    [|intros Ht Hs; left; exists st'; split; assumption].
  destruct (findBound (deltaId delta) (downloadState w)) as [tabId|] eqn:Hf.
  - apply findBound_Some in Hf. destruct Hf as (st & Hi & Hd).
    apply (In_get _ _ _ Hnd) in Hi.
    destruct cur; try (intros Ht Hs; left; exists st'; split; assumption).
    + intros Ht Hs.
      match type of Ht with
      | context [updateTabState tabId Error ?m w] =>
          change (task (updateTabState tabId Error m w) t = Some st') in Ht
      end.
      rewrite task_updateTabState in Ht.
      destruct (bool_decide_reflect (t = tabId)) as [->|Hne].
      * right. split; [reflexivity|].
        unfold task in Ht. rewrite Hi in Ht. inversion Ht; subst. exact Hd.
      * left. exists st'. split; assumption.
    + intros Ht Hs.
      change (task (updateTabState tabId Complete [] w) t = Some st') in Ht.
      rewrite task_updateTabState in Ht.
      destruct (bool_decide_reflect (t = tabId)) as [->|Hne].
      * inversion Ht; subst. discriminate.
      * left. exists st'. split; assumption.
  - destruct cur; try (intros Ht Hs; left; exists st'; split; assumption).
    destruct (unmatchedDownloads w !! deltaId delta)
      as [[[[|c f]|] infoUrl]|];
      try (intros Ht Hs; left; exists st'; split; assumption).
    destruct (matchDownloadToTab _ _ _ w) as [[b w']|] eqn:Hm;
      [|intros Ht Hs; left; exists st'; split; assumption].
    pose proof (kt_match _ _ _ _ _ _ Hm) as Hk.
    destruct b.
    + destruct (findBound (deltaId delta) (downloadState w'))
        as [tabId|] eqn:Hf2.
      * intros Ht Hs.
        change (task (updateTabState tabId Complete [] w') t = Some st')
          in Ht.
        rewrite task_updateTabState in Ht.
        destruct (bool_decide_reflect (t = tabId)) as [->|Hne].
        -- inversion Ht; subst. discriminate.
        -- left. exact (kt_error _ _ _ _ Hk Ht Hs).
      * intros Ht Hs. left. exact (kt_error _ _ _ _ Hk Ht Hs).
    + intros Ht Hs. left. exact (kt_error _ _ _ _ Hk Ht Hs).
Qed.
End ErrorFacts.

(** X21. Who puts a task in error: a task that is in error after an
    event and was not before is the task bound to a download that the
    delta of the event reports interrupted, or the task of a tab that
    reports [DOWNLOAD_ERROR], or the task of a tab whose start or retry
    failed.  The poller never puts a task in error, also when the tab is
    gone. *)
Theorem error_only_from_failure_reports `{Platform} (e : Event) (w : World)
    (t : Z) (st' : TabState) :
  NoDup (JSMap.keys (downloadState w)) ->
  (forall st, task w t = Some st -> status st <> Some Error) ->
  task (handle e w) t = Some st' -> status st' = Some Error ->
  (exists delta,
     e = DownloadChanged delta
     /\ deltaState delta = Some PhaseInterrupted
     /\ downloadId st' = Some (deltaId delta))
  \/ (exists message, e = Received (DOWNLOAD_ERROR (Some t) message))
  \/ (exists now o,
        (e = StartDownload t now o \/ e = RetryDownload t now o)
        /\ forall tab, o <> Injected tab).
Proof.
  intros Hnd Hnot Ht Hs.
  assert (Hold : ~ exists st, task w t = Some st /\ status st = Some Error).
  { intros (st & Hst & He). exact (Hnot st Hst He). }
  assert (Hkeeps : keepsTerminal w (handle e w) -> False).
  { intros Hk. apply Hold. exact (kt_error _ _ _ _ Hk Ht Hs). }
  assert (Hstart : forall det tabId now o,
            task (startOne det tabId now o w) t = Some st' ->
            t = tabId /\ forall tab, o <> Injected tab).
  { intros det tabId now o Ht'.
    destruct (Z.eq_dec t tabId) as [->|Hne].
    - split; [reflexivity|]. intros tab ->.
      apply Hold.
      exact (kt_error _ _ _ _ (kt_startOne_injected det tabId now tab w)
               Ht' Hs).
    - rewrite task_startOne_other in Ht' by exact Hne.
      destruct (Hnot st' Ht' Hs). }
  destruct e as [item|delta|tabId o| |tabId now o|tabId now o|m];
    cbn [handle] in *.
  - destruct Hkeeps. apply kt_onCreated.
  - left. exists delta. split; [reflexivity|].
    unfold onChanged in *.
    destruct (onChangedFilename delta w) as [w1 ok] eqn:E1.
    pose proof (kt_onChangedFilename _ _ _ _ E1) as H1.
    destruct (onChangedFilename_frame _ _ _ _ E1) as [_ Hnd1].
    destruct ok; [|destruct (Hkeeps H1)].
    destruct (onChangedState_errors delta w1 t st' (Hnd1 Hnd) Ht Hs)
      as [(st1 & Ht1 & Hs1)|Hcause]; [|exact Hcause].
    destruct Hold. exact (kt_error _ _ _ _ H1 Ht1 Hs1).
  - destruct Hkeeps. apply kt_poll.
  - destruct Hkeeps. apply kt_same.
    unfold pollingTick. destruct (_ && _); reflexivity.
  - right. right. destruct (Hstart _ _ _ _ Ht) as [-> Ho].
    exists now, o. split; [left; reflexivity|exact Ho].
  - right. right. destruct (Hstart _ _ _ _ Ht) as [-> Ho].
    exists now, o. split; [right; reflexivity|exact Ho].
  - assert (Hcases : (exists tab message,
                        m = DOWNLOAD_ERROR (Some tab) message)
                     \/ forall tab message,
                          m <> DOWNLOAD_ERROR (Some tab) message).
    { destruct m as [|[tab|]|[tab|] p|[tab|] msg|];
        try (right; intros tab' msg'; discriminate).
      left. exists tab, msg. reflexivity. }
    destruct Hcases as [(tab & message & ->)|Hm].
    + right. left. exists message.
      destruct (Z.eq_dec t tab) as [->|Hne]; [reflexivity|].
      exfalso. cbn [onMessage] in Ht.
      change (task (updateTabState tab Error message w) t = Some st') in Ht.
      rewrite task_updateTabState, bool_decide_eq_false_2 in Ht by exact Hne.
      exact (Hnot st' Ht Hs).
    + destruct Hkeeps. apply kt_onMessage; assumption.
Qed.

Lemma error_only_from_failure_reports_witness :
  let e := Received (DOWNLOAD_ERROR (Some 1) (lit "no button")) in
  option_map status (task (@handle AsciiPlatform e nearlyDone) 1)
  = Some (Some Error).
Proof.
  intros e.
  destruct (task (@handle AsciiPlatform e nearlyDone) 1) as [st'|] eqn:Ht;
    [|vm_compute in Ht; discriminate].
  assert (Hs : status st' = Some Error).
  { vm_compute in Ht. injection Ht as <-. reflexivity. }
  destruct (@error_only_from_failure_reports AsciiPlatform e nearlyDone 1 st')
    as [(delta & Ee & _)|[(message & _)|(now & o & [Ee|Ee] & _)]];
    try discriminate; try assumption.
  - simpl. constructor; [simpl; tauto|constructor].
  - intros st Hst. vm_compute in Hst. injection Hst as <-. discriminate.
  - simpl. rewrite Hs. reflexivity.
Defined.

Section SingleDownloadFacts.
Context `{Platform}.

(** On a registry with one task, in progress and not bound, whose score
    against the file name is 100, the matcher binds that task. *)
Lemma match_single_task (d t : Z) (filename : jsstring)
    (dlUrl : option jsstring) (entry : TabState) (w : World) :
  downloadState w = [(t, entry)] ->
  status entry = Some InProgress -> downloadId entry = None ->
  calculateMatchScore (Some filename) (title entry) (galleryId entry)
  = Normal (Num 100) ->
  matchDownloadToTab d filename dlUrl w = Normal (true, bindTo d t entry w).
Proof.
  intros Hreg Hs Hd Hscore. unfold matchDownloadToTab, bindTo.
  rewrite Hreg. cbn [bestCandidate].
  rewrite bool_decide_eq_true_2 by exact Hs.
  rewrite Hd, Hscore. cbn [negb truthyId num_gtb num_geb JSMap.get].
  change (0 <? 100) with true. change (30 <=? 100) with true. cbv iota.
  rewrite Z.eqb_refl. reflexivity.
Qed.
End SingleDownloadFacts.

(** X22. The common case works from end to end: let the worker start
    with empty maps; a tab of a gallery titled [T] is started and its
    button clicked, the download of [<T>.zip] is created in some
    directory, and the download completes.  Then the task of the tab is
    complete, with empty details, bound to the download; the tab is not
    monitored any more, the download is not in the unmatched queue, and
    the last thing sent is the write of the registry to storage. *)
Theorem single_download_completes `{Platform} (t now d : Z)
    (u dlUrl : option jsstring) (dir T : jsstring) (sep : N) :
  isSlash sep = true -> T <> [] -> trim T = T ->
  noSeparator T -> (forall c, In c T -> c <> 124%N) ->
  exists st,
    task (run [ StartDownload t now (Injected (titledTab u T));
                DownloadCreated (archiveOf d dir sep T dlUrl);
                DownloadChanged (completionOf d) ] initialWorld) t
    = Some st
    /\ status st = Some Complete /\ details st = Some []
    /\ downloadId st = Some d
    /\ (t ∉ monitoredTabs
              (run [ StartDownload t now (Injected (titledTab u T));
                     DownloadCreated (archiveOf d dir sep T dlUrl);
                     DownloadChanged (completionOf d) ] initialWorld))
    /\ unmatchedDownloads
         (run [ StartDownload t now (Injected (titledTab u T));
                DownloadCreated (archiveOf d dir sep T dlUrl);
                DownloadChanged (completionOf d) ] initialWorld) !! d = None
    /\ savedLast
         (run [ StartDownload t now (Injected (titledTab u T));
                DownloadCreated (archiveOf d dir sep T dlUrl);
                DownloadChanged (completionOf d) ] initialWorld).
Proof.
  intros Hsep Hne Htrim Hslash Hbar.
  set (entry := mkTabState (Some InProgress) None (Some textProcessing)
                  (Some (Num 0)) u (Some (T ++ lit " | Hitomi.la"))
                  (extractGalleryId u) (Some false) (Some now)).
  set (w1 := handle (StartDownload t now (Injected (titledTab u T)))
               initialWorld).
  assert (Hreg1 : downloadState w1 = [(t, entry)]) by reflexivity.
  assert (Hq1 : unmatchedDownloads w1 = ∅) by reflexivity.
  (* the download is bound when it is created *)
  assert (Hscore : calculateMatchScore
                     (Some (dir ++ sep :: T ++ lit ".zip"))
                     (title entry) (galleryId entry) = Normal (Num 100)).
  { apply score_of_equal_names.
    etransitivity; [apply cleanFilename_titled; assumption|].
    symmetry. apply cleanTitle_titled; assumption. }
  assert (E2 : handle (DownloadCreated (archiveOf d dir sep T dlUrl)) w1
               = bindTo d t entry w1).
  { cbn [handle]. unfold onCreated, archiveOf. cbn [itemFilename itemId itemUrl].
    remember (dir ++ sep :: T ++ lit ".zip") as F eqn:EF.
    destruct F as [|c f]; [destruct dir; discriminate|].
    rewrite (match_single_task d t (c :: f) dlUrl entry w1 Hreg1 eq_refl
               eq_refl Hscore).
    reflexivity. }
  set (w2 := bindTo d t entry w1) in *.
  assert (Hreg2 : downloadState w2 = [(t, withDownloadId d entry)]).
  { unfold w2, bindTo.
    cbn [downloadState saveStateToStorage emit setDownloadState].
    rewrite Hreg1. cbn [JSMap.set]. rewrite Z.eqb_refl. reflexivity. }
  (* its completion completes the task *)
  assert (Hf : findBound d (downloadState w2) = Some t).
  { rewrite Hreg2. unfold findBound. cbn [find snd downloadId withDownloadId].
    rewrite bool_decide_eq_true_2 by reflexivity. reflexivity. }
  assert (E3 : handle (DownloadChanged (completionOf d)) w2
               = saveStateToStorage
                   (setUnmatched (base.delete d (unmatchedDownloads
                        (updateTabState t Complete [] w2)))
                      (setMonitoredTabs
                         (monitoredTabs (updateTabState t Complete [] w2)
                          ∖ {[t]})
                         (updateTabState t Complete [] w2)))).
  { cbn [handle]. unfold onChanged, onChangedFilename, onChangedState.
    cbn [completionOf deltaFilename deltaState deltaId].
    rewrite Hf. reflexivity. }
  change (run [ StartDownload t now (Injected (titledTab u T));
                DownloadCreated (archiveOf d dir sep T dlUrl);
                DownloadChanged (completionOf d) ] initialWorld)
    with (handle (DownloadChanged (completionOf d))
            (handle (DownloadCreated (archiveOf d dir sep T dlUrl)) w1)).
  rewrite E2. fold w2. rewrite E3.
  exists (withDetails [] (withStatus Complete (withDownloadId d entry))).
  split; [|split; [reflexivity|split; [reflexivity|split; [reflexivity|]]]].
  - change (task (updateTabState t Complete [] w2) t
            = Some (withDetails []
                      (withStatus Complete (withDownloadId d entry)))).
    rewrite task_updateTabState, bool_decide_eq_true_2 by reflexivity.
    unfold task. rewrite Hreg2. cbn [JSMap.get]. rewrite Z.eqb_refl.
    reflexivity.
  - split; [|split].
    + cbn [monitoredTabs saveStateToStorage emit setUnmatched
           setMonitoredTabs].
      apply not_elem_of_difference. right.
      apply elem_of_singleton. reflexivity.
    + cbn [unmatchedDownloads saveStateToStorage emit setUnmatched].
      apply lookup_delete_eq.
    + eexists. reflexivity.
Qed.

Lemma single_download_completes_witness :
  exists st,
    task (@run AsciiPlatform
            [ StartDownload 1 100 (Injected (titledTab None (lit "My Gallery")));
              DownloadCreated
                (archiveOf 5 (lit "C:\Downloads") 92%N (lit "My Gallery") None);
              DownloadChanged (completionOf 5) ] initialWorld) 1
    = Some st
    /\ status st = Some Complete.
Proof.
  destruct (@single_download_completes AsciiPlatform 1 100 5 None None
              (lit "C:\Downloads") (lit "My Gallery") 92%N)
    as (st & Ht & Hs & _).
  - reflexivity.
  - discriminate.
  - reflexivity.
  - intros c Hc. vm_compute in Hc.
    repeat (destruct Hc as [<-|Hc]; [reflexivity|]). destruct Hc.
  - intros c Hc. vm_compute in Hc.
    repeat (destruct Hc as [<-|Hc]; [discriminate|]). destruct Hc.
  - exists st. split; assumption.
Defined.

(* ===================================================================== *)
(** * Properties of the script polled in the page                         *)
(* ===================================================================== *)

Section DecimalFacts.
Implicit Types (ds v : jsstring) (c : N).

(** Computes the digit [c - 48] of a known character. *)
Ltac digit_value :=
  match goal with
  | |- context [(?a - 48)%N] =>
      let v := eval vm_compute in (a - 48)%N in
      change (a - 48)%N with v; cbv iota
  end.

Lemma isDigit_cases c :
  isDigit c = true ->
  c = 48%N \/ c = 49%N \/ c = 50%N \/ c = 51%N \/ c = 52%N \/ c = 53%N
  \/ c = 54%N \/ c = 55%N \/ c = 56%N \/ c = 57%N.
Proof.
  unfold isDigit. rewrite andb_true_iff, !N.leb_le. lia.
Qed.

Lemma digitsValue_acc ds :
  forall acc,
    fold_left (fun a c => 10 * a + (Z.of_N c - 48)) ds acc
    = acc * 10 ^ Z.of_nat (List.length ds) + digitsValue ds.
Proof.
  unfold digitsValue. induction ds as [|c ds IH]; intros acc.
  - simpl. lia.
  - cbn [fold_left List.length]. rewrite IH, (IH (10 * 0 + _)).
    rewrite Nat2Z.inj_succ, Z.pow_succ_r by lia. lia.
Qed.

Lemma digitsValue_cons c ds :
  digitsValue (c :: ds)
  = (Z.of_N c - 48) * 10 ^ Z.of_nat (List.length ds) + digitsValue ds.
Proof.
  unfold digitsValue at 1. cbn [fold_left]. rewrite digitsValue_acc. lia.
Qed.

Lemma usize_toUint ds :
  DecimalPos.Unsigned.usize (toUint ds) = N.of_nat (List.length ds).
Proof.
  induction ds as [|c ds IH]; [reflexivity|].
  cbn [toUint List.length]. rewrite Nat2N.inj_succ, <- IH.
  destruct (c - 48)%N as [|[[[[]|[]|]|[[]|[]|]|]|[[[]|[]|]|[[]|[]|]|]|]];
    reflexivity.
Qed.

(** The value of a digit followed by a numeral. *)
Lemma of_uint_cons (k : N) (D : Decimal.uint -> Decimal.uint)
    (d : Decimal.uint) :
  (forall d', Decimal.revapp (D d') Decimal.Nil
              = Decimal.revapp d' (D Decimal.Nil)) ->
  DecimalPos.Unsigned.of_lu (D Decimal.Nil) = k ->
  N.of_uint (D d)
  = (k * 10 ^ DecimalPos.Unsigned.usize d + N.of_uint d)%N.
Proof.
  intros Hrev Hk. unfold N.of_uint.
  rewrite !DecimalPos.Unsigned.of_uint_alt. unfold Decimal.rev at 1.
  rewrite Hrev, DecimalPos.Unsigned.of_lu_revapp, Hk. lia.
Qed.

Lemma of_uint_toUint ds :
  forallb isDigit ds = true ->
  Z.of_N (N.of_uint (toUint ds)) = digitsValue ds.
Proof.
  induction ds as [|c ds IH]; [reflexivity|].
  cbn [forallb]. rewrite andb_true_iff. intros [Hc Hd].
  rewrite digitsValue_cons, <- (IH Hd). clear IH.
  assert (Hlen := usize_toUint ds).
  cbn [toUint].
  destruct (isDigit_cases c Hc)
    as [->|[->|[->|[->|[->|[->|[->|[->|[->| ->]]]]]]]]];
    digit_value;
    match goal with
    | |- context [N.of_uint (?D (toUint ds))] =>
        rewrite (of_uint_cons _ (fun d => D d) (toUint ds) (fun _ => eq_refl)
                   eq_refl)
    end;
    rewrite Hlen, N2Z.inj_add, N2Z.inj_mul, N2Z.inj_pow, nat_N_Z;
    reflexivity.
Qed.

Lemma string_of_toUint ds :
  forallb isDigit ds = true ->
  lit (NilEmpty.string_of_uint (toUint ds)) = ds.
Proof.
  induction ds as [|c ds IH]; [reflexivity|].
  cbn [forallb]. rewrite andb_true_iff. intros [Hc Hd].
  cbn [toUint].
  destruct (isDigit_cases c Hc)
    as [->|[->|[->|[->|[->|[->|[->|[->|[->| ->]]]]]]]]];
    digit_value; cbn [NilEmpty.string_of_uint];
    unfold lit; cbn [list_ascii_of_string List.map]; f_equal;
    apply (IH Hd).
Qed.

Lemma unorm_toUint v :
  canonicalNumeral v -> Decimal.unorm (toUint v) = toUint v.
Proof.
  intros [[Hne Hd] Hcanon].
  destruct Hcanon as [->|Hhd]; [reflexivity|].
  destruct v as [|c ds]; [congruence|]. cbn [hd] in Hhd.
  cbn [forallb] in Hd. apply andb_true_iff in Hd. destruct Hd as [Hc _].
  cbn [toUint].
  destruct (isDigit_cases c Hc)
    as [->|[->|[->|[->|[->|[->|[->|[->|[->| ->]]]]]]]]];
    [congruence|..]; digit_value; reflexivity.
Qed.

(** Printing the value of a canonical numeral gives the numeral back. *)
Lemma numberToString_digitsValue v :
  canonicalNumeral v -> numberToString (Num (digitsValue v)) = v.
Proof.
  intros Hv. pose proof Hv as [[Hne Hd] _].
  unfold numberToString.
  rewrite <- (of_uint_toUint v Hd).
  change (Z.of_N (N.of_uint (toUint v)))
    with (Z.of_int (Decimal.Pos (toUint v))).
  rewrite DecimalZ.to_of. cbn [Decimal.norm].
  rewrite (unorm_toUint v Hv).
  destruct v as [|c ds]; [congruence|].
  assert (Hnil : toUint (c :: ds) <> Decimal.Nil).
  { cbn [toUint]. destruct (c - 48)%N as [|[[[[]|[]|]|[[]|[]|]|]|[[[]|[]|]|[[]|[]|]|]|]];
      discriminate. }
  cbn [NilZero.string_of_int]. unfold NilZero.string_of_uint.
  destruct (toUint (c :: ds)) eqn:E; try congruence;
    rewrite <- E; apply string_of_toUint; exact Hd.
Qed.

Lemma parseInt10_digits v :
  digitRun v -> parseInt10 v = Num (digitsValue v).
Proof.
  intros [Hne Hd].
  destruct v as [|c ds]; [congruence|].
  assert (Htake : takeWhile isDigit (c :: ds) = c :: ds).
  { apply takeWhile_full. apply forallb_forall. exact Hd. }
  cbn [forallb] in Hd. apply andb_true_iff in Hd. destruct Hd as [Hc _].
  unfold parseInt10, trimStart.
  destruct (isDigit_cases c Hc)
    as [->|[->|[->|[->|[->|[->|[->|[->|[->| ->]]]]]]]]];
    cbn [dropWhile];
    match goal with
    | |- context [isSpace ?a] => change (isSpace a) with false
    end;
    cbv iota; rewrite Htake; f_equal; lia.
Qed.
End DecimalFacts.

Section PageFacts.
Implicit Types (w : World) (page : Page) (bar : Element).

(** A poll of a page on which the script saw a running download. *)
Lemma pollPage_downloading tabId page w cur n :
  task w tabId = Some cur ->
  getProgressFromPage page = (Downloading, n) ->
  task (pollPage tabId page w) tabId = Some (reported n (percent n) cur)
  /\ sent (pollPage tabId page w)
     = sent w ++ [StatusUpdate tabId InProgress (percent n)].
Proof.
  intros Ht Hp. unfold pollPage, pollTabProgress. rewrite Hp.
  pose proof Ht as Hg. unfold task in Hg. rewrite Hg. split.
  - rewrite task_modifyState, bool_decide_eq_true_2 by reflexivity.
    rewrite task_updateTabState, bool_decide_eq_true_2 by reflexivity.
    rewrite task_modifyState, bool_decide_eq_true_2 by reflexivity.
    rewrite Ht. destruct cur; reflexivity.
  - unfold modifyState at 1.
    destruct (JSMap.get tabId (downloadState (updateTabState _ _ _ _)));
      cbn [sent setDownloadState updateTabState broadcastStatusUpdate emit];
      unfold modifyState; rewrite Hg; reflexivity.
Qed.

Lemma getProgressFromPage_bar page bar :
  progressbar page = Some bar -> shown bar = true ->
  getProgressFromPage page
  = (Downloading,
     parseInt10 (if truthyStr (ariaValueNow bar)
                 then match ariaValueNow bar with
                      | Some v => v
                      | None => lit "0"
                      end
                 else lit "0")).
Proof.
  intros Hbar Hshown. unfold getProgressFromPage.
  rewrite Hbar, Hshown. reflexivity.
Qed.
End PageFacts.

(** X23. The progress text mirrors the page: when the page shows a
    progress bar whose [aria-valuenow] is a decimal numeral as JavaScript
    prints one (below 2^53), a poll of a task the registry has stores that
    number as its progress, sets its details to the numeral followed by
    [%], its status to [in-progress] and [hadProgressBar] to [true], keeps
    the rest of its state, and sends that status update and nothing
    else. *)
Theorem progress_text_mirrors_page (tabId : Z) (page : Page) (bar : Element)
    (v : jsstring) (w : World) (cur : TabState) :
  task w tabId = Some cur ->
  progressbar page = Some bar -> shown bar = true ->
  ariaValueNow bar = Some v -> canonicalNumeral v ->
  digitsValue v < 2 ^ 53 ->
  task (pollPage tabId page w) tabId
  = Some (reported (Num (digitsValue v)) (v ++ lit "%") cur)
  /\ sent (pollPage tabId page w)
     = sent w ++ [StatusUpdate tabId InProgress (v ++ lit "%")].
Proof.
  intros Ht Hbar Hshown Hv Hcanon _.
  pose proof (getProgressFromPage_bar page bar Hbar Hshown) as Hp.
  rewrite Hv in Hp.
  assert (Htruthy : truthyStr (Some v) = true).
  { destruct Hcanon as [[Hne _] _]. destruct v; [congruence|reflexivity]. }
  rewrite Htruthy, (parseInt10_digits v (proj1 Hcanon)) in Hp.
  destruct (pollPage_downloading tabId page w cur _ Ht Hp) as [Et Es].
  unfold percent in Et, Es.
  rewrite (numberToString_digitsValue v Hcanon) in Et, Es.
  split; assumption.
Qed.

Lemma progress_text_mirrors_page_witness :
  task (pollPage 1 pageAt42 (oneTask "My Gallery | Hitomi.la")) 1
  = Some (reported (Num 42) (lit "42%")
            (unboundTask (Some (lit "My Gallery | Hitomi.la")))).
Proof.
  apply (progress_text_mirrors_page 1 pageAt42
           (mkElement (lit "block") (Some (lit "42"))) (lit "42")
           (oneTask "My Gallery | Hitomi.la")
           (unboundTask (Some (lit "My Gallery | Hitomi.la"))));
    try reflexivity.
  split; [split; [discriminate|reflexivity]|].
  right. discriminate.
Defined.



(* ===================================================================== *)
(** * Properties of the worker of version 2.1.0                           *)
(* ===================================================================== *)

Section V210Facts.
Import V210.
Implicit Types (w : V210.World) (t k : Z).

Lemma v210_task_link t d st w k :
  task (link t d st w) k
  = if bool_decide (k = t) then Some (withDownloadId d st) else task w k.
Proof.
  unfold task, link. cbn [downloadState saveStateToStorage emit
                          setDownloadState].
  destruct (bool_decide_reflect (k = t)) as [->|Hne].
  - apply get_set_eq.
  - apply get_set_ne. congruence.
Qed.

(** A download that finds a tab waiting, in progress, goes to it. *)
Lemma v210_onCreated_head item w t rest st :
  pendingDownloadTabs w = t :: rest ->
  task w t = Some st -> status st = Some InProgress ->
  onCreated item w = link t (itemId item) st (setPending rest w).
Proof.
  intros Hp Ht Hs. unfold onCreated. rewrite Hp.
  cbn [downloadState setPending]. unfold task in Ht. rewrite Ht.
  rewrite bool_decide_eq_true_2 by exact Hs. reflexivity.
Qed.

Lemma v210_startOne_injected tabId tab w :
  pendingDownloadTabs (startOne tabId (Injected tab) w)
  = pendingDownloadTabs w ++ [tabId]
  /\ (exists st, task (startOne tabId (Injected tab) w) tabId = Some st
                 /\ status st = Some InProgress)
  /\ forall k, k <> tabId ->
       task (startOne tabId (Injected tab) w) k = task w k.
Proof.
  unfold startOne, addToMonitoring, startProgressPolling, task.
  destruct (progressPolling _);
    cbn [pendingDownloadTabs downloadState setProgressPolling
         setMonitoredTabs setPending saveStateToStorage
         broadcastStatusUpdate emit setDownloadState];
    (split; [reflexivity|]; split;
     [eexists; split; [apply get_set_eq|reflexivity]
     |intros k Hne; apply get_set_ne; congruence]).
Qed.

(** From a world where the tabs of [pend] wait, in progress: the
    downloads go to the tabs in the order of the clicks, and no other
    task is touched. *)
Lemma v210_fifo events :
  forall w pend,
    pendingDownloadTabs w = pend ->
    NoDup (pend ++ started events) ->
    (forall t, In t pend ->
       exists st, task w t = Some st /\ status st = Some InProgress) ->
    clicksThenDownloads (List.length pend) events ->
    (forall i t d,
       nth_error (pend ++ started events) i = Some t ->
       nth_error (created events) i = Some d ->
       bound (run events w) t = Some d)
    /\ (forall k, ~ In k (pend ++ started events) ->
          task (run events w) k = task w k).
Proof.
  induction events as [|e events IH]; intros w pend Hp Hnd Hwait Hord.
  - split; [|reflexivity]. intros [|i] t d _ Hd; discriminate.
  - destruct e as [item|delta|tabId o| | |tabId [msg|tab msg|tab]| |tabId o|m];
      cbn [clicksThenDownloads] in Hord; try contradiction.
    + (* a new download *)
      destruct pend as [|t rest]; [contradiction|].
      cbn [List.length] in Hord.
      change (started (DownloadCreated item :: events)) with (started events)
        in *.
      change (created (DownloadCreated item :: events))
        with (itemId item :: created events).
      change (run (DownloadCreated item :: events) w)
        with (run events (onCreated item w)).
      destruct (Hwait t (or_introl eq_refl)) as (st & Ht & Hs).
      rewrite (v210_onCreated_head item w t rest st Hp Ht Hs).
      set (w1 := link t (itemId item) st (setPending rest w)).
      assert (Htask1 : forall k, task w1 k
                = if bool_decide (k = t)
                  then Some (withDownloadId (itemId item) st) else task w k).
      { intros k. unfold w1. rewrite v210_task_link. reflexivity. }
      cbn [app] in Hnd. apply NoDup_cons_iff in Hnd.
      destruct Hnd as [Hfresh Hnd].
      destruct (IH w1 rest eq_refl Hnd) as [Hbind Hframe].
      * intros k Hk. rewrite Htask1.
        rewrite bool_decide_eq_false_2.
        -- apply Hwait. right. exact Hk.
        -- intros ->. apply Hfresh. apply in_or_app. left. exact Hk.
      * exact Hord.
      * split.
        -- intros [|i] k d Hk Hd.
           ++ cbn [app nth_error] in Hk, Hd.
              injection Hk as <-. injection Hd as <-.
              unfold bound. rewrite (Hframe t Hfresh), Htask1.
              rewrite bool_decide_eq_true_2 by reflexivity. reflexivity.
           ++ cbn [app nth_error] in Hk, Hd. exact (Hbind i k d Hk Hd).
        -- intros k Hk. cbn [app] in Hk.
           rewrite Hframe by (intros Hi; apply Hk; right; exact Hi).
           rewrite Htask1, bool_decide_eq_false_2; [reflexivity|].
           intros ->. apply Hk. left. reflexivity.
    + (* a click that succeeds *)
      change (started (StartDownload tabId (Injected tab) :: events))
        with (tabId :: started events) in *.
      change (created (StartDownload tabId (Injected tab) :: events))
        with (created events).
      change (run (StartDownload tabId (Injected tab) :: events) w)
        with (run events (startOne tabId (Injected tab) w)).
      destruct (v210_startOne_injected tabId tab w) as (Hp1 & Hnew & Hold).
      assert (Elist : (pend ++ [tabId]) ++ started events
                      = pend ++ tabId :: started events).
      { rewrite <- app_assoc. reflexivity. }
      destruct (IH (startOne tabId (Injected tab) w) (pend ++ [tabId]))
        as [Hbind Hframe].
      * rewrite Hp1, Hp. reflexivity.
      * rewrite Elist. exact Hnd.
      * intros t Ht. apply in_app_or in Ht. destruct Ht as [Ht|[<-|[]]].
        -- rewrite Hold; [apply Hwait; exact Ht|].
           intros ->. apply NoDup_remove_2 in Hnd. apply Hnd.
           apply in_or_app. left. exact Ht.
        -- exact Hnew.
      * rewrite length_app, Nat.add_1_r. exact Hord.
      * rewrite Elist in Hbind, Hframe. split; [exact Hbind|].
        intros k Hk. rewrite (Hframe k Hk). apply Hold.
        intros ->. apply Hk. apply in_or_app. right. left. reflexivity.
Qed.
End V210Facts.

(** X25. In the worker of version 2.1.0 the downloads go to the tabs in
    the order of the clicks: after [handleStartDownloads] has emptied the
    list of waiting tabs, let tabs be started (each found, and its button
    clicked) and downloads be created in any order such that no download
    comes before its click; if no tab is started twice, the i-th download
    is bound to the i-th tab, whatever the file names. *)
Theorem v210_downloads_go_in_click_order (events : list V210.Event)
    (w : V210.World) :
  V210.clicksThenDownloads 0 events ->
  NoDup (V210.started events) ->
  forall i t d,
    nth_error (V210.started events) i = Some t ->
    nth_error (V210.created events) i = Some d ->
    V210.bound (V210.run (V210.StartCalled :: events) w) t = Some d.
Proof.
  intros Hord Hnd.
  change (V210.run (V210.StartCalled :: events) w)
    with (V210.run events (V210.clearPending w)).
  destruct (v210_fifo events (V210.clearPending w) [] eq_refl Hnd) as [Hb _].
  - intros t [].
  - exact Hord.
  - exact Hb.
Qed.

Lemma v210_downloads_go_in_click_order_witness :
  V210.bound (V210.run (V210.StartCalled :: threeClicks) V210.initialWorld) 2
  = Some 11.
Proof.
  apply (v210_downloads_go_in_click_order threeClicks V210.initialWorld)
    with (i := 1%nat).
  - simpl. exact I.
  - simpl. repeat constructor; simpl; intuition discriminate.
  - reflexivity.
  - reflexivity.
Defined.



Section V210PageFacts.
Import V210.
Implicit Types (w : V210.World) (page : Page).

(** The script reports a download only for a progress bar that is shown
    and has a positive value. *)
Lemma v210_downloading_positive page :
  pageStatus (getProgressFromPage page) = Downloading ->
  hasProgressBar (getProgressFromPage page) = true
  /\ progressBarVisible (getProgressFromPage page) = true
  /\ num_gtb (pageProgress (getProgressFromPage page)) (Num 0) = true.
Proof.
  unfold getProgressFromPage.
  destruct (progressbar page) as [bar|]; cbv zeta beta iota.
  - destruct (shown bar) eqn:Es; cbn [andb negb].
    + destruct (num_gtb _ (Num 0)) eqn:Ep; cbn [pageStatus hasProgressBar
        progressBarVisible pageProgress].
      * rewrite Ep. auto.
      * destruct (match dlButton page with
                  | Some button => shown button
                  | None => false
                  end); discriminate.
    + destruct (match dlButton page with
                | Some button => shown button
                | None => false
                end); discriminate.
  - cbn [andb]. destruct (match dlButton page with
                          | Some button => shown button
                          | None => false
                          end); discriminate.
Qed.

Lemma v210_sent_modifyState k f w : sent (modifyState k f w) = sent w.
Proof. unfold modifyState. destruct (JSMap.get k _); reflexivity. Qed.
End V210PageFacts.

(** X27. In the worker of version 2.1.0 a poll shows a percentage only
    for a positive value: all a poll of a page sends is status updates
    [in-progress] for the polled tab, whose details are either
    [ZIP準備中...] or the progress followed by [%] for a progress that is
    greater than 0 (so never [NaN%] nor [0%]). *)
Theorem v210_percentage_is_positive (tabId : Z) (page : Page)
    (w : V210.World) :
  exists out,
    V210.sent (pollPage210 tabId page w) = V210.sent w ++ out
    /\ forall x, In x out ->
         x = V210.StatusUpdate tabId InProgress textPreparing
         \/ exists p, x = V210.StatusUpdate tabId InProgress (percent p)
                      /\ num_gtb p (Num 0) = true.
Proof.
  assert (Hnone : exists out : list V210.Output,
            V210.sent w = V210.sent w ++ out
            /\ forall x, In x out ->
                 x = V210.StatusUpdate tabId InProgress textPreparing
                 \/ exists p, x = V210.StatusUpdate tabId InProgress (percent p)
                              /\ num_gtb p (Num 0) = true).
  { exists []. split; [symmetry; apply app_nil_r|intros x []]. }
  unfold pollPage210, V210.pollTabProgress.
  destruct (JSMap.get tabId (V210.downloadState w)) as [cur|];
    [|exact Hnone].
  destruct (V210.pageStatus (V210.getProgressFromPage page)) eqn:Est.
  - destruct (v210_downloading_positive page Est) as (Hhas & Hvis & Hpos).
    rewrite Hhas, Hvis. cbn [andb].
    rewrite v210_sent_modifyState.
    exists [V210.StatusUpdate tabId InProgress
              (percent (V210.pageProgress (V210.getProgressFromPage page)))].
    split.
    + cbn [V210.updateTabState V210.sent V210.broadcastStatusUpdate V210.emit
           V210.setDownloadState].
      rewrite v210_sent_modifyState. reflexivity.
    + intros x [<-|[]]. right. eexists. split; [reflexivity|exact Hpos].
  - destruct (_ && _).
    + exists [V210.StatusUpdate tabId InProgress textPreparing]. split.
      * cbn [V210.updateTabState V210.sent V210.broadcastStatusUpdate
             V210.emit V210.setDownloadState].
        rewrite v210_sent_modifyState. reflexivity.
      * intros x [<-|[]]. left. reflexivity.
    + rewrite v210_sent_modifyState. exact Hnone.
  - rewrite v210_sent_modifyState. exact Hnone.
  - rewrite v210_sent_modifyState. exact Hnone.
Qed.
